(** * LibraryBot: the Flibusta client (src/flibusta_client.py)

    A shallow embedding of [FlibustaClient]: the HTML adapter, the feed
    (OPDS) adapter, the public operations that fall back from the first to
    the second, and [download_book]; and of the pure helpers with which
    the bot (src/bot.py) shows the client's results.

    Modelling conventions.
    - A Python [str] is a [string] holding the UTF-8 encoding of the text.
      Substring tests, [split] on an ASCII separator, [replace] and
      comparison ([<] on [str] is code point order, which UTF-8 preserves)
      are exact on such strings.  A [str] with a lone surrogate has no
      UTF-8 encoding and is not modelled.
    - What the library decides is a parameter of the client, and the
      client is verified for every value of it: the character tables
      behind [str.lower], [str.strip], [\d], [\s] and [re.IGNORECASE]
      ([Unicode]); [urllib.parse.unquote] and [urljoin], the XML parser
      and the network ([Env]).  A function of the library that can raise
      gives an outcome.  The samples run on [Basic], which is what the
      library does on their texts.
    - A value that Python allows to be [None] is an [option].
    - The network and the caller's status callback are effects: a
      computation is a function from the trace of events so far to an
      outcome and the extended trace, and an outcome is a value or a raised
      exception. [logger] calls are left out. *)

From stdpp Require Import base option list gmap strings pretty.
From Stdlib Require Import ZArith Ascii String Sorted Permutation Lia.

Set Warnings "-register-all".

Open Scope string_scope.
Open Scope Z_scope.
Open Scope list_scope.

(** ** Python string operations *)

Module Py.

(** [needle in s] *)
Fixpoint contains (needle s : string) : bool :=
  String.prefix needle s ||
  match s with
  | String _ s' => contains needle s'
  | EmptyString => false
  end.

(** [s.startswith(p)] *)
Definition startswith (s p : string) : bool := String.prefix p s.

(** [s[n:]] *)
Fixpoint drop (n : nat) (s : string) : string :=
  match n, s with
  | S k, String _ s' => drop k s'
  | _, _ => s
  end.

(** [s.split(sep)] for a one-character separator: the pieces between the
    occurrences of [sep], so one more piece than occurrences. *)
Fixpoint split_go (sep : ascii) (cur : string) (s : string) : list string :=
  match s with
  | EmptyString => [cur]
  | String a s' =>
      if Ascii.eqb a sep then cur :: split_go sep EmptyString s'
      else split_go sep (cur +:+ String a EmptyString) s'
  end.

Definition split (sep : ascii) (s : string) : list string :=
  split_go sep EmptyString s.

(** [l[-1]] on the non-empty list that [split] returns *)
Definition last_piece (l : list string) : string :=
  List.last l EmptyString.

(** [s.replace(old, new)] for a non-empty [old]: every occurrence, found
    from the left, without overlap.  [skip] counts the characters of an
    occurrence that are still to be passed over. *)
Fixpoint replace_go (old new : string) (skip : nat) (s : string) : string :=
  match s with
  | EmptyString => EmptyString
  | String a s' =>
      match skip with
      | S k => replace_go old new k s'
      | O =>
          if String.prefix old s
          then new +:+ replace_go old new (String.length old - 1) s'
          else String a (replace_go old new O s')
      end
  end.

Definition replace (old new s : string) : string := replace_go old new O s.

Definition in_range (lo hi : N) (a : ascii) : bool :=
  ((lo <=? N_of_ascii a) && (N_of_ascii a <=? hi))%N.

Definition shift (d : Z) (a : ascii) : ascii :=
  ascii_of_N (Z.to_N (Z.of_N (N_of_ascii a) + d)).

Definition lower_ascii (a : ascii) : ascii :=
  if in_range 65 90 a then shift 32 a else a.

(** The characters of a text.  In UTF-8 a character is one byte that is
    not a continuation byte (0x80-0xBF) and the continuation bytes that
    follow it. *)
Definition continuation (a : ascii) : bool := in_range 128 191 a.

Definition head_continues (s : string) : bool :=
  match s with
  | String a _ => continuation a
  | EmptyString => false
  end.

Fixpoint chars (s : string) : list string :=
  match s with
  | EmptyString => []
  | String a s' =>
      match chars s' with
      | c :: cs =>
          if head_continues s' then String a c :: cs
          else String a EmptyString :: c :: cs
      | [] => [String a EmptyString]
      end
  end.

(** [''.join(l)] *)
Fixpoint join (l : list string) : string :=
  match l with
  | [] => EmptyString
  | c :: l' => c +:+ join l'
  end.

(** [s.strip()]: [s] without the white space at its two ends; [space]
    tells the characters that are white space. *)
Fixpoint lstrip (space : string -> bool) (l : list string) : list string :=
  match l with
  | c :: l' => if space c then lstrip space l' else l
  | [] => []
  end.

Fixpoint rstrip (space : string -> bool) (l : list string) : list string :=
  match l with
  | c :: l' =>
      match rstrip space l' with
      | [] => if space c then [] else [c]
      | r => c :: r
      end
  | [] => []
  end.

Definition strip (space : string -> bool) (s : string) : string :=
  join (rstrip space (lstrip space (chars s))).

(** Truth value of a [str] and of an [Optional[str]]. *)
Definition truthy (s : string) : bool :=
  match s with EmptyString => false | _ => true end.

Definition truthy_opt (o : option string) : bool :=
  match o with Some s => truthy s | None => false end.

Definition hex_digit (n : N) : ascii :=
  if (n <? 10)%N then ascii_of_N (48 + n) else ascii_of_N (55 + n).

Definition is_alnum (a : ascii) : bool :=
  in_range 48 57 a || in_range 65 90 a || in_range 97 122 a.

Definition unreserved (a : ascii) : bool :=
  is_alnum a || Ascii.eqb a "_" || Ascii.eqb a "." || Ascii.eqb a "-"
  || Ascii.eqb a "~".

(** [urllib.parse.quote(s, safe='')] *)
Fixpoint quote (s : string) : string :=
  match s with
  | EmptyString => EmptyString
  | String a s' =>
      if unreserved a then String a (quote s')
      else String "%" (String (hex_digit (N_of_ascii a / 16))
                         (String (hex_digit (N_of_ascii a mod 16)) (quote s')))
  end.

End Py.

(** ** The Unicode database of the interpreter

    What the Unicode-aware functions of the library do depends on the
    character tables of the interpreter that runs the client; the client
    is verified for every such table.  A character is given as its UTF-8
    bytes. *)
Record Unicode : Type := mkUnicode {
  lower : string -> string;       (* [str.lower] *)
  isspace : string -> bool;       (* the characters that [str.strip]
                                     removes and that [\s] matches *)
  isdecimal : string -> bool;     (* the characters that [\d] matches *)
  same_letter : string -> string -> bool
                                  (* [same_letter c x]: under
                                     [re.IGNORECASE] the character [x] of
                                     the text matches the character [c]
                                     of a pattern *)
}.

(** ** Regular expressions

    Every pattern of the client is a sequence of literals and of character
    classes under a quantifier, where a capture group encloses exactly one
    quantified class.  [exec] is the backtracking matcher of [re] on such
    patterns: alternatives are tried in priority order (a greedy quantifier
    takes as many characters as it can first, a lazy one as few), and the
    first way to match the whole pattern is the match.

    A class that is a set of ASCII characters or the complement of one
    ([Cls], [Grp]) is matched byte by byte, which is exact on UTF-8: after
    a part of a character nothing of a pattern matches, since every
    pattern goes on with an ASCII character, a whole character or its
    end.  The classes of the Unicode database ([ClsU], [GrpU]: [\d], [\s])
    and the literals under [re.IGNORECASE] ([LitI]) are matched character
    by character. *)

Module Re.

Inductive quant : Type :=
| Once        (* c   *)
| Opt         (* c?  *)
| Star        (* c*  *)
| Plus        (* c+  *)
| LazyStar    (* c*? *)
| LazyPlus.   (* c+? *)

Inductive atom : Type :=
| Lit (s : string)                      (* literal text *)
| LitI (same : string -> string -> bool) (s : string)
                                        (* literal text under IGNORECASE *)
| Cls (c : ascii -> bool) (q : quant)   (* quantified class *)
| Grp (c : ascii -> bool) (q : quant)   (* ( quantified class ) *)
| ClsU (c : string -> bool) (q : quant) (* quantified class of characters *)
| GrpU (c : string -> bool) (q : quant).

Definition pattern : Type := list atom.

(** A match: the text of the groups in order, and the input after it. *)
Definition found : Type := (list string * string)%type.

Definition snoc (s : string) (a : ascii) : string :=
  s +:+ String a EmptyString.

Fixpoint greedy (c : ascii -> bool) (k : string -> string -> option found)
    (taken s : string) : option found :=
  match s with
  | String a s' =>
      if c a then
        match greedy c k (snoc taken a) s' with
        | Some r => Some r
        | None => k taken s
        end
      else k taken s
  | EmptyString => k taken s
  end.

Fixpoint lazy (c : ascii -> bool) (k : string -> string -> option found)
    (taken s : string) : option found :=
  match k taken s with
  | Some r => Some r
  | None =>
      match s with
      | String a s' => if c a then lazy c k (snoc taken a) s' else None
      | EmptyString => None
      end
  end.

Definition one_then (c : ascii -> bool)
    (k : string -> string -> option found) (s : string) : option found :=
  match s with
  | String a s' => if c a then k (String a EmptyString) s' else None
  | EmptyString => None
  end.

Definition rep (c : ascii -> bool) (q : quant)
    (k : string -> string -> option found) (s : string) : option found :=
  match q with
  | Once => one_then c k s
  | Opt =>
      match one_then c k s with
      | Some r => Some r
      | None => k EmptyString s
      end
  | Star => greedy c k EmptyString s
  | Plus => one_then c (greedy c k) s
  | LazyStar => lazy c k EmptyString s
  | LazyPlus => one_then c (lazy c k) s
  end.

(** The same on the characters of the input: [taken] and the rest are
    lists of characters. *)
Fixpoint greedyU (c : string -> bool)
    (k : list string -> list string -> option found)
    (taken s : list string) : option found :=
  match s with
  | a :: s' =>
      if c a then
        match greedyU c k (taken ++ [a]) s' with
        | Some r => Some r
        | None => k taken s
        end
      else k taken s
  | [] => k taken s
  end.

Fixpoint lazyU (c : string -> bool)
    (k : list string -> list string -> option found)
    (taken s : list string) : option found :=
  match k taken s with
  | Some r => Some r
  | None =>
      match s with
      | a :: s' => if c a then lazyU c k (taken ++ [a]) s' else None
      | [] => None
      end
  end.

Definition one_thenU (c : string -> bool)
    (k : list string -> list string -> option found) (s : list string)
    : option found :=
  match s with
  | a :: s' => if c a then k [a] s' else None
  | [] => None
  end.

Definition repU (c : string -> bool) (q : quant)
    (k : list string -> list string -> option found) (s : list string)
    : option found :=
  match q with
  | Once => one_thenU c k s
  | Opt =>
      match one_thenU c k s with
      | Some r => Some r
      | None => k [] s
      end
  | Star => greedyU c k [] s
  | Plus => one_thenU c (greedyU c k) s
  | LazyStar => lazyU c k [] s
  | LazyPlus => one_thenU c (lazyU c k) s
  end.

(** The characters of a literal against those of the input, one for one;
    the rest of the input. *)
Fixpoint literal (same : string -> string -> bool) (l s : list string)
    : option (list string) :=
  match l, s with
  | [], _ => Some s
  | c :: l', x :: s' => if same c x then literal same l' s' else None
  | _ :: _, [] => None
  end.

(** [exec p s]: match [p] at the start of [s]. *)
Fixpoint exec (p : pattern) : string -> option found :=
  match p with
  | [] => fun s => Some ([], s)
  | a :: p' =>
      let k := exec p' in
      match a with
      | Lit l =>
          fun s => if String.prefix l s
                   then k (Py.drop (String.length l) s) else None
      | LitI same l =>
          fun s =>
            match literal same (Py.chars l) (Py.chars s) with
            | Some rest => k (Py.join rest)
            | None => None
            end
      | Cls c q => rep c q (fun _ rest => k rest)
      | Grp c q =>
          rep c q (fun g rest =>
                     match k rest with
                     | Some (gs, r) => Some (g :: gs, r)
                     | None => None
                     end)
      | ClsU c q =>
          fun s => repU c q (fun _ rest => k (Py.join rest)) (Py.chars s)
      | GrpU c q =>
          fun s =>
            repU c q (fun g rest =>
                        match k (Py.join rest) with
                        | Some (gs, r) => Some (Py.join g :: gs, r)
                        | None => None
                        end)
              (Py.chars s)
      end
  end.

(** [re.search(p, s)]: the match at the leftmost position that has one;
    the groups of that match. *)
Fixpoint search (p : pattern) (s : string) : option (list string) :=
  match exec p s with
  | Some (gs, _) => Some gs
  | None =>
      match s with
      | String _ s' => search p s'
      | EmptyString => None
      end
  end.

(** [p.finditer(s)]: the successive matches from the left, each search
    resuming where the previous match ended.  [skip] counts the
    characters of the last match that are still to be passed over. *)
Fixpoint finditer_go (p : pattern) (skip : nat) (s : string)
    : list (list string) :=
  match skip, s with
  | S k, String _ s' => finditer_go p k s'
  | S _, EmptyString => []
  | O, _ =>
      match exec p s with
      | Some (gs, rest) =>
          gs :: match s with
                | String _ s' =>
                    finditer_go p
                      (String.length s - String.length rest - 1) s'
                | EmptyString => []
                end
      | None =>
          match s with
          | String _ s' => finditer_go p O s'
          | EmptyString => []
          end
      end
  end.

Definition finditer (p : pattern) (s : string) : list (list string) :=
  finditer_go p O s.

(** [re.sub(p, '', s)]: [s] without the successive matches of [p]. *)
Fixpoint remove_go (p : pattern) (skip : nat) (s : string) : string :=
  match s with
  | EmptyString => EmptyString
  | String a s' =>
      match skip with
      | S k => remove_go p k s'
      | O =>
          match exec p s with
          | Some (_, rest) =>
              match (String.length s - String.length rest)%nat with
              | O => String a (remove_go p O s')
              | S k => remove_go p k s'
              end
          | None => String a (remove_go p O s')
          end
      end
  end.

Definition remove (p : pattern) (s : string) : string := remove_go p O s.

(** Character classes.  In the patterns quoted below \x22 is the double
    and \x27 the single quotation mark. *)
Definition just (x : ascii) : ascii -> bool := fun a => Ascii.eqb a x.
Definition non (x : ascii) : ascii -> bool := fun a => negb (Ascii.eqb a x).
Definition dquote : ascii := ascii_of_N 34.
Definition squote : ascii := ascii_of_N 39.
Definition quote_mark : ascii -> bool :=            (* [\x22\x27] *)
  fun a => Ascii.eqb a dquote || Ascii.eqb a squote.
Definition any : ascii -> bool := fun _ => true.    (* . under DOTALL *)

(** [<a[^>]*href=[\x22\x27]?/K/(\d+)[\x22\x27]?[^>]*>] under IGNORECASE,
    the common head of the anchor patterns, [K] being [b] or [a]. *)
Definition anchor_head (u : Unicode) (kind : string) : pattern :=
  [ LitI (same_letter u) "<a"; Cls (non ">") Star;
    LitI (same_letter u) "href="; Cls quote_mark Opt;
    LitI (same_letter u) ("/" +:+ kind +:+ "/"); GrpU (isdecimal u) Plus;
    Cls quote_mark Opt; Cls (non ">") Star; LitI (same_letter u) ">" ].

(** [<a[^>]*href=[\x22\x27]?/b/(\d+)[\x22\x27]?[^>]*>([^<]+)</a>], IGNORECASE *)
Definition book_anchor (u : Unicode) : pattern :=
  anchor_head u "b" ++ [ Grp (non "<") Plus; LitI (same_letter u) "</a>" ].

(** [<a[^>]*href=[\x22\x27]?/a/(\d+)[\x22\x27]?[^>]*>([^<]+)</a>], IGNORECASE *)
Definition author_anchor (u : Unicode) : pattern :=
  anchor_head u "a" ++ [ Grp (non "<") Plus; LitI (same_letter u) "</a>" ].

(** [<a[^>]*href=[\x22\x27]?/a/(\d+)[\x22\x27]?[^>]*>(.+?)</a>],
    IGNORECASE | DOTALL *)
Definition author_anchor_lazy (u : Unicode) : pattern :=
  anchor_head u "a" ++ [ Grp any LazyPlus; LitI (same_letter u) "</a>" ].

(** [Найденные писатели[^<]*</h3>\s*<ul>(.*?)</ul>], DOTALL | IGNORECASE *)
Definition author_section (u : Unicode) : pattern :=
  [ LitI (same_letter u) "Найденные писатели"; Cls (non "<") Star;
    LitI (same_letter u) "</h3>"; ClsU (isspace u) Star;
    LitI (same_letter u) "<ul>"; Grp any LazyStar;
    LitI (same_letter u) "</ul>" ].

(** [<[^>]+>] *)
Definition tag : pattern := [ Lit "<"; Cls (non ">") Plus; Lit ">" ].

(** [/K/(\d+)] *)
Definition path_id (u : Unicode) (kind : string) : pattern :=
  [ Lit ("/" +:+ kind +:+ "/"); GrpU (isdecimal u) Plus ].

(** [filename[*]?=[\x22\x27]?([^\x22\x27;]+)] *)
Definition filename_attr : pattern :=
  [ Lit "filename"; Cls (just "*") Opt; Lit "="; Cls quote_mark Opt;
    Grp (fun a => negb (quote_mark a || Ascii.eqb a ";")) Plus ].

(** [m.group(n)], [n] from 1. *)
Definition group (n : nat) (gs : list string) : string :=
  nth (n - 1) gs EmptyString.

End Re.

(** ** The library on plain text

    What the Unicode-aware functions do on the texts of the samples, which
    are written with ASCII characters and the Cyrillic letters
    U+0400-U+045F. *)

Module Basic.

Definition lead_D0 : ascii := ascii_of_N 208.
Definition lead_D1 : ascii := ascii_of_N 209.

(** [lower]: A-Z and U+0400-U+042F become small letters.  [lead] says
    that the byte before [s] was 0xD0, the first byte of U+0400-U+043F,
    and has not been written yet. *)
Fixpoint lower_go (lead : bool) (s : string) : string :=
  match s with
  | EmptyString => if lead then String lead_D0 EmptyString else EmptyString
  | String a s' =>
      if lead then
        if Py.in_range 128 143 a
        then String lead_D1 (String (Py.shift 16 a) (lower_go false s'))
        else if Py.in_range 144 159 a
        then String lead_D0 (String (Py.shift 32 a) (lower_go false s'))
        else if Py.in_range 160 175 a
        then String lead_D1 (String (Py.shift (-32) a) (lower_go false s'))
        else String lead_D0
               (if Ascii.eqb a lead_D0 then lower_go true s'
                else String (Py.lower_ascii a) (lower_go false s'))
      else if Ascii.eqb a lead_D0 then lower_go true s'
      else String (Py.lower_ascii a) (lower_go false s')
  end.

Definition lower (s : string) : string := lower_go false s.

(** The ASCII white space and the ASCII digits. *)
Definition space (c : string) : bool :=
  match c with
  | String a EmptyString =>
      Py.in_range 9 13 a || Py.in_range 28 32 a
  | _ => false
  end.

Definition decimal (c : string) : bool :=
  match c with
  | String a EmptyString => Py.in_range 48 57 a
  | _ => false
  end.

(** Two characters that differ at most in case. *)
Definition same (c x : string) : bool := String.eqb (lower c) (lower x).

Definition hex_value (a : ascii) : option N :=
  let n := N_of_ascii a in
  if Py.in_range 48 57 a then Some (n - 48)%N
  else if Py.in_range 65 70 a then Some (n - 55)%N
  else if Py.in_range 97 102 a then Some (n - 87)%N
  else None.

(** [urllib.parse.unquote(s)] when the decoded bytes are UTF-8: each
    [%XX] becomes the byte XX, a [%] not followed by two hexadecimal
    digits stays. *)
Fixpoint unquote_go (skip : nat) (s : string) : string :=
  match s with
  | EmptyString => EmptyString
  | String a s' =>
      match skip with
      | S k => unquote_go k s'
      | O =>
          match a, s' with
          | "%"%char, String h (String l _) =>
              match hex_value h, hex_value l with
              | Some x, Some y =>
                  String (ascii_of_N (16 * x + y)) (unquote_go 2 s')
              | _, _ => String a (unquote_go O s')
              end
          | _, _ => String a (unquote_go O s')
          end
      end
  end.

Definition unquote (s : string) : string := unquote_go O s.

Definition unicode : Unicode := mkUnicode lower space decimal same.

End Basic.

(** ** Configuration (src/config.py) and module constants *)

Definition FLIBUSTA_BASE_URL : string := "http://flibusta.is".
Definition OPDS_BASE_URL : string := FLIBUSTA_BASE_URL +:+ "/opds".

(** ** Data model *)

Record Author : Type := mkAuthor {
  author_id : string;
  author_name : option string;      (* [None] when the feed element is empty *)
  author_uri : option string;
  books_count : option Z
}.

Record DownloadLink : Type := mkDownloadLink {
  link_url : string;
  link_format : string;
  mime_type : string
}.

Record Book : Type := mkBook {
  book_id : string;
  book_title : option string;       (* [None] when the feed element is empty *)
  book_authors : list Author;
  language : option string;
  book_format : option string;
  year : option string;
  description : option string;
  download_links : list DownloadLink;
  cover_url : option string;
  size : option string
}.

Record SearchResult (A : Type) : Type := mkSearchResult {
  items : list A;
  total_count : Z;
  has_more : bool;
  source : string
}.
Arguments mkSearchResult {A} _ _ _ _.
Arguments items {A} _.
Arguments total_count {A} _.
Arguments has_more {A} _.
Arguments source {A} _.

(** The constructors with the defaults of the dataclasses. *)
Definition new_Author (id : string) (name : option string)
    (uri : option string) : Author :=
  mkAuthor id name uri None.

Definition new_Book (id : string) (title : option string)
    (authors : list Author) (lang descr : option string)
    (links : list DownloadLink) : Book :=
  mkBook id title authors lang None None descr links None None.

Definition new_SearchResult {A} (its : list A) (more : bool) (src : string)
    : SearchResult A :=
  mkSearchResult its 0 more src.

(** [if result and result.items]: a result that is not [None] and has an
    item. *)
Definition productive {A} (r : option (SearchResult A)) : bool :=
  match r with
  | Some res => match items res with [] => false | _ => true end
  | None => false
  end.

(** ** XML elements (xml.etree.ElementTree) *)

Module ET.

Inductive Element : Type :=
| Elem (tag : string) (attrib : list (string * string))
       (text : option string) (children : list Element).

Definition tag (e : Element) : string :=
  match e with Elem t _ _ _ => t end.
Definition attrib (e : Element) : list (string * string) :=
  match e with Elem _ a _ _ => a end.
Definition text (e : Element) : option string :=
  match e with Elem _ _ t _ => t end.
Definition children (e : Element) : list Element :=
  match e with Elem _ _ _ c => c end.

(** NAMESPACES *)
Definition atom_ns : string := "http://www.w3.org/2005/Atom".
Definition dc_ns : string := "http://purl.org/dc/terms/".

(** The tag that a prefixed name stands for: [{namespace}local]. *)
Definition qname (ns local : string) : string :=
  "{" +:+ ns +:+ "}" +:+ local.

(** [e.findall(name, NAMESPACES)]: the children of [e] with that tag. *)
Definition findall (e : Element) (name : string) : list Element :=
  List.filter (fun c => String.eqb (tag c) name) (children e).

(** [e.find(name, NAMESPACES)]: the first such child. *)
Definition find (e : Element) (name : string) : option Element :=
  List.find (fun c => String.eqb (tag c) name) (children e).

Fixpoint lookup (key : string) (l : list (string * string))
    : option string :=
  match l with
  | [] => None
  | (k, v) :: l' => if String.eqb k key then Some v else lookup key l'
  end.

(** [e.get(key)] and [e.get(key, '')] *)
Definition get (e : Element) (key : string) : option string :=
  lookup key (attrib e).
Definition get_or_empty (e : Element) (key : string) : string :=
  default EmptyString (get e key).

End ET.

(** ** Effects: exceptions, the network, the trace *)

(** The classes of exceptions that the client tells apart; all of them
    derive from [Exception]. *)
Inductive exn : Type :=
| HTTPError          (* httpx.HTTPError: transport errors, HTTPStatusError *)
| ParseError         (* xml.etree.ElementTree.ParseError *)
| AttributeError     (* an attribute of [None] *)
| OtherError (name : string).

Definition is_HTTPError (e : exn) : bool :=
  match e with HTTPError => true | _ => false end.
Definition is_ParseError (e : exn) : bool :=
  match e with ParseError => true | _ => false end.
Definition is_Exception (e : exn) : bool := true.

Inductive outcome (A : Type) : Type :=
| Ok (a : A)
| Raise (e : exn).
Arguments Ok {A} _.
Arguments Raise {A} _.

Record Response : Type := mkResponse {
  status_code : Z;
  headers : list (string * string);
  text : string;              (* the decoded body *)
  content : list Byte.byte    (* the bytes of the body *)
}.

Inductive Event : Type :=
| EvGet (url : string)        (* a request sent by [self.client.get] *)
| EvStatus (msg : string).    (* a call of the status callback *)

Definition Trace : Type := list Event.

(** A computation of the client. *)
Definition M (A : Type) : Type := Trace -> outcome A * Trace.

Definition ret {A} (a : A) : M A := fun t => (Ok a, t).

Definition bind {A B} (m : M A) (k : A -> M B) : M B :=
  fun t =>
    match m t with
    | (Ok a, t') => k a t'
    | (Raise e, t') => (Raise e, t')
    end.

Definition raise {A} (e : exn) : M A := fun t => (Raise e, t).

Definition emit (ev : Event) : M unit := fun t => (Ok tt, t ++ [ev]).

(** [try: body except C: handler], [catches] telling the instances of C. *)
Definition try_except {A} (body : M A) (catches : exn -> bool)
    (handler : exn -> M A) : M A :=
  fun t =>
    match body t with
    | (Ok a, t') => (Ok a, t')
    | (Raise e, t') => if catches e then handler e t' else (Raise e, t')
    end.

(** A pure step that may raise. *)
Definition lift {A} (o : outcome A) : M A := fun t => (o, t).

Declare Scope client_scope.
Delimit Scope client_scope with client.
Notation "x <- m ;; k" := (bind m (fun x => k))
  (at level 100, m at next level, right associativity) : client_scope.
Notation "m ;;; k" := (bind m (fun _ => k))
  (at level 100, right associativity) : client_scope.
Open Scope client_scope.

(** What the client does not decide: what [self.client.get] does for a
    request, given the events so far (a response, or the exception that it
    raises: an [httpx.HTTPError] when the transport fails, another one
    when, say, httpx rejects the URL); the XML parser ([None]:
    [ET.fromstring] raises [ParseError]); [urllib.parse.urljoin], which
    raises on some addresses; [urllib.parse.unquote]; the character
    tables. *)
Record Env : Type := mkEnv {
  network : Trace -> string -> outcome Response;
  fromstring : string -> option ET.Element;
  urljoin : string -> string -> outcome string;
  unquote : string -> string;
  unicode : Unicode
}.

(** The caller's status callback: any computation, which may raise. *)
Definition Callback : Type := string -> M unit.

(** [headers.get(key, '')] of httpx: header names compare without regard
    to ASCII case, and the values of a repeated header are joined. *)
Fixpoint lower_bytes (s : string) : string :=
  match s with
  | EmptyString => EmptyString
  | String a s' => String (Py.lower_ascii a) (lower_bytes s')
  end.

Definition header_get (hs : list (string * string)) (key : string) : string :=
  let vals :=
    List.map snd
      (List.filter (fun h => String.eqb (lower_bytes (fst h)) (lower_bytes key))
         hs) in
  match vals with
  | [] => EmptyString
  | _ => String.concat ", " vals
  end.

(** ** [list.sort(key=...)]

    The keys are computed first, one call per item and in order, so the
    first key that raises ends the sort; the items are then ordered by
    their keys with a stable sort that compares with [<] alone. *)

Fixpoint sort_keys {A} (key : A -> outcome string) (l : list A)
    : outcome (list (string * A)) :=
  match l with
  | [] => Ok []
  | x :: l' =>
      match key x with
      | Ok k =>
          match sort_keys key l' with
          | Ok ks => Ok ((k, x) :: ks)
          | Raise e => Raise e
          end
      | Raise e => Raise e
      end
  end.

(** [x] stood before every element of [l]: it goes before the first one
    that is not smaller than it. *)
Fixpoint insert_keyed {A} (x : string * A) (l : list (string * A))
    : list (string * A) :=
  match l with
  | [] => [x]
  | y :: l' =>
      if String.ltb (fst y) (fst x) then y :: insert_keyed x l'
      else x :: y :: l'
  end.

Definition stable_sort {A} (l : list (string * A)) : list (string * A) :=
  List.fold_right insert_keyed [] l.

Definition list_sort {A} (key : A -> outcome string) (l : list A)
    : outcome (list A) :=
  match sort_keys key l with
  | Ok ks => Ok (List.map snd (stable_sort ks))
  | Raise e => Raise e
  end.

(** [x.lower()] for an [x] that may be [None]: the key of the sorts. *)
Definition lower_of (u : Unicode) (x : option string) : outcome string :=
  match x with
  | Some s => Ok (lower u s)
  | None => Raise AttributeError
  end.

(** A loop that appends what [f] gives for each element, and that the
    first exception ends. *)
Fixpoint collect {A B} (f : A -> outcome (option B)) (l : list A)
    : outcome (list B) :=
  match l with
  | [] => Ok []
  | x :: l' =>
      match f x with
      | Raise e => Raise e
      | Ok o =>
          match collect f l' with
          | Raise e => Raise e
          | Ok ys => Ok (match o with Some y => y :: ys | None => ys end)
          end
      end
  end.

(** ** Parsing helpers of the client *)

(** [_clean_html] *)
Definition _clean_html (u : Unicode) (text : string) : string :=
  let text := Re.remove Re.tag text in
  let text := Py.replace "&amp;" "&"
                (Py.replace "&gt;" ">" (Py.replace "&lt;" "<" text)) in
  let text := Py.replace "&quot;" (String Re.dquote EmptyString)
                (Py.replace "&nbsp;" " " text) in
  Py.strip (isspace u) text.

(** The three download links that both HTML book parsers build. *)
Definition conventional_links (book_id : string) : list DownloadLink :=
  [ mkDownloadLink (FLIBUSTA_BASE_URL +:+ "/b/" +:+ book_id +:+ "/fb2")
      "fb2" EmptyString;
    mkDownloadLink (FLIBUSTA_BASE_URL +:+ "/b/" +:+ book_id +:+ "/epub")
      "epub" EmptyString;
    mkDownloadLink (FLIBUSTA_BASE_URL +:+ "/b/" +:+ book_id +:+ "/mobi")
      "mobi" EmptyString ].

(** The body of the loop over the lines in [_http_search_books]: the book
    that a line adds to [books], if any. *)
Definition book_of_line (u : Unicode) (line : string) : option Book :=
  if Py.contains "/s/" line then None
  else
    match Re.search (Re.book_anchor u) line with
    | Some book_match =>
        let book_id := Re.group 1 book_match in
        let title := _clean_html u (Re.group 2 book_match) in
        if negb (Py.truthy title) then None
        else
          let authors :=
            match Re.search (Re.author_anchor u) line with
            | Some author_match =>
                let author_name :=
                  _clean_html u (Re.group 2 author_match) in
                if Py.truthy author_name
                then [ new_Author (Re.group 1 author_match)
                         (Some author_name) (Some EmptyString) ]
                else []
            | None => []
            end in
          Some (new_Book book_id (Some title) authors None None
                  (conventional_links book_id))
    | None => None
    end.

(** [books] in [_http_search_books]: the raw extraction. *)
Definition extracted_books (u : Unicode) (html_content : string)
    : list Book :=
  omap (book_of_line u) (Py.split "010" html_content).

(** The loop that builds [unique_books], [seen_ids] being a set. *)
Fixpoint unique_from (seen_ids : gset string) (books : list Book)
    : list Book :=
  match books with
  | [] => []
  | book :: rest =>
      if decide (book_id book ∈ seen_ids) then unique_from seen_ids rest
      else book :: unique_from ({[book_id book]} ∪ seen_ids) rest
  end.

Definition unique_books (books : list Book) : list Book :=
  unique_from ∅ books.

(** The loop over the anchors of the author section in
    [_http_search_authors]. *)
Fixpoint authors_from (u : Unicode) (seen_ids : gset string)
    (matches : list (list string)) : list Author :=
  match matches with
  | [] => []
  | m :: rest =>
      let author_id := Re.group 1 m in
      let name := _clean_html u (Re.group 2 m) in
      if bool_decide (author_id ∈ seen_ids) || negb (Py.truthy name)
      then authors_from u seen_ids rest
      else new_Author author_id (Some name) (Some ("/a/" +:+ author_id))
           :: authors_from u ({[author_id]} ∪ seen_ids) rest
  end.

(** The anchor texts that [_http_get_author_books] does not take for
    titles. *)
Definition action_labels : list string :=
  [ "читать"; "скачать"; "fb2"; "epub"; "mobi"; "rtf"; "txt" ].

(** The loop over the book anchors in [_http_get_author_books]. *)
Fixpoint author_books_from (u : Unicode) (author_id : string)
    (seen_ids : gset string) (matches : list (list string)) : list Book :=
  match matches with
  | [] => []
  | m :: rest =>
      let book_id := Re.group 1 m in
      let title := _clean_html u (Re.group 2 m) in
      if bool_decide (book_id ∈ seen_ids) || negb (Py.truthy title)
      then author_books_from u author_id seen_ids rest
      else if bool_decide (lower u title ∈ action_labels)
      then author_books_from u author_id seen_ids rest
      else new_Book book_id (Some title)
             [ new_Author author_id (Some EmptyString) (Some EmptyString) ]
             None None (conventional_links book_id)
           :: author_books_from u author_id ({[book_id]} ∪ seen_ids) rest
  end.

(** The table of [_opds_parse_download_links]. *)
Definition format_map : gmap string string :=
  list_to_map
    [ ("application/fb2+zip", "fb2"); ("application/fb2", "fb2");
      ("application/epub+zip", "epub"); ("application/epub", "epub");
      ("application/pdf", "pdf");
      ("application/x-mobipocket-ebook", "mobi") ].

(** [format_map.get(mime_type, mime_type.split('/')[-1])] *)
Definition file_format (mime_type : string) : string :=
  default (Py.last_piece (Py.split "/" mime_type)) (format_map !! mime_type).

(** The first element of [l] for which [f] gives something. *)
Fixpoint first_some {A B} (f : A -> option B) (l : list A) : option B :=
  match l with
  | [] => None
  | x :: l' => match f x with Some y => Some y | None => first_some f l' end
  end.

(** The fallback notice handed to the status callback. *)
Definition fallback_notice : string :=
  "⚠️ Проблемы с основным сервером, пробую запасной вариант...".

(** ** The client *)

Section Client.

Variable env : Env.

(** [self.client.get(url)]: the trace records the call. *)
Definition client_get (url : string) : M Response :=
  fun t => (network env t url, t ++ [EvGet url]).

(** [response.raise_for_status()] *)
Definition raise_for_status (r : Response) : M unit :=
  if (200 <=? status_code r) && (status_code r <? 300)
  then ret tt else raise HTTPError.

(** *** HTTP methods *)

Definition _http_request (url : string) : M (option string) :=
  try_except
    (response <- client_get url ;;
     raise_for_status response ;;;
     ret (Some (text response)))
    is_HTTPError (fun _ => ret None).

Definition _http_search_books (query : string) (page : Z)
    : M (option (SearchResult Book)) :=
  let encoded_query := Py.quote query in
  let url := FLIBUSTA_BASE_URL +:+ "/booksearch?ask=" +:+ encoded_query
             +:+ "&page=" +:+ pretty page in
  html_content <- _http_request url ;;
  match html_content with
  | None => ret None
  | Some html_content =>
      if negb (Py.truthy html_content) then ret None
      else
        try_except
          (let books := extracted_books (unicode env) html_content in
           let unique_books := unique_books books in
           unique_books <-
             lift (list_sort (fun b => lower_of (unicode env) (book_title b))
                     unique_books) ;;
           let has_more :=
             Py.contains ("page=" +:+ pretty (page + 1)) html_content in
           ret (Some (new_SearchResult unique_books has_more "http")))
          is_Exception (fun _ => ret None)
  end.

Definition _http_search_authors (query : string)
    : M (option (SearchResult Author)) :=
  let encoded_query := Py.quote query in
  let url := FLIBUSTA_BASE_URL +:+ "/booksearch?ask=" +:+ encoded_query in
  html_content <- _http_request url ;;
  match html_content with
  | None => ret None
  | Some html_content =>
      if negb (Py.truthy html_content) then ret None
      else
        try_except
          (let authors :=
             match Re.search (Re.author_section (unicode env))
                     html_content with
             | Some author_section_match =>
                 let author_section := Re.group 1 author_section_match in
                 authors_from (unicode env) ∅
                   (Re.finditer (Re.author_anchor_lazy (unicode env))
                      author_section)
             | None => []
             end in
           authors <-
             lift (list_sort (fun a => lower_of (unicode env) (author_name a))
                     authors) ;;
           ret (Some (new_SearchResult authors false "http")))
          is_Exception (fun _ => ret None)
  end.

Definition _http_get_author_books (author_id : string)
    : M (option (SearchResult Book)) :=
  let url := FLIBUSTA_BASE_URL +:+ "/a/" +:+ author_id +:+ "/alphabet" in
  first <- _http_request url ;;
  html_content <-
    (if negb (Py.truthy_opt first)
     then (* Try without /alphabet *)
          _http_request (FLIBUSTA_BASE_URL +:+ "/a/" +:+ author_id)
     else ret first) ;;
  match html_content with
  | None => ret None
  | Some html_content =>
      if negb (Py.truthy html_content) then ret None
      else
        try_except
          (let books :=
             author_books_from (unicode env) author_id ∅
               (Re.finditer (Re.book_anchor (unicode env)) html_content) in
           books <-
             lift (list_sort (fun b => lower_of (unicode env) (book_title b))
                     books) ;;
           ret (Some (new_SearchResult books false "http")))
          is_Exception (fun _ => ret None)
  end.

(** *** OPDS methods *)

Definition _opds_request (url : string) : M (option string) :=
  try_except
    (response <- client_get url ;;
     raise_for_status response ;;;
     ret (Some (text response)))
    is_HTTPError (fun _ => ret None).

Definition _opds_parse_author (author_elem : ET.Element) : Author :=
  let name := ET.find author_elem (ET.qname ET.atom_ns "name") in
  let uri := ET.find author_elem (ET.qname ET.atom_ns "uri") in
  let author_id :=
    match uri with
    | Some u =>
        match ET.text u with
        | Some t =>
            if Py.truthy t then
              match Re.search (Re.path_id (unicode env) "a") t with
              | Some m => Re.group 1 m
              | None => EmptyString
              end
            else EmptyString
        | None => EmptyString
        end
    | None => EmptyString
    end in
  new_Author author_id
    (match name with Some n => ET.text n | None => Some "Unknown" end)
    (match uri with Some u => ET.text u | None => Some EmptyString end).

(** The body of the loop of [_opds_parse_download_links]: the link that
    an [atom:link] element adds, if any; [urljoin] may raise. *)
Definition download_link_of (link : ET.Element)
    : outcome (option DownloadLink) :=
  let rel := ET.get_or_empty link "rel" in
  if Py.contains "acquisition" rel then
    let href := ET.get_or_empty link "href" in
    let mime_type := ET.get_or_empty link "type" in
    if Py.contains "text/html" mime_type then Ok None
    else
      let file_format := file_format mime_type in
      match (if Py.startswith href "/" then urljoin env FLIBUSTA_BASE_URL href
             else Ok href) with
      | Ok full_url => Ok (Some (mkDownloadLink full_url file_format mime_type))
      | Raise e => Raise e
      end
  else Ok None.

Definition _opds_parse_download_links (entry : ET.Element)
    : outcome (list DownloadLink) :=
  collect download_link_of (ET.findall entry (ET.qname ET.atom_ns "link")).

Definition _opds_parse_book (entry : ET.Element) : outcome Book :=
  let book_id :=
    default EmptyString
      (first_some
         (fun link =>
            match Re.search (Re.path_id (unicode env) "b")
                    (ET.get_or_empty link "href") with
            | Some m => Some (Re.group 1 m)
            | None => None
            end)
         (ET.findall entry (ET.qname ET.atom_ns "link"))) in
  let title := ET.find entry (ET.qname ET.atom_ns "title") in
  let authors :=
    List.map _opds_parse_author
      (ET.findall entry (ET.qname ET.atom_ns "author")) in
  let language := ET.find entry (ET.qname ET.dc_ns "language") in
  let content := ET.find entry (ET.qname ET.atom_ns "content") in
  match _opds_parse_download_links entry with
  | Ok download_links =>
      Ok (new_Book book_id
            (match title with Some t => ET.text t | None => Some "Unknown" end)
            authors
            (match language with Some l => ET.text l | None => None end)
            (match content with Some c => ET.text c | None => None end)
            download_links)
  | Raise e => Raise e
  end.

(** [ET.fromstring(xml_content)] *)
Definition ET_fromstring (xml_content : string) : M ET.Element :=
  match fromstring env xml_content with
  | Some root => ret root
  | None => raise ParseError
  end.

(** The body of the loop over the entries: the book of an entry, kept
    when it has a download link. *)
Definition book_of_entry (entry : ET.Element) : outcome (option Book) :=
  match _opds_parse_book entry with
  | Ok book =>
      Ok (match download_links book with [] => None | _ => Some book end)
  | Raise e => Raise e
  end.

(** The books of the entries of [root] that have a download link. *)
Definition entry_books (root : ET.Element) : outcome (list Book) :=
  collect book_of_entry (ET.findall root (ET.qname ET.atom_ns "entry")).

Definition _opds_search_books (query : string) (page : Z)
    : M (option (SearchResult Book)) :=
  let encoded_query := Py.quote query in
  let url := OPDS_BASE_URL +:+ "/opensearch?searchTerm=" +:+ encoded_query
             +:+ "&searchType=books&pageNumber=" +:+ pretty page in
  xml_content <- _opds_request url ;;
  match xml_content with
  | None => ret None
  | Some xml_content =>
      if negb (Py.truthy xml_content) then ret None
      else
        try_except
          (root <- ET_fromstring xml_content ;;
           books <- lift (entry_books root) ;;
           (* Check for next page *)
           let has_more :=
             existsb
               (fun link => bool_decide (ET.get link "rel" = Some "next"))
               (ET.findall root (ET.qname ET.atom_ns "link")) in
           (* Sort alphabetically *)
           books <-
             lift (list_sort (fun b => lower_of (unicode env) (book_title b))
                     books) ;;
           ret (Some (new_SearchResult books has_more "opds")))
          is_ParseError (fun _ => ret None)
  end.

(** The body of the loop over the entries in [_opds_search_authors]. *)
Definition author_of_entry (entry : ET.Element) : option Author :=
  let title := ET.find entry (ET.qname ET.atom_ns "title") in
  let author_id :=
    default EmptyString
      (first_some
         (fun link =>
            match Re.search (Re.path_id (unicode env) "author")
                    (ET.get_or_empty link "href") with
            | Some m => Some (Re.group 1 m)
            | None => None
            end)
         (ET.findall entry (ET.qname ET.atom_ns "link"))) in
  match title with
  | Some t =>
      if Py.truthy_opt (ET.text t)
      then Some (new_Author author_id (ET.text t)
                   (Some ("/a/" +:+ author_id)))
      else None
  | None => None
  end.

Definition _opds_search_authors (query : string) (page : Z)
    : M (option (SearchResult Author)) :=
  let encoded_query := Py.quote query in
  let url := OPDS_BASE_URL +:+ "/opensearch?searchTerm=" +:+ encoded_query
             +:+ "&searchType=authors&pageNumber=" +:+ pretty page in
  xml_content <- _opds_request url ;;
  match xml_content with
  | None => ret None
  | Some xml_content =>
      if negb (Py.truthy xml_content) then ret None
      else
        try_except
          (root <- ET_fromstring xml_content ;;
           let authors :=
             omap author_of_entry
               (ET.findall root (ET.qname ET.atom_ns "entry")) in
           authors <-
             lift (list_sort (fun a => lower_of (unicode env) (author_name a))
                     authors) ;;
           ret (Some (new_SearchResult authors false "opds")))
          is_ParseError (fun _ => ret None)
  end.

(** The inner loop of the search for the alphabetical link: the [href]
    of the first link of [entry] that passes the test. *)
Definition alphabet_link (entry : ET.Element) : option string :=
  let title := ET.find entry (ET.qname ET.atom_ns "title") in
  let title_text :=
    match title with
    | Some t =>
        match ET.text t with
        | Some s => if Py.truthy s then lower (unicode env) s else EmptyString
        | None => EmptyString
        end
    | None => EmptyString
    end in
  first_some
    (fun link =>
       let href := ET.get_or_empty link "href" in
       if Py.contains "алфавит" title_text || Py.contains "alphabet" href
       then Some href else None)
    (ET.findall entry (ET.qname ET.atom_ns "link")).

(** The outer loop: a later entry with such a link overrides an earlier
    one. *)
Definition alphabet_target (root : ET.Element) : option string :=
  List.fold_left
    (fun target_url entry =>
       match alphabet_link entry with
       | Some href => Some href
       | None => target_url
       end)
    (ET.findall root (ET.qname ET.atom_ns "entry")) None.

Definition _opds_get_author_books (author_id : string)
    : M (option (SearchResult Book)) :=
  (* First get the author page to find alphabetical link *)
  let url := OPDS_BASE_URL +:+ "/author/" +:+ author_id in
  xml_content <- _opds_request url ;;
  match xml_content with
  | None => ret None
  | Some xml_content =>
      if negb (Py.truthy xml_content) then ret None
      else
        try_except
          (root <- ET_fromstring xml_content ;;
           let finish (root : ET.Element) :=
             (books <- lift (entry_books root) ;;
              books <-
                lift (list_sort
                        (fun b => lower_of (unicode env) (book_title b))
                        books) ;;
              ret (Some (new_SearchResult books false "opds"))) in
           let target_url := alphabet_target root in
           if Py.truthy_opt target_url then
             let target_url := default EmptyString target_url in
             target_url <-
               lift (if negb (Py.startswith target_url "http")
                     then urljoin env FLIBUSTA_BASE_URL target_url
                     else Ok target_url) ;;
             xml_content <- _opds_request target_url ;;
             if negb (Py.truthy_opt xml_content) then ret None
             else
               root <- ET_fromstring (default EmptyString xml_content) ;;
               finish root
           else finish root)
          is_ParseError (fun _ => ret None)
  end.

(** *** Public API (HTTP first, OPDS fallback) *)

(** The notification of the caller before the fallback; the trace
    records the call. *)
Definition notify (status_callback : option Callback) : M unit :=
  match status_callback with
  | Some callback =>
      try_except
        (emit (EvStatus fallback_notice) ;;; callback fallback_notice)
        is_Exception (fun _ => ret tt)
  | None => ret tt
  end.

Definition search_books (query : string) (page : Z)
    (status_callback : option Callback) : M (option (SearchResult Book)) :=
  (* Try HTTP first *)
  result <- _http_search_books query page ;;
  if productive result then ret result
  else
    (* Fallback to OPDS *)
    notify status_callback ;;;
    result <- _opds_search_books query page ;;
    if productive result then ret result else ret result.

Definition search_authors (query : string) (page : Z)
    (status_callback : option Callback) : M (option (SearchResult Author)) :=
  result <- _http_search_authors query ;;
  if productive result then ret result
  else
    notify status_callback ;;;
    result <- _opds_search_authors query page ;;
    if productive result then ret result else ret result.

Definition get_author_books (author_id : string) (page : Z)
    (status_callback : option Callback) : M (option (SearchResult Book)) :=
  result <- _http_get_author_books author_id ;;
  if productive result then ret result
  else
    notify status_callback ;;;
    result <- _opds_get_author_books author_id ;;
    if productive result then ret result else ret result.

(** The file name that [download_book] derives from the value of the
    Content-Disposition header and the URL. *)
Definition derived_filename (content_disposition url : string) : string :=
  let filename :=
    if Py.contains "filename=" content_disposition then
      match Re.search Re.filename_attr content_disposition with
      | Some m =>
          let filename := Py.strip (isspace (unicode env)) (Re.group 1 m) in
          if Py.contains "%" filename then Some (unquote env filename)
          else Some filename
      | None => None
      end
    else None in
  if negb (Py.truthy_opt filename) then
    let filename := Py.last_piece (Py.split "/" url) in
    if negb (Py.contains "." filename) then "book" else filename
  else default EmptyString filename.

Definition download_book (url : string)
    : M (option (list Byte.byte * string)) :=
  try_except
    (response <- client_get url ;;
     raise_for_status response ;;;
     let content_disposition :=
       header_get (headers response) "Content-Disposition" in
     let filename := derived_filename content_disposition url in
     ret (Some (content response, filename)))
    is_HTTPError (fun _ => ret None).

End Client.

(** ** Vocabulary of the statements *)

(** A status of success. *)
Definition success (r : Response) : bool :=
  (200 <=? status_code r) && (status_code r <? 300).

(** What [_http_request] and [_opds_request] do for [url] after the
    events [t]: they return the text of a response with a success status
    and [None] for another status or an [httpx.HTTPError], and let any
    other exception of [get] out. *)
Definition requested (env : Env) (t : Trace) (url : string)
    : outcome (option string) :=
  match network env t url with
  | Ok r => Ok (if success r then Some (text r) else None)
  | Raise e => if is_HTTPError e then Ok None else Raise e
  end.

(** The text that they return, if any. *)
Definition fetched (env : Env) (t : Trace) (url : string) : option string :=
  match network env t url with
  | Ok r => if success r then Some (text r) else None
  | Raise _ => None
  end.

(** A request that fails the way the adapters expect: [get] raises an
    [httpx.HTTPError], or the status is not a success. *)
Definition failed (env : Env) (t : Trace) (url : string) : Prop :=
  (exists e, network env t url = Raise e /\ is_HTTPError e = true) \/
  (exists r, network env t url = Ok r /\ success r = false).

(** The exception that [get] raises for [url] and that is not an
    [httpx.HTTPError], if there is one. *)
Definition refused (env : Env) (t : Trace) (url : string) : option exn :=
  match network env t url with
  | Raise e => if is_HTTPError e then None else Some e
  | Ok _ => None
  end.

(** The URLs of the two book searches. *)
Definition book_search_url (query : string) (page : Z) : string :=
  FLIBUSTA_BASE_URL +:+ "/booksearch?ask=" +:+ Py.quote query
  +:+ "&page=" +:+ pretty page.

Definition feed_search_url (query : string) (page : Z) : string :=
  OPDS_BASE_URL +:+ "/opensearch?searchTerm=" +:+ Py.quote query
  +:+ "&searchType=books&pageNumber=" +:+ pretty page.

Definition author_search_url (query : string) : string :=
  FLIBUSTA_BASE_URL +:+ "/booksearch?ask=" +:+ Py.quote query.

Definition feed_author_search_url (query : string) (page : Z) : string :=
  OPDS_BASE_URL +:+ "/opensearch?searchTerm=" +:+ Py.quote query
  +:+ "&searchType=authors&pageNumber=" +:+ pretty page.

(** The URLs of the bibliography of an author. *)
Definition alphabet_url (author_id : string) : string :=
  FLIBUSTA_BASE_URL +:+ "/a/" +:+ author_id +:+ "/alphabet".

Definition plain_url (author_id : string) : string :=
  FLIBUSTA_BASE_URL +:+ "/a/" +:+ author_id.

Definition feed_author_url (author_id : string) : string :=
  OPDS_BASE_URL +:+ "/author/" +:+ author_id.

(** An event that shows the feed adapter at work: a request under the
    OPDS endpoint. Every operation of the feed adapter starts with one. *)
Definition feed_request (ev : Event) : bool :=
  match ev with
  | EvGet url => Py.startswith url OPDS_BASE_URL
  | EvStatus _ => false
  end.

Definition status_call (ev : Event) : bool :=
  match ev with
  | EvGet _ => false
  | EvStatus _ => true
  end.

(** A result that is absent or has no item. *)
Definition no_items {A} (r : option (SearchResult A)) : Prop :=
  r = None \/ exists res, r = Some res /\ items res = [].

(** The trace after the notification of the caller that follows the
    events [t]. *)
Definition after_notice (status_callback : option Callback) (t : Trace)
    : Trace :=
  match status_callback with
  | Some callback =>
      snd (callback fallback_notice (t ++ [EvStatus fallback_notice]))
  | None => t
  end.

(** The shape that the three public operations share. *)
Definition with_fallback {A} (html feed : M (option (SearchResult A)))
    (status_callback : option Callback) : M (option (SearchResult A)) :=
  result <- html ;;
  if productive result then ret result
  else
    notify status_callback ;;;
    result <- feed ;;
    if productive result then ret result else ret result.

(** Events of the HTML adapter alone. *)
Definition html_only (evs : list Event) : Prop :=
  Forall (fun ev => feed_request ev = false /\ status_call ev = false) evs.

(** Decorated items in the order of their keys. *)
Definition fst_le {A} (p q : string * A) : Prop :=
  String.leb (fst p) (fst q) = true.

(** Two items in the order of their keys, which both exist. *)
Definition key_le {A} (key : A -> outcome string) (a b : A) : Prop :=
  exists ka kb, key a = Ok ka /\ key b = Ok kb /\ String.leb ka kb = true.

(** The items whose key is [k]. *)
Definition keyed {A} (key : A -> outcome string) (k : string) (l : list A)
    : list A :=
  List.filter
    (fun x => match key x with Ok k' => String.eqb k' k | Raise _ => false end)
    l.

(** The order of the sorts on books: by lower-cased title. *)
Definition title_le (u : Unicode) (a b : Book) : Prop :=
  match book_title a, book_title b with
  | Some x, Some y => String.leb (lower u x) (lower u y) = true
  | _, _ => False
  end.

(** The titles and the ids of a list of books, in its order. *)
Definition titles (l : list Book) : list (option string) :=
  List.map book_title l.

Definition book_ids (l : list Book) : list string := List.map book_id l.

(** The items of a list of books with a given id. *)
Definition with_id (i : string) (l : list Book) : list Book :=
  List.filter (fun b => String.eqb (book_id b) i) l.

(** Every character of [s] is in the class [c]. *)
Fixpoint all_chars (c : ascii -> bool) (s : string) : bool :=
  match s with
  | EmptyString => true
  | String a s' => c a && all_chars c s'
  end.

(** The characters that the value of a header attribute is made of: any
    but the quotation marks and the semicolon. *)
Definition value_char (a : ascii) : bool :=
  negb (Re.quote_mark a || Ascii.eqb a ";").

(** A quotation mark, or nothing. *)
Definition optional_quote (q : string) : Prop :=
  q = EmptyString \/ q = String Re.dquote EmptyString
  \/ q = String Re.squote EmptyString.

(** A text that does not go on as a value. *)
Definition ends_value (post : string) : Prop :=
  match post with
  | EmptyString => True
  | String a _ => value_char a = false
  end.

(** A Content-Disposition value that carries the filename attribute [v]:
    it reads [filename=] for the first time, then an optional quotation
    mark, then [v], which is not empty, holds neither a quotation mark
    nor a semicolon and has no white space at its ends, and which the end
    of the value, a quotation mark or a semicolon follows. *)
Definition carries_filename (u : Unicode) (content_disposition v : string)
    : Prop :=
  exists pre q post,
    content_disposition = pre +:+ "filename=" +:+ q +:+ v +:+ post /\
    Py.contains "filename" pre = false /\
    optional_quote q /\
    v <> EmptyString /\ all_chars value_char v = true /\
    Py.strip (isspace u) v = v /\
    ends_value post.

(** The value of a filename attribute, percent-decoded when it contains
    a percent sign. *)
Definition decoded (env : Env) (v : string) : string :=
  if Py.contains "%" v then unquote env v else v.

(** The characters of the type and of the subtype of a MIME type: any
    but the slash, the semicolon that starts a parameter, and the
    space. *)
Definition subtype_char (a : ascii) : bool :=
  negb (Ascii.eqb a "/" || Ascii.eqb a ";" || Ascii.eqb a " ").

(** The download link [d] is the feed link [link] normalized, [url]
    being its address: [d] keeps the MIME type, and its format is the
    token of the table for that type and, for a type [type/subtype] that
    the table does not have, the subtype. *)
Definition normalized (link : ET.Element) (url : string) (d : DownloadLink)
    : Prop :=
  link_url d = url /\
  mime_type d = ET.get_or_empty link "type" /\
  (forall token,
      format_map !! mime_type d = Some token -> link_format d = token) /\
  (forall type subtype,
      mime_type d = type +:+ "/" +:+ subtype ->
      all_chars subtype_char type = true ->
      all_chars subtype_char subtype = true ->
      format_map !! mime_type d = None ->
      link_format d = subtype).

(** The key of the sorts on books. *)
Definition title_key (u : Unicode) (b : Book) : outcome string :=
  lower_of u (book_title b).

(** What [_http_search_books] makes of the text of a page. *)
Definition books_page (u : Unicode) (html_content : string) (page : Z)
    : option (SearchResult Book) :=
  match list_sort (title_key u)
          (unique_books (extracted_books u html_content)) with
  | Ok sorted =>
      Some (new_SearchResult sorted
              (Py.contains ("page=" +:+ pretty (page + 1)) html_content)
              "http")
  | Raise _ => None
  end.

(** What [_http_get_author_books] makes of the text of a page. *)
Definition author_books_page (u : Unicode) (author_id html_content : string)
    : option (SearchResult Book) :=
  match list_sort (title_key u)
          (author_books_from u author_id ∅
             (Re.finditer (Re.book_anchor u) html_content)) with
  | Ok sorted => Some (new_SearchResult sorted false "http")
  | Raise _ => None
  end.

(** [try: ... except ET.ParseError: return None] around a step that may
    raise. *)
Definition parse_guard {A} (o : outcome (option A)) : outcome (option A) :=
  match o with
  | Ok r => Ok r
  | Raise e => if is_ParseError e then Ok None else Raise e
  end.

(** What the feed adapter makes of a parsed document of books. *)
Definition feed_books (env : Env) (root : ET.Element) (more : bool)
    : outcome (option (SearchResult Book)) :=
  parse_guard
    match entry_books env root with
    | Ok books =>
        match list_sort (title_key (unicode env)) books with
        | Ok sorted => Ok (Some (new_SearchResult sorted more "opds"))
        | Raise e => Raise e
        end
    | Raise e => Raise e
    end.

(** An outcome with [f] applied to its value, and followed by a step
    that may raise. *)
Definition mapped {A B} (f : A -> B) (o : outcome A) : outcome B :=
  match o with
  | Ok a => Ok (f a)
  | Raise e => Raise e
  end.

Definition bound {A B} (o : outcome A) (f : A -> outcome B) : outcome B :=
  match o with
  | Ok a => f a
  | Raise e => Raise e
  end.

(** What the HTML adapter makes of what a request returned, [parse]
    reading the text of a page. *)
Definition page_result {A} (parse : string -> option A) (o : option string)
    : option A :=
  match o with
  | Some h => if Py.truthy h then parse h else None
  | None => None
  end.

(** What the feed adapter makes of what a request returned, [parse]
    reading a parsed document. *)
Definition feed_result {A} (env : Env)
    (parse : ET.Element -> outcome (option A)) (o : option string)
    : outcome (option A) :=
  match o with
  | Some x =>
      if Py.truthy x then
        match fromstring env x with
        | Some root => parse root
        | None => Ok None
        end
      else Ok None
  | None => Ok None
  end.

(** [has_more] of the feed search: a link of the document with the
    relation [next]. *)
Definition next_link (root : ET.Element) : bool :=
  existsb (fun link => bool_decide (ET.get link "rel" = Some "next"))
    (ET.findall root (ET.qname ET.atom_ns "link")).

(** A value that is absent or empty. *)
Definition blank (o : option string) : bool := negb (Py.truthy_opt o).

(** ** Sample documents and environments *)

Definition ok_response (body : string) : Response :=
  mkResponse 200 [] body (list_byte_of_string body).

Definition unavailable : Response :=
  mkResponse 503 [] "Service Unavailable"
    (list_byte_of_string "Service Unavailable").

(** What [get] does with the answer of a server that is up ([Some]) or
    down ([None]: the transport fails). *)
Definition answer (r : option Response) : outcome Response :=
  match r with
  | Some r => Ok r
  | None => Raise HTTPError
  end.

(** [urljoin] of an address that starts with a slash to the base URL. *)
Definition join_path (base ref : string) : outcome string :=
  Ok (base +:+ ref).

(** An environment that answers the requests under the OPDS endpoint with
    [feed] and the others with [html], and whose parser reads the one text
    of [parsed] as the document that comes with it and rejects any other
    text. *)
Definition serving (html feed : option Response)
    (parsed : option (string * ET.Element)) : Env :=
  mkEnv (fun _ url =>
           answer (if Py.startswith url OPDS_BASE_URL then feed else html))
        (fun s =>
           match parsed with
           | Some (xml, doc) => if String.eqb s xml then Some doc else None
           | None => None
           end)
        join_path Basic.unquote Basic.unicode.

(** A result page: three books, one of them listed twice under different
    titles, and a link to the next page. *)
Definition sample_page : string :=
  "<h3>Найденные книги:</h3>
<li><a href=/b/7>Zebra</a> - <a href=/a/1>Ann</a>
<li><a href=/b/3>apple</a>
<li><a href=/b/5>Mango</a>
<li><a href=/b/7>Zebra, second edition</a>
<a href='/booksearch?ask=x&page=1'>next</a>".

(** A result page with the titles Zebra, apple and Mango, in this order. *)
Definition titles_page : string :=
  "<li><a href=/b/1>Zebra</a>
<li><a href=/b/2>apple</a>
<li><a href=/b/3>Mango</a>".

(** A result page with the Cyrillic titles Яма, азбука and Буря, in this
    order. *)
Definition cyrillic_page : string :=
  "<li><a href=/b/1>Яма</a>
<li><a href=/b/2>азбука</a>
<li><a href=/b/3>Буря</a>".

(** A page of found writers. *)
Definition authors_page : string :=
  "<h3>Найденные писатели:</h3>
<ul><li><a href=/a/1>Ann</a></li><li><a href=/a/2>Bob</a></li></ul>".

Definition atom (local : string) : string := ET.qname ET.atom_ns local.

Definition acquisition_rel : string :=
  "http://opds-spec.org/acquisition/open-access".

Definition acquisition_link (href mime : string) : ET.Element :=
  ET.Elem (atom "link")
    [ ("rel", acquisition_rel); ("href", href); ("type", mime) ] None [].

(** A feed entry is given by the text of its title element ([None] for an
    empty element), and the address and the MIME type of its acquisition
    link. *)
Definition entry_spec : Type := (option string * string * string)%type.

(** The element of an entry. *)
Definition feed_entry (e : entry_spec) : ET.Element :=
  let '(title, href, mime) := e in
  ET.Elem (atom "entry") [] None
    [ ET.Elem (atom "title") [] title []; acquisition_link href mime ].

(** The text of an entry:
    [<entry><title>T</title><link rel='R' href='H' type='M'/></entry>],
    with [<title/>] for an empty title element. *)
Definition entry_text (e : entry_spec) : string :=
  let '(title, href, mime) := e in
  "<entry>"
  +:+ match title with
      | Some s => "<title>" +:+ s +:+ "</title>"
      | None => "<title/>"
      end
  +:+ "<link rel='" +:+ acquisition_rel +:+ "' href='" +:+ href
  +:+ "' type='" +:+ mime +:+ "'/></entry>".

(** A feed document and its text. *)
Definition feed_doc (entries : list entry_spec) : ET.Element :=
  ET.Elem (atom "feed") [] None (List.map feed_entry entries).

Definition feed_text (entries : list entry_spec) : string :=
  "<feed xmlns='http://www.w3.org/2005/Atom'>"
  +:+ String.concat EmptyString (List.map entry_text entries) +:+ "</feed>".

(** A feed with three books. *)
Definition sample_feed : list entry_spec :=
  [ (Some "Zebra", "/b/7/fb2", "application/fb2+zip");
    (Some "apple", "/b/3/fb2", "application/fb2+zip");
    (Some "Mango", "/b/5/epub", "application/epub+zip") ].

(** A feed that lists book 7 twice. *)
Definition repeating_feed : list entry_spec :=
  [ (Some "Zebra", "/b/7/fb2", "application/fb2+zip");
    (Some "Zebra, second edition", "/b/7/epub", "application/epub+zip") ].

(** A feed whose only entry has an empty title element. *)
Definition untitled_feed : list entry_spec :=
  [ (None, "/b/7/fb2", "application/fb2+zip") ].

(** A feed without entries. *)
Definition empty_feed : list entry_spec := [].

(** The HTML source answers with [page]; the feed source is down. *)
Definition env_page (page : string) : Env :=
  serving (Some (ok_response page)) None None.

(** The HTML source answers with [sample_page]. *)
Definition env_html : Env := env_page sample_page.

(** The HTML source answers with [titles_page]. *)
Definition env_titles : Env := env_page titles_page.

(** The HTML source answers with the page of writers. *)
Definition env_html_authors : Env := env_page authors_page.

(** The HTML source is down and the feed source answers with the text of
    the given feed. *)
Definition env_feed (entries : list entry_spec) : Env :=
  serving (Some unavailable) (Some (ok_response (feed_text entries)))
    (Some (feed_text entries, feed_doc entries)).

(** The header value [filename=\x22book%20one.fb2\x22], \x22 being the
    double quotation mark. *)
Definition sample_disposition : string :=
  "filename=" +:+ String Re.dquote "book%20one.fb2"
  +:+ String Re.dquote EmptyString.

(** A feed entry with one acquisition link of the given MIME type. *)
Definition entry_of_type (mime : string) : ET.Element :=
  feed_entry (Some "Title", "/b/1/download", mime).

(** A status callback that raises. *)
Definition failing_callback : Callback :=
  fun _ => raise (OtherError "RuntimeError").

(** The bytes of a small file. *)
Definition file_bytes : list Byte.byte := list_byte_of_string "FictionBook".

(** A server that answers every request with that file and the given
    headers. *)
Definition env_download (hs : list (string * string)) : Env :=
  mkEnv (fun _ _ => Ok (mkResponse 200 hs "FictionBook" file_bytes))
        (fun _ => None) join_path Basic.unquote Basic.unicode.

(** ** The connectivity probe *)

(** [check_connection]: a request to the base URL, then one to the OPDS
    endpoint; a [return] inside a [try] is an early result. *)
Definition check_connection (env : Env) : M (bool * string) :=
  (* Try HTTP first *)
  early <-
    try_except
      (response <- client_get env FLIBUSTA_BASE_URL ;;
       if status_code response =? 200
       then ret (Some (true, "✅ Подключение к Flibusta установлено (HTTP)"))
       else ret None)
      is_Exception (fun _ => ret None) ;;
  match early with
  | Some result => ret result
  | None =>
      (* Try OPDS as fallback *)
      early <-
        try_except
          (response <- client_get env OPDS_BASE_URL ;;
           if status_code response =? 200
           then ret (Some (true,
                           "✅ Подключение к Flibusta установлено (OPDS)"))
           else ret None)
          is_Exception (fun _ => ret None) ;;
      match early with
      | Some result => ret result
      | None => ret (false, "❌ Не удалось подключиться к Flibusta")
      end
  end.

(** ** More vocabulary *)

(** The status of the answer to a request, if [get] returns one. *)
Definition answered (env : Env) (t : Trace) (url : string) : option Z :=
  match network env t url with
  | Ok r => Some (status_code r)
  | Raise _ => None
  end.

(** Every character of [s] is in the class [c] of the database. *)
Definition all_letters (c : string -> bool) (s : string) : Prop :=
  Forall (fun x => c x = true) (Py.chars s).

(** A character of a text: a byte and continuation bytes after it. *)
Definition is_char (c : string) : bool :=
  match c with
  | String _ c' => all_chars Py.continuation c'
  | EmptyString => false
  end.

(** The characters of a text in order: each is a character, and each but
    the first starts with a byte that is not a continuation byte. *)
Definition regular (l : list string) : Prop :=
  Forall (fun c => is_char c = true) l /\
  Forall (fun c => Py.head_continues c = false) (List.tl l).

(** A non-empty string of decimal digits, the characters that [\d]
    matches. *)
Definition numeral (u : Unicode) (s : string) : Prop :=
  s <> EmptyString /\ all_letters (isdecimal u) s.

(** The groups of a pattern in order: what the class of each says of a
    captured text, and whether its quantifier asks for at least one
    character. *)
Definition at_least_one (q : Re.quant) : bool :=
  match q with
  | Re.Once | Re.Plus | Re.LazyPlus => true
  | Re.Opt | Re.Star | Re.LazyStar => false
  end.

Fixpoint group_specs (p : Re.pattern) : list ((string -> Prop) * bool) :=
  match p with
  | [] => []
  | Re.Grp c q :: p' =>
      (fun g => all_chars c g = true, at_least_one q) :: group_specs p'
  | Re.GrpU c q :: p' => (all_letters c, at_least_one q) :: group_specs p'
  | _ :: p' => group_specs p'
  end.

(** A captured text fits the group it comes from. *)
Definition fits (spec : (string -> Prop) * bool) (g : string) : Prop :=
  fst spec g /\ (snd spec = true -> g <> EmptyString).

(** The key of the sorts on authors, and their order. *)
Definition name_key (u : Unicode) (a : Author) : outcome string :=
  lower_of u (author_name a).

Definition name_le (u : Unicode) (a b : Author) : Prop :=
  match author_name a, author_name b with
  | Some x, Some y => String.leb (lower u x) (lower u y) = true
  | _, _ => False
  end.

(** [authors] in [_http_search_authors], before the sort. *)
Definition found_authors (u : Unicode) (html_content : string)
    : list Author :=
  match Re.search (Re.author_section u) html_content with
  | Some author_section_match =>
      authors_from u ∅
        (Re.finditer (Re.author_anchor_lazy u)
           (Re.group 1 author_section_match))
  | None => []
  end.

(** What [_http_search_authors] makes of the text of a page. *)
Definition authors_of_page (u : Unicode) (html_content : string)
    : option (SearchResult Author) :=
  match list_sort (name_key u) (found_authors u html_content) with
  | Ok sorted => Some (new_SearchResult sorted false "http")
  | Raise _ => None
  end.

(** [authors] in [_opds_search_authors], before the sort. *)
Definition feed_authors (env : Env) (root : ET.Element) : list Author :=
  omap (author_of_entry env) (ET.findall root (ET.qname ET.atom_ns "entry")).

(** A text that is present and not empty. *)
Definition nonempty (o : option string) : Prop :=
  exists s, o = Some s /\ s <> EmptyString.

(** What holds of an item of the HTML book search. *)
Definition search_item (u : Unicode) (b : Book) : Prop :=
  numeral u (book_id b) /\
  nonempty (book_title b) /\
  download_links b = conventional_links (book_id b) /\
  (book_authors b = [] \/
   exists a, book_authors b = [a] /\ numeral u (author_id a) /\
             nonempty (author_name a)).

(** What holds of an item of the HTML bibliography of [author]. *)
Definition bibliography_item (u : Unicode) (author : string) (b : Book)
    : Prop :=
  numeral u (book_id b) /\
  (exists title, book_title b = Some title /\ title <> EmptyString /\
                 lower u title ∉ action_labels) /\
  download_links b = conventional_links (book_id b) /\
  book_authors b = [new_Author author (Some EmptyString) (Some EmptyString)].

(** What holds of an item of the HTML author search. *)
Definition found_author (u : Unicode) (a : Author) : Prop :=
  numeral u (author_id a) /\
  nonempty (author_name a) /\
  author_uri a = Some ("/a/" +:+ author_id a).

Definition author_ids (l : list Author) : list string :=
  List.map author_id l.

(** What holds of a download link and of an item of the feed adapter. *)
Definition feed_link (d : DownloadLink) : Prop :=
  Py.contains "text/html" (mime_type d) = false /\
  link_format d = file_format (mime_type d).

Definition feed_item (u : Unicode) (b : Book) : Prop :=
  download_links b <> [] /\
  Forall feed_link (download_links b) /\
  (book_id b = EmptyString \/ numeral u (book_id b)) /\
  book_title b <> None.

(** What holds of an item of the feed author search. *)
Definition feed_author (u : Unicode) (a : Author) : Prop :=
  (author_id a = EmptyString \/ numeral u (author_id a)) /\
  nonempty (author_name a) /\
  author_uri a = Some ("/a/" +:+ author_id a).

(** A link of the document with the relation [next]. *)
Definition is_next_link (root link : ET.Element) : Prop :=
  link ∈ ET.children root /\
  ET.tag link = ET.qname ET.atom_ns "link" /\
  ET.get link "rel" = Some "next".

(** A server without alphabetical pages: it answers 503 to a URL that
    contains [/alphabet] and sends the sample page otherwise. *)
Definition env_no_alphabet : Env :=
  mkEnv (fun _ url =>
           if Py.contains "/alphabet" url then Ok unavailable
           else Ok (ok_response sample_page))
        (fun _ => None) join_path Basic.unquote Basic.unicode.

(** A network on which every transport fails. *)
Definition env_offline : Env :=
  mkEnv (fun _ _ => Raise HTTPError) (fun _ => None) join_path
    Basic.unquote Basic.unicode.

(** The exception of httpx for an address that is not a URL. *)
Definition InvalidURL : exn := OtherError "InvalidURL".

(** The tabulation. *)
Definition tab : string := String (ascii_of_N 9) EmptyString.

(** A client that, as httpx does, rejects a URL with a tabulation in it
    before it sends anything, on a network on which the HTML source
    answers with the sample page and the feed source is down. *)
Definition env_strict : Env :=
  mkEnv (fun _ url =>
           if Py.contains tab url
           then Raise InvalidURL
           else answer (if Py.startswith url OPDS_BASE_URL then None
                        else Some (ok_response sample_page)))
        (fun _ => None) join_path Basic.unquote Basic.unicode.

(** The alphabetical links of the entries of a document, in its order. *)
Definition alphabet_links (env : Env) (root : ET.Element) : list string :=
  omap (alphabet_link env) (ET.findall root (ET.qname ET.atom_ns "entry")).

(** The address that [_opds_get_author_books] asks for a link. *)
Definition resolved (env : Env) (target_url : string) : outcome string :=
  if negb (Py.startswith target_url "http")
  then urljoin env FLIBUSTA_BASE_URL target_url
  else Ok target_url.

(** A feed whose entry points to an alphabetical listing. *)
Definition alphabet_feed : list entry_spec :=
  [ (Some "Books by alphabet", "/opds/author/12/alphabet",
     "application/fb2+zip") ].

(** A feed of one book that links to a next page: its text and the
    document. *)
Definition paged_feed_text : string :=
  "<feed xmlns='http://www.w3.org/2005/Atom'>"
  +:+ "<link rel='next' href='/opds/opensearch?searchTerm=x&amp;pageNumber=1'/>"
  +:+ entry_text (Some "Zebra", "/b/7/fb2", "application/fb2+zip")
  +:+ "</feed>".

Definition paged_feed_doc : ET.Element :=
  ET.Elem (atom "feed") [] None
    [ ET.Elem (atom "link")
        [ ("rel", "next");
          ("href", "/opds/opensearch?searchTerm=x&pageNumber=1") ] None [];
      feed_entry (Some "Zebra", "/b/7/fb2", "application/fb2+zip") ].

Definition env_paged_feed : Env :=
  serving (Some unavailable) (Some (ok_response paged_feed_text))
    (Some (paged_feed_text, paged_feed_doc)).

(** * The presentation helpers of the bot (src/bot.py)

    The pure functions that turn the client's results into Telegram
    messages and inline keyboards.  An [InlineKeyboardMarkup] is its rows
    of buttons, a button its label and its callback data. *)

Definition ITEMS_PER_PAGE : Z := 5.

Definition backslash : ascii := ascii_of_N 92.

Definition special_chars : list ascii :=
  [ "_"%char; "*"%char; "["%char; "]"%char; "("%char; ")"%char; "~"%char;
    "`"%char; ">"%char; "#"%char; "+"%char; "-"%char; "="%char; "|"%char;
    "{"%char; "}"%char; "."%char; "!"%char ].

(** [escape_md]: [escape_step] is the body of its loop.  Callers pass
    attributes that may be [None], for which [not text] holds as for the
    empty string. *)
Definition escape_step (text : string) (char : ascii) : string :=
  Py.replace (String char EmptyString)
    (String backslash (String char EmptyString)) text.

Definition escape_md (text : option string) : string :=
  if negb (Py.truthy_opt text) then EmptyString
  else fold_left escape_step special_chars (default EmptyString text).

(** [len(s)] and [s[:n]] count code points: every byte but the
    continuation bytes 0x80-0xBF starts one. *)
Definition continuation (a : ascii) : bool := Py.in_range 128 191 a.

Fixpoint str_len (s : string) : nat :=
  match s with
  | EmptyString => O
  | String a s' => ((if continuation a then 0 else 1) + str_len s')%nat
  end.

Fixpoint str_take (n : nat) (s : string) : string :=
  match s with
  | EmptyString => EmptyString
  | String a s' =>
      if continuation a then String a (str_take n s')
      else match n with
           | O => EmptyString
           | S k => String a (str_take k s')
           end
  end.

(** [l[start:stop]] on a list: a negative index counts from the end, and
    both are clamped to the list. *)
Definition slice_index (n i : Z) : Z :=
  if i <? 0 then Z.max (i + n) 0 else Z.min i n.

Definition list_slice {A : Type} (l : list A) (start stop : Z) : list A :=
  let n := Z.of_nat (List.length l) in
  let i := slice_index n start in
  let j := slice_index n stop in
  take (Z.to_nat (j - i)) (drop (Z.to_nat i) l).

Record InlineKeyboardButton : Type := mkButton {
  button_text : string;
  callback_data : string
}.

Definition InlineKeyboardMarkup : Type := list (list InlineKeyboardButton).

Definition TypeError : exn := OtherError "TypeError".

(** [s[:n] + "..." if len(s) > n else s]; [len(None)] is a [TypeError]. *)
Definition shortened (n : nat) (s : option string) : outcome string :=
  match s with
  | None => Raise TypeError
  | Some s =>
      Ok (if (n <? str_len s)%nat then str_take n s +:+ "..." else s)
  end.

(** The items of one page: [l[start_idx:end_idx]]. *)
Definition page_items {A : Type} (l : list A) (page : Z) : list A :=
  let start_idx := page * ITEMS_PER_PAGE in
  let end_idx := Z.min (start_idx + ITEMS_PER_PAGE)
                   (Z.of_nat (List.length l)) in
  list_slice l start_idx end_idx.

Definition total_pages (total_items : Z) : Z :=
  (total_items + ITEMS_PER_PAGE - 1) / ITEMS_PER_PAGE.

(** The rows that a loop appends, one per item; the first item whose row
    cannot be built ends the loop with its exception. *)
Fixpoint rows_of {A : Type} (row : A -> outcome (list InlineKeyboardButton))
    (l : list A) : outcome InlineKeyboardMarkup :=
  match l with
  | [] => Ok []
  | x :: rest =>
      match row x with
      | Raise e => Raise e
      | Ok r =>
          match rows_of row rest with
          | Raise e => Raise e
          | Ok rs => Ok (r :: rs)
          end
      end
  end.

(** The pagination row; [target] is the callback data up to the page
    number. *)
Definition pagination (target : string) (page total_items : Z)
    : InlineKeyboardMarkup :=
  let total_pages := total_pages total_items in
  if 1 <? total_pages then
    [ (if 0 <? page
       then [mkButton "◀️ Назад" (target +:+ pretty (page - 1))] else [])
      ++ [mkButton (pretty (page + 1) +:+ "/" +:+ pretty total_pages) "noop"]
      ++ (if page <? total_pages - 1
          then [mkButton "Вперёд ▶️" (target +:+ pretty (page + 1))]
          else []) ]
  else [].

Definition main_menu_row : list InlineKeyboardButton :=
  [mkButton "🏠 Главное меню" "back:main"].

(** The body of the loop over [page_books].  The author's name is
    shortened as well, but both branches build the label from the title
    alone. *)
Definition book_row (callback_prefix : string) (book : Book)
    : outcome (list InlineKeyboardButton) :=
  match shortened 35 (book_title book) with
  | Raise e => Raise e
  | Ok title =>
      let name := match book_authors book with
                  | a :: _ => author_name a
                  | [] => Some EmptyString
                  end in
      let label := if Py.truthy_opt name then "📖 " +:+ title
                   else "📖 " +:+ title in
      Ok [mkButton label (callback_prefix +:+ ":" +:+ book_id book)]
  end.

(** [create_book_list_keyboard] *)
Definition create_book_list_keyboard (books : list Book)
    (page total_items : Z) (callback_prefix : string)
    : outcome InlineKeyboardMarkup :=
  match rows_of (book_row callback_prefix) (page_items books page) with
  | Raise e => Raise e
  | Ok keyboard =>
      Ok (keyboard
          ++ pagination ("page:" +:+ callback_prefix +:+ ":") page total_items
          ++ [main_menu_row])
  end.

Definition author_row (author : Author)
    : outcome (list InlineKeyboardButton) :=
  match shortened 45 (author_name author) with
  | Raise e => Raise e
  | Ok name =>
      Ok [mkButton ("👤 " +:+ name) ("author:" +:+ author_id author)]
  end.

(** [create_author_list_keyboard] *)
Definition create_author_list_keyboard (authors : list Author)
    (page total_items : Z) : outcome InlineKeyboardMarkup :=
  match rows_of author_row (page_items authors page) with
  | Raise e => Raise e
  | Ok keyboard =>
      Ok (keyboard ++ pagination "page:author:" page total_items
          ++ [main_menu_row])
  end.

Section Details.

(** [str.upper], of which the keyboard only shows the result. *)
Variable upper : string -> string.

Definition format_button (book : Book) (link : DownloadLink)
    : InlineKeyboardButton :=
  mkButton ("📥 " +:+ upper (link_format link))
    ("dl:" +:+ book_id book +:+ ":" +:+ link_format link).

(** The body of the loop over the links: the state is [keyboard] and
    [format_row]. *)
Definition add_format (book : Book)
    (state : InlineKeyboardMarkup * list InlineKeyboardButton)
    (link : DownloadLink)
    : InlineKeyboardMarkup * list InlineKeyboardButton :=
  let '(keyboard, format_row) := state in
  let format_row := format_row ++ [format_button book link] in
  if (3 <=? List.length format_row)%nat
  then (keyboard ++ [format_row], [])
  else (keyboard, format_row).

(** [create_book_details_keyboard] *)
Definition create_book_details_keyboard (book : Book) (back_state : string)
    : InlineKeyboardMarkup :=
  let '(keyboard, format_row) :=
    fold_left (add_format book) (take 6 (download_links book)) ([], []) in
  let keyboard := match format_row with
                  | [] => keyboard
                  | _ => keyboard ++ [format_row]
                  end in
  keyboard
  ++ [ [mkButton "🔙 К результатам" ("back:" +:+ back_state)];
       main_menu_row ].

End Details.

(** ** Vocabulary of the statements about the helpers *)

Definition special (a : ascii) : bool :=
  existsb (Ascii.eqb a) special_chars.

(** The text with one backslash before every special character. *)
Fixpoint escaped (s : string) : string :=
  match s with
  | EmptyString => EmptyString
  | String a s' =>
      if special a then String backslash (String a (escaped s'))
      else String a (escaped s')
  end.

Definition plain_char (a : ascii) : bool :=
  negb (Ascii.eqb a "<" || Ascii.eqb a "&").

Definition page_numbers (total_items : Z) : list Z :=
  List.map Z.of_nat (seq 0 (Z.to_nat (total_pages total_items))).

Definition titled (b : Book) : Prop := book_title b <> None.
Definition named (a : Author) : Prop := author_name a <> None.

(** What a list keyboard shows of a title or a name: the text itself up
    to [n] code points, else its first [n] code points and three dots. *)
Definition shown (n : nat) (s label : string) : Prop :=
  (str_len label <= n + 3)%nat /\
  ((str_len s <= n)%nat -> label = s) /\
  ((n < str_len s)%nat -> label = str_take n s +:+ "...").

Definition book_item (callback_prefix : string) (b : Book)
    (row : list InlineKeyboardButton) : Prop :=
  exists title label,
    book_title b = Some title /\ shown 35 title label /\
    row = [mkButton ("📖 " +:+ label) (callback_prefix +:+ ":" +:+ book_id b)].

Definition author_item (a : Author) (row : list InlineKeyboardButton)
    : Prop :=
  exists name label,
    author_name a = Some name /\ shown 45 name label /\
    row = [mkButton ("👤 " +:+ label) ("author:" +:+ author_id a)].

(** A button of the pagination row: the page indicator, or a button that
    leads to a neighbour of [page] among the pages that exist. *)
Definition nav_button (target : string) (page total_items : Z)
    (b : InlineKeyboardButton) : Prop :=
  callback_data b = "noop" \/
  exists k, 0 <= k < total_pages total_items /\
            (k = page - 1 \/ k = page + 1) /\
            callback_data b = target +:+ pretty k.

Definition leads_to (target : string) (k : Z)
    (row : list InlineKeyboardButton) : Prop :=
  exists b, b ∈ row /\ callback_data b = target +:+ pretty k.

(** A text without white space at its ends: neither its first nor its
    last character is white space. *)
Definition trimmed (u : Unicode) (s : string) : Prop :=
  (forall c cs, Py.chars s = c :: cs -> isspace u c = false) /\
  (forall cs c, Py.chars s = cs ++ [c] -> isspace u c = false).

(** [str.upper] on the ASCII letters, for the sample formats. *)
Fixpoint ascii_upper (s : string) : string :=
  match s with
  | EmptyString => EmptyString
  | String a s' =>
      String (if Py.in_range 97 122 a then Py.shift (-32) a else a)
        (ascii_upper s')
  end.

(** Six books and six authors, to fill two pages of a list keyboard. *)
Definition shelf : list Book :=
  List.map
    (fun id => new_Book id (Some ("Book " +:+ id)) [] None None
                 (conventional_links id))
    ["1"; "2"; "3"; "4"; "5"; "6"].

Definition roster : list Author :=
  List.map
    (fun id => new_Author id (Some ("Author " +:+ id))
                 (Some ("/a/" +:+ id)))
    ["1"; "2"; "3"; "4"; "5"; "6"].

(** * Properties *)

(** ** The sample tables *)

(** [Basic.lower] on Latin and Cyrillic letters. *)
Lemma Basic_lower_samples :
  Basic.lower "Zebra, Second Edition" = "zebra, second edition" /\
  Basic.lower "Война и МИР" = "война и мир" /\
  Basic.lower "ЁЖ, Їжак" = "ёж, їжак".
Proof. repeat split; vm_compute; reflexivity. Qed.

(** ** The order on strings *)

Lemma ltb_false_leb (x y : string) :
  String.ltb y x = false -> String.leb x y = true.
Proof.
  unfold String.ltb, String.leb. rewrite (String.compare_antisym x y).
  destruct (String.compare y x); simpl; congruence.
Qed.

Lemma ltb_true_leb (x y : string) :
  String.ltb y x = true -> String.leb y x = true.
Proof.
  unfold String.ltb, String.leb. destruct (String.compare y x); congruence.
Qed.

Lemma leb_trans (x y z : string) :
  String.leb x y = true -> String.leb y z = true -> String.leb x z = true.
Proof.
  intros Hxy Hyz.
  assert (H : String.le x z).
  { transitivity y; unfold String.le; [rewrite Hxy | rewrite Hyz]; exact I. }
  unfold String.le in H. destruct (String.leb x z); [reflexivity | elim H].
Qed.

(** ** [list.sort] *)

Section Sorting.

Context {A : Type}.

Lemma insert_keyed_perm (x : string * A) l :
  Permutation (x :: l) (insert_keyed x l).
Proof.
  induction l as [|y l IH]; simpl; [reflexivity|].
  destruct (String.ltb (fst y) (fst x)); [|reflexivity].
  rewrite <- IH. apply perm_swap.
Qed.

Lemma stable_sort_perm (l : list (string * A)) :
  Permutation l (stable_sort l).
Proof.
  induction l as [|x l IH]; simpl; [reflexivity|].
  rewrite <- insert_keyed_perm. now apply perm_skip.
Qed.

Lemma insert_keyed_sorted (x : string * A) l :
  StronglySorted fst_le l -> StronglySorted fst_le (insert_keyed x l).
Proof.
  induction l as [|y l IH]; simpl; intros Hs.
  - constructor; [constructor | constructor].
  - apply StronglySorted_inv in Hs as [Hs Hy].
    destruct (String.ltb (fst y) (fst x)) eqn:E.
    + constructor; [now apply IH|].
      rewrite <- insert_keyed_perm. constructor; [|exact Hy].
      now apply ltb_true_leb.
    + apply ltb_false_leb in E.
      constructor; [now constructor|].
      constructor; [exact E|].
      eapply Forall_impl; [exact Hy|].
      intros z Hz. unfold fst_le in *. now apply leb_trans with (fst y).
Qed.

Lemma stable_sort_sorted (l : list (string * A)) :
  StronglySorted fst_le (stable_sort l).
Proof.
  induction l as [|x l IH]; simpl; [constructor|].
  now apply insert_keyed_sorted.
Qed.

Lemma compare_refl (s : string) : String.compare s s = Eq.
Proof.
  induction s as [|a s IH]; simpl; [reflexivity|].
  unfold Ascii.compare. now rewrite N.compare_refl.
Qed.

(** The sort is stable: it does not swap items of equal keys. *)
Lemma insert_keyed_stable (x : string * A) l k :
  List.filter (fun p => String.eqb (fst p) k) (insert_keyed x l) =
  List.filter (fun p => String.eqb (fst p) k) (x :: l).
Proof.
  induction l as [|y l IH]; [reflexivity|].
  cbn [insert_keyed]. destruct (String.ltb (fst y) (fst x)) eqn:E;
    [|reflexivity].
  cbn [List.filter] in *. rewrite IH.
  destruct (String.eqb_spec (fst y) k) as [Hy|Hy],
           (String.eqb_spec (fst x) k) as [Hx|Hx]; try reflexivity.
  exfalso. unfold String.ltb in E. rewrite Hy, Hx, compare_refl in E.
  discriminate.
Qed.

Lemma stable_sort_stable (l : list (string * A)) k :
  List.filter (fun p => String.eqb (fst p) k) (stable_sort l) =
  List.filter (fun p => String.eqb (fst p) k) l.
Proof.
  induction l as [|x l IH]; [reflexivity|].
  cbn [stable_sort List.fold_right]. rewrite insert_keyed_stable.
  cbn [List.filter]. fold (stable_sort l). now rewrite IH.
Qed.

Variable key : A -> outcome string.

Lemma sort_keys_ok l ks :
  sort_keys key l = Ok ks ->
  List.map snd ks = l /\ Forall (fun p => key (snd p) = Ok (fst p)) ks.
Proof.
  revert ks. induction l as [|x l IH]; simpl; intros ks H.
  - inversion H; subst. split; [reflexivity | constructor].
  - destruct (key x) as [k|e] eqn:Ek; [|discriminate].
    destruct (sort_keys key l) as [ks'|e]; [|discriminate].
    inversion H; subst. destruct (IH ks' eq_refl) as [Hm Hf].
    simpl. split; [now rewrite Hm | now constructor].
Qed.

Lemma sort_keys_total l :
  Forall (fun x => exists k, key x = Ok k) l ->
  exists ks, sort_keys key l = Ok ks.
Proof.
  induction 1 as [|x l [k Hk] _ [ks IH]]; simpl; [now eexists|].
  rewrite Hk, IH. now eexists.
Qed.

Lemma sort_keys_raise l :
  (exists x e, x ∈ l /\ key x = Raise e) ->
  exists e, sort_keys key l = Raise e.
Proof.
  intros (x & e & Hin & Hx).
  induction l as [|y l IH]; simpl; [now apply elem_of_nil in Hin|].
  destruct (key y) as [k|e'] eqn:Ek; [|now eexists].
  apply elem_of_cons in Hin as [->|Hin]; [congruence|].
  destruct (IH Hin) as [e'' ->]. now eexists.
Qed.

(** A sort that returns gives a permutation in the order of the keys. *)
Lemma list_sort_ok l l' :
  list_sort key l = Ok l' ->
  Permutation l l' /\ StronglySorted (key_le key) l'.
Proof.
  unfold list_sort. destruct (sort_keys key l) as [ks|e] eqn:E; [|discriminate].
  intros H; inversion H; subst; clear H.
  apply sort_keys_ok in E as [Hm Hf]. split.
  - rewrite <- Hm. apply Permutation_map, stable_sort_perm.
  - assert (Hf' : Forall (fun p => key (snd p) = Ok (fst p)) (stable_sort ks)).
    { eapply Permutation_Forall; [apply stable_sort_perm | exact Hf]. }
    pose proof (stable_sort_sorted ks) as Hs.
    induction Hs as [|p ps Hs IH Hp]; simpl; [constructor|].
    apply Forall_cons_iff in Hf' as [Hp' Hf'].
    constructor; [now apply IH|].
    apply Forall_map. rewrite Forall_forall in *.
    intros q Hq. exists (fst p), (fst q).
    repeat split; [exact Hp' | now apply Hf' | now apply Hp].
Qed.

(** Items of equal keys keep their order. *)
Lemma list_sort_stable l l' k :
  list_sort key l = Ok l' -> keyed key k l' = keyed key k l.
Proof.
  unfold list_sort.
  destruct (sort_keys key l) as [ks|e] eqn:E; [|discriminate].
  intros H; inversion H; subst; clear H.
  apply sort_keys_ok in E as [Hm Hf]. rewrite <- Hm.
  assert (Hk : forall ps : list (string * A),
             Forall (fun p => key (snd p) = Ok (fst p)) ps ->
             keyed key k (List.map snd ps) =
             List.map snd (List.filter (fun p => String.eqb (fst p) k) ps)).
  { induction 1 as [|p ps Hp _ IH]; [reflexivity|].
    unfold keyed in *. cbn [List.map List.filter]. rewrite Hp, IH.
    now destruct (String.eqb (fst p) k). }
  rewrite !Hk; [now rewrite stable_sort_stable | exact Hf |].
  eapply Permutation_Forall; [apply stable_sort_perm | exact Hf].
Qed.

Lemma list_sort_total l :
  Forall (fun x => exists k, key x = Ok k) l ->
  exists l', list_sort key l = Ok l'.
Proof.
  intros H. destruct (sort_keys_total l H) as [ks E].
  unfold list_sort. rewrite E. now eexists.
Qed.

Lemma list_sort_raise l :
  (exists x e, x ∈ l /\ key x = Raise e) ->
  exists e, list_sort key l = Raise e.
Proof.
  intros H. destruct (sort_keys_raise l H) as [e E].
  unfold list_sort. rewrite E. now eexists.
Qed.

End Sorting.

(** ** Requests *)

Lemma _http_request_run env url t :
  _http_request env url t = (requested env t url, t ++ [EvGet url]).
Proof.
  unfold _http_request, try_except, bind, client_get, raise_for_status,
    requested, success.
  destruct (network env t url) as [r|e]; simpl.
  - destruct ((200 <=? status_code r) && (status_code r <? 300)); reflexivity.
  - destruct (is_HTTPError e); reflexivity.
Qed.

Lemma _opds_request_run env url t :
  _opds_request env url t = (requested env t url, t ++ [EvGet url]).
Proof. exact (_http_request_run env url t). Qed.

(** A request that returns, returns the fetched text. *)
Lemma requested_ok env t url o :
  requested env t url = Ok o -> fetched env t url = o.
Proof.
  unfold requested, fetched. destruct (network env t url) as [r|e].
  - now intros H; inversion H.
  - destruct (is_HTTPError e); [|discriminate]. now intros H; inversion H.
Qed.

Lemma requested_failed env t url :
  failed env t url -> requested env t url = Ok None.
Proof.
  unfold requested. intros [(e & -> & ->)|(r & -> & ->)]; reflexivity.
Qed.

(** ** The HTML adapter *)

Lemma book_of_line_titled u line b :
  book_of_line u line = Some b -> exists s, book_title b = Some s.
Proof.
  unfold book_of_line. intros H.
  destruct (Py.contains "/s/" line); [discriminate|].
  destruct (Re.search (Re.book_anchor u) line); [|discriminate].
  destruct (negb _); [discriminate|].
  inversion H; subst. simpl. now eexists.
Qed.

Lemma extracted_books_titled u h :
  Forall (fun b => exists k, title_key u b = Ok k) (extracted_books u h).
Proof.
  apply Forall_forall. intros b Hb. unfold extracted_books in Hb.
  apply list_elem_of_omap in Hb as (line & _ & Hl).
  apply book_of_line_titled in Hl as [s Hs].
  unfold title_key. rewrite Hs. now eexists.
Qed.

Lemma unique_from_incl seen l b :
  b ∈ unique_from seen l -> b ∈ l.
Proof.
  revert seen. induction l as [|x l IH]; simpl; intros seen H; [exact H|].
  destruct (decide (book_id x ∈ seen)).
  - right. now apply (IH seen).
  - apply elem_of_cons in H as [->|H]; [left | right; now apply (IH _ H)].
Qed.

Lemma author_books_from_titled u a seen ms :
  Forall (fun b => exists k, title_key u b = Ok k)
    (author_books_from u a seen ms).
Proof.
  revert seen. induction ms as [|m ms IH]; simpl; intros seen; [constructor|].
  destruct (_ || _); [apply IH|].
  destruct (bool_decide _); [apply IH|].
  constructor; [|apply IH]. unfold title_key. simpl. now eexists.
Qed.

(** A page always gives a result. *)
Lemma books_page_some u h p :
  exists sorted,
    list_sort (title_key u) (unique_books (extracted_books u h)) = Ok sorted /\
    books_page u h p =
      Some (new_SearchResult sorted
              (Py.contains ("page=" +:+ pretty (p + 1)) h) "http").
Proof.
  destruct (list_sort_total (title_key u)
              (unique_books (extracted_books u h))) as [sorted E].
  { apply Forall_forall. intros b Hb. apply unique_from_incl in Hb.
    pose proof (extracted_books_titled u h) as Hf.
    rewrite Forall_forall in Hf. now apply Hf. }
  exists sorted. split; [exact E|]. unfold books_page. now rewrite E.
Qed.

Lemma author_books_page_some u a h :
  exists sorted,
    list_sort (title_key u)
      (author_books_from u a ∅ (Re.finditer (Re.book_anchor u) h))
      = Ok sorted /\
    author_books_page u a h = Some (new_SearchResult sorted false "http").
Proof.
  destruct (list_sort_total (title_key u)
              (author_books_from u a ∅ (Re.finditer (Re.book_anchor u) h)))
    as [sorted E]; [apply author_books_from_titled|].
  exists sorted. split; [exact E|]. unfold author_books_page. now rewrite E.
Qed.

Lemma _http_search_books_run env query page t :
  _http_search_books env query page t =
    (mapped (page_result (fun h => books_page (unicode env) h page))
       (requested env t (book_search_url query page)),
     t ++ [EvGet (book_search_url query page)]).
Proof.
  unfold _http_search_books, bind. fold (book_search_url query page).
  rewrite _http_request_run.
  destruct (requested env t (book_search_url query page)) as [[h|]|e];
    [|reflexivity|reflexivity].
  simpl. destruct (Py.truthy h); simpl; [|reflexivity].
  unfold try_except, bind, lift, books_page. fold (title_key (unicode env)).
  destruct (list_sort (title_key (unicode env)) _); reflexivity.
Qed.

Lemma _http_search_authors_run env query t :
  _http_search_authors env query t =
    (mapped (page_result (authors_of_page (unicode env)))
       (requested env t (author_search_url query)),
     t ++ [EvGet (author_search_url query)]).
Proof.
  unfold _http_search_authors, bind. fold (author_search_url query).
  rewrite _http_request_run.
  destruct (requested env t (author_search_url query)) as [[h|]|e];
    [|reflexivity|reflexivity].
  simpl. destruct (Py.truthy h); simpl; [|reflexivity].
  unfold try_except, bind, lift, authors_of_page, found_authors.
  fold (name_key (unicode env)).
  destruct (list_sort (name_key (unicode env)) _); reflexivity.
Qed.

Lemma _http_get_author_books_run env a t :
  _http_get_author_books env a t =
    match requested env t (alphabet_url a) with
    | Raise e => (Raise e, t ++ [EvGet (alphabet_url a)])
    | Ok first =>
        if blank first
        then (mapped (page_result (author_books_page (unicode env) a))
                (requested env (t ++ [EvGet (alphabet_url a)]) (plain_url a)),
              (t ++ [EvGet (alphabet_url a)]) ++ [EvGet (plain_url a)])
        else (Ok (page_result (author_books_page (unicode env) a) first),
              t ++ [EvGet (alphabet_url a)])
    end.
Proof.
  unfold _http_get_author_books, bind, blank.
  fold (alphabet_url a) (plain_url a). rewrite _http_request_run.
  destruct (requested env t (alphabet_url a)) as [first|e]; [|reflexivity].
  destruct (Py.truthy_opt first) eqn:E; simpl.
  - destruct first as [h|]; [|discriminate].
    simpl in E. simpl. rewrite E. simpl.
    unfold try_except, bind, lift, author_books_page.
    fold (title_key (unicode env)).
    destruct (list_sort (title_key (unicode env)) _); reflexivity.
  - rewrite _http_request_run.
    destruct (requested env (t ++ [EvGet (alphabet_url a)]) (plain_url a))
      as [[h|]|e]; [|reflexivity|reflexivity].
    simpl. destruct (Py.truthy h); simpl; [|reflexivity].
    unfold try_except, bind, lift, author_books_page.
    fold (title_key (unicode env)).
    destruct (list_sort (title_key (unicode env)) _); reflexivity.
Qed.

(** What the operations of the HTML adapter return, when they return. *)
Lemma _http_search_books_ok env query page t r t' :
  _http_search_books env query page t = (Ok r, t') ->
  r = page_result (fun h => books_page (unicode env) h page)
        (fetched env t (book_search_url query page)) /\
  t' = t ++ [EvGet (book_search_url query page)].
Proof.
  rewrite _http_search_books_run.
  destruct (requested env t (book_search_url query page)) as [o|e] eqn:E;
    [|discriminate].
  apply requested_ok in E. rewrite E. simpl.
  intros H; inversion H. now split.
Qed.

Lemma _http_search_authors_ok env query t r t' :
  _http_search_authors env query t = (Ok r, t') ->
  r = page_result (authors_of_page (unicode env))
        (fetched env t (author_search_url query)) /\
  t' = t ++ [EvGet (author_search_url query)].
Proof.
  rewrite _http_search_authors_run.
  destruct (requested env t (author_search_url query)) as [o|e] eqn:E;
    [|discriminate].
  apply requested_ok in E. rewrite E. simpl.
  intros H; inversion H. now split.
Qed.

Lemma _http_get_author_books_ok env a t r t' :
  _http_get_author_books env a t = (Ok r, t') ->
  if blank (fetched env t (alphabet_url a))
  then r = page_result (author_books_page (unicode env) a)
             (fetched env (t ++ [EvGet (alphabet_url a)]) (plain_url a)) /\
       t' = (t ++ [EvGet (alphabet_url a)]) ++ [EvGet (plain_url a)]
  else r = page_result (author_books_page (unicode env) a)
             (fetched env t (alphabet_url a)) /\
       t' = t ++ [EvGet (alphabet_url a)].
Proof.
  rewrite _http_get_author_books_run.
  destruct (requested env t (alphabet_url a)) as [first|e] eqn:E;
    [|discriminate].
  apply requested_ok in E. rewrite E.
  destruct (blank first).
  - destruct (requested env _ (plain_url a)) as [o|e] eqn:E2; [|discriminate].
    apply requested_ok in E2. rewrite E2. simpl.
    intros H; inversion H. now split.
  - intros H; inversion H. now split.
Qed.

(** The HTML adapter raises nothing of its own: it returns whenever its
    requests do. *)
Lemma _http_search_books_returns env query page t :
  refused env t (book_search_url query page) = None ->
  exists r t', _http_search_books env query page t = (Ok r, t').
Proof.
  rewrite _http_search_books_run. unfold refused, requested.
  destruct (network env t _) as [r|e]; simpl; [eauto|].
  destruct (is_HTTPError e); simpl; [eauto | discriminate].
Qed.

Lemma _http_search_authors_returns env query t :
  refused env t (author_search_url query) = None ->
  exists r t', _http_search_authors env query t = (Ok r, t').
Proof.
  rewrite _http_search_authors_run. unfold refused, requested.
  destruct (network env t _) as [r|e]; simpl; [eauto|].
  destruct (is_HTTPError e); simpl; [eauto | discriminate].
Qed.

Lemma _http_get_author_books_returns env a t :
  (forall t' url, refused env t' url = None) ->
  exists r t', _http_get_author_books env a t = (Ok r, t').
Proof.
  intros Hn. rewrite _http_get_author_books_run.
  assert (Hr : forall t' url, exists o, requested env t' url = Ok o).
  { intros t' url. specialize (Hn t' url). unfold refused, requested in *.
    destruct (network env t' url) as [r|e]; [eauto|].
    destruct (is_HTTPError e); [eauto | discriminate]. }
  destruct (Hr t (alphabet_url a)) as [first ->].
  destruct (blank first); [|eauto].
  destruct (Hr (t ++ [EvGet (alphabet_url a)]) (plain_url a)) as [o ->].
  simpl. eauto.
Qed.

(** ** The feed adapter *)

Lemma _opds_search_books_run env query page t :
  _opds_search_books env query page t =
    (bound (requested env t (feed_search_url query page))
       (feed_result env (fun root => feed_books env root (next_link root))),
     t ++ [EvGet (feed_search_url query page)]).
Proof.
  unfold _opds_search_books, bind. fold (feed_search_url query page).
  rewrite _opds_request_run.
  destruct (requested env t (feed_search_url query page)) as [[x|]|e];
    [|reflexivity|reflexivity].
  simpl. destruct (Py.truthy x); simpl; [|reflexivity].
  unfold try_except, bind, lift, ET_fromstring, feed_books, next_link,
    parse_guard.
  fold (title_key (unicode env)).
  destruct (fromstring env x) as [root|]; simpl; [|reflexivity].
  destruct (entry_books env root) as [books|e]; simpl;
    [|destruct (is_ParseError e); reflexivity].
  destruct (list_sort (title_key (unicode env)) _) as [l|e]; simpl;
    [reflexivity|].
  destruct (is_ParseError e); reflexivity.
Qed.

Lemma feed_books_source env root more res :
  feed_books env root more = Ok (Some res) -> source res = "opds".
Proof.
  unfold feed_books, parse_guard.
  destruct (entry_books env root) as [books|e];
    [|destruct (is_ParseError e); discriminate].
  destruct (list_sort _ _) as [l|e].
  - intros H; inversion H; reflexivity.
  - destruct (is_ParseError e); discriminate.
Qed.

Lemma _opds_search_authors_run env query page t :
  exists o,
    _opds_search_authors env query page t =
      (o, t ++ [EvGet (feed_author_search_url query page)]) /\
    forall res, o = Ok (Some res) -> source res = "opds".
Proof.
  unfold _opds_search_authors, bind. fold (feed_author_search_url query page).
  rewrite _opds_request_run.
  destruct (requested env t (feed_author_search_url query page)) as [[x|]|e];
    [| eexists; split; [reflexivity | discriminate]
     | eexists; split; [reflexivity | discriminate]].
  destruct (Py.truthy x); simpl;
    [|eexists; split; [reflexivity | discriminate]].
  unfold try_except, bind, lift, ET_fromstring.
  destruct (fromstring env x) as [root|]; simpl;
    [|eexists; split; [reflexivity | discriminate]].
  destruct (list_sort _ _) as [l|e]; simpl.
  - eexists; split; [reflexivity|]. intros res H; inversion H; reflexivity.
  - destruct (is_ParseError e); eexists; (split; [reflexivity | discriminate]).
Qed.

(** The feed bibliography: the request for the page of the author, the
    alphabetical link, and the request for the listing it leads to. *)
Lemma _opds_get_author_books_run env a t :
  _opds_get_author_books env a t =
    match requested env t (feed_author_url a) with
    | Raise e => (Raise e, t ++ [EvGet (feed_author_url a)])
    | Ok None => (Ok None, t ++ [EvGet (feed_author_url a)])
    | Ok (Some x) =>
        if Py.truthy x then
          match fromstring env x with
          | None => (Ok None, t ++ [EvGet (feed_author_url a)])
          | Some root =>
              if Py.truthy_opt (alphabet_target env root) then
                match resolved env
                        (default EmptyString (alphabet_target env root)) with
                | Raise e =>
                    (parse_guard (Raise e), t ++ [EvGet (feed_author_url a)])
                | Ok listing_url =>
                    (parse_guard
                       (bound
                          (requested env (t ++ [EvGet (feed_author_url a)])
                             listing_url)
                          (feed_result env
                             (fun root' => feed_books env root' false))),
                     (t ++ [EvGet (feed_author_url a)])
                     ++ [EvGet listing_url])
                end
              else (feed_books env root false,
                    t ++ [EvGet (feed_author_url a)])
          end
        else (Ok None, t ++ [EvGet (feed_author_url a)])
    end.
Proof.
  unfold _opds_get_author_books, bind. fold (feed_author_url a).
  rewrite _opds_request_run.
  destruct (requested env t (feed_author_url a)) as [[x|]|e];
    [|reflexivity|reflexivity].
  destruct (Py.truthy x); simpl; [|reflexivity].
  unfold try_except, bind, lift, ET_fromstring.
  destruct (fromstring env x) as [root|]; simpl; [|reflexivity].
  destruct (Py.truthy_opt (alphabet_target env root)).
  - unfold resolved.
    destruct (if negb _ then _ else _) as [listing_url|e]; simpl;
      [|unfold ret; destruct e; reflexivity].
    rewrite _opds_request_run.
    destruct (requested env _ listing_url) as [[y|]|e]; simpl;
      [| reflexivity | unfold ret; destruct e; reflexivity].
    destruct (Py.truthy y); simpl; [|reflexivity].
    destruct (fromstring env y) as [root'|]; simpl; [|reflexivity].
    unfold feed_books, parse_guard, ret. fold (title_key (unicode env)).
    destruct (entry_books env root') as [books|e]; simpl;
      [|destruct e; reflexivity].
    destruct (list_sort (title_key (unicode env)) books) as [l|e]; simpl;
      [reflexivity | destruct e; reflexivity].
  - unfold feed_books, parse_guard, ret. fold (title_key (unicode env)).
    destruct (entry_books env root) as [books|e]; simpl;
      [|destruct e; reflexivity].
    destruct (list_sort (title_key (unicode env)) books) as [l|e]; simpl;
      [reflexivity | destruct e; reflexivity].
Qed.
(** ** The fallback *)

Lemma productive_false {A} (r : option (SearchResult A)) :
  productive r = false <-> no_items r.
Proof.
  unfold productive, no_items. split.
  - destruct r as [res|]; [|now left].
    destruct (items res) eqn:E; [|discriminate]. right. now exists res.
  - intros [->|(res & -> & ->)]; reflexivity.
Qed.

Lemma productive_true {A} (res : SearchResult A) :
  items res <> [] -> productive (Some res) = true.
Proof. unfold productive. destruct (items res); congruence. Qed.

(** The notification never raises, whatever the callback does. *)
Lemma notify_run cb t : notify cb t = (Ok tt, after_notice cb t).
Proof.
  unfold notify, after_notice. destruct cb as [f|]; [|reflexivity].
  unfold try_except, bind, emit.
  destruct (f fallback_notice (t ++ [EvStatus fallback_notice])) as [[[]|e] t'];
    reflexivity.
Qed.

(** The last two branches of an operation return the same value. *)
Lemma return_either {A} (m : M (option (SearchResult A))) t :
  bind m (fun result => if productive result then ret result else ret result) t
  = m t.
Proof.
  unfold bind. destruct (m t) as [[r|e] t']; [|reflexivity].
  destruct (productive r); reflexivity.
Qed.

Section Fallback.

Context {A : Type}.
Variables html feed : M (option (SearchResult A)).

Lemma with_fallback_skipped cb t r t' :
  html t = (Ok r, t') -> productive r = true ->
  with_fallback html feed cb t = (Ok r, t').
Proof.
  intros H Hp. unfold with_fallback, bind at 1. rewrite H, Hp. reflexivity.
Qed.

Lemma with_fallback_taken cb t r t' :
  html t = (Ok r, t') -> productive r = false ->
  with_fallback html feed cb t = feed (after_notice cb t').
Proof.
  intros H Hp. unfold with_fallback, bind at 1. rewrite H, Hp.
  unfold bind at 1. rewrite notify_run. apply return_either.
Qed.

End Fallback.

Lemma search_books_shape env query page cb :
  search_books env query page cb =
  with_fallback (_http_search_books env query page)
    (_opds_search_books env query page) cb.
Proof. reflexivity. Qed.

Lemma search_authors_shape env query page cb :
  search_authors env query page cb =
  with_fallback (_http_search_authors env query)
    (_opds_search_authors env query page) cb.
Proof. reflexivity. Qed.

Lemma get_author_books_shape env author page cb :
  get_author_books env author page cb =
  with_fallback (_http_get_author_books env author)
    (_opds_get_author_books env author) cb.
Proof. reflexivity. Qed.

(** The requests of the HTML adapter do not go to the OPDS endpoint. *)
Lemma book_search_url_html query page :
  feed_request (EvGet (book_search_url query page)) = false.
Proof. reflexivity. Qed.

Lemma author_search_url_html query :
  feed_request (EvGet (author_search_url query)) = false.
Proof. reflexivity. Qed.

Lemma alphabet_url_html a : feed_request (EvGet (alphabet_url a)) = false.
Proof. reflexivity. Qed.

Lemma plain_url_html a : feed_request (EvGet (plain_url a)) = false.
Proof. reflexivity. Qed.

(** Those of the feed adapter do. *)
Lemma feed_search_url_feed query page :
  feed_request (EvGet (feed_search_url query page)) = true.
Proof. reflexivity. Qed.

Lemma feed_author_search_url_feed query page :
  feed_request (EvGet (feed_author_search_url query page)) = true.
Proof. reflexivity. Qed.

Lemma feed_author_url_feed a : feed_request (EvGet (feed_author_url a)) = true.
Proof. reflexivity. Qed.

Lemma html_only_one url :
  feed_request (EvGet url) = false -> html_only [EvGet url].
Proof. intros H. constructor; [now split | constructor]. Qed.

Lemma books_page_source u h p res :
  books_page u h p = Some res -> source res = "http".
Proof.
  unfold books_page. destruct (list_sort _ _); [|discriminate].
  intros H; inversion H; reflexivity.
Qed.

Lemma author_books_page_source u a h res :
  author_books_page u a h = Some res -> source res = "http".
Proof.
  unfold author_books_page. destruct (list_sort _ _); [|discriminate].
  intros H; inversion H; reflexivity.
Qed.

Lemma authors_of_page_source u h res :
  authors_of_page u h = Some res -> source res = "http".
Proof.
  unfold authors_of_page. destruct (list_sort _ _); [|discriminate].
  intros H; inversion H; reflexivity.
Qed.

Lemma page_result_some {A} (parse : string -> option A) o res :
  page_result parse o = Some res ->
  exists h, o = Some h /\ h <> EmptyString /\ parse h = Some res.
Proof.
  unfold page_result. destruct o as [h|]; [|discriminate].
  destruct h; [discriminate|]. intros H. eexists. now split.
Qed.

Lemma _http_search_books_result env query page t res t' :
  _http_search_books env query page t = (Ok (Some res), t') ->
  source res = "http" /\ exists evs, t' = t ++ evs /\ html_only evs.
Proof.
  intros H. apply _http_search_books_ok in H as [Hr ->]. split.
  - symmetry in Hr. apply page_result_some in Hr as (h & _ & _ & Hr).
    now apply books_page_source in Hr.
  - eexists; split; [reflexivity|].
    apply html_only_one, book_search_url_html.
Qed.

Lemma _http_search_authors_result env query t res t' :
  _http_search_authors env query t = (Ok (Some res), t') ->
  source res = "http" /\ exists evs, t' = t ++ evs /\ html_only evs.
Proof.
  intros H. apply _http_search_authors_ok in H as [Hr ->]. split.
  - symmetry in Hr. apply page_result_some in Hr as (h & _ & _ & Hr).
    now apply authors_of_page_source in Hr.
  - eexists; split; [reflexivity|].
    apply html_only_one, author_search_url_html.
Qed.

Lemma _http_get_author_books_result env a t res t' :
  _http_get_author_books env a t = (Ok (Some res), t') ->
  source res = "http" /\ exists evs, t' = t ++ evs /\ html_only evs.
Proof.
  intros H. apply _http_get_author_books_ok in H.
  destruct (blank _); destruct H as [Hr ->]; symmetry in Hr;
    apply page_result_some in Hr as (h & _ & _ & Hr);
    apply author_books_page_source in Hr; (split; [exact Hr|]).
  - rewrite <- app_assoc. eexists; split; [reflexivity|].
    constructor; [split; [apply alphabet_url_html | reflexivity]|].
    apply html_only_one, plain_url_html.
  - eexists; split; [reflexivity|]. apply html_only_one, alphabet_url_html.
Qed.

(** ** C1: an answer of the HTML adapter is final *)

(** C1. For every query and page for which the HTML adapter returns a
    result with at least one item, each public operation ([search_books],
    [search_authors], [get_author_books]) returns that very result, whose
    source is [http], and ends in the state in which the HTML adapter
    ended: the events that the operation adds to the trace are requests of
    the HTML adapter only, none under the OPDS endpoint (the feed adapter
    is not invoked) and no call of the status callback. *)
Theorem C1_html_answer_is_final (env : Env) (cb : option Callback) (t : Trace) :
  (forall query page res t',
      _http_search_books env query page t = (Ok (Some res), t') ->
      items res <> [] ->
      search_books env query page cb t = (Ok (Some res), t') /\
      source res = "http" /\
      exists evs, t' = t ++ evs /\ html_only evs) /\
  (forall query page res t',
      _http_search_authors env query t = (Ok (Some res), t') ->
      items res <> [] ->
      search_authors env query page cb t = (Ok (Some res), t') /\
      source res = "http" /\
      exists evs, t' = t ++ evs /\ html_only evs) /\
  (forall author page res t',
      _http_get_author_books env author t = (Ok (Some res), t') ->
      items res <> [] ->
      get_author_books env author page cb t = (Ok (Some res), t') /\
      source res = "http" /\
      exists evs, t' = t ++ evs /\ html_only evs).
Proof.
  split; [|split].
  - intros query page res t' H Hi.
    split; [|now apply _http_search_books_result in H].
    rewrite search_books_shape.
    now apply with_fallback_skipped, productive_true.
  - intros query page res t' H Hi.
    split; [|now apply _http_search_authors_result in H].
    rewrite search_authors_shape.
    now apply with_fallback_skipped, productive_true.
  - intros author page res t' H Hi.
    split; [|now apply _http_get_author_books_result in H].
    rewrite get_author_books_shape.
    now apply with_fallback_skipped, productive_true.
Qed.

(** The page of writers through [search_authors]: the HTML adapter finds
    the two writers of the section, and the feed adapter is not asked. *)
Lemma search_authors_sample :
  search_authors env_html_authors "x" 0 (Some failing_callback) [] =
    (Ok (Some (new_SearchResult
                 [ new_Author "1" (Some "Ann") (Some "/a/1");
                   new_Author "2" (Some "Bob") (Some "/a/2") ]
                 false "http")),
     [EvGet "http://flibusta.is/booksearch?ask=x"]).
Proof. vm_compute. reflexivity. Qed.

(** The HTML adapter answers with the sample page: the operation returns
    its three books and sends one request. *)
Lemma C1_html_answer_is_final_witness :
  exists res t',
    search_books env_html "x" 0 (Some failing_callback) [] = (Ok (Some res), t')
    /\ source res = "http" /\ List.length (items res) = 3%nat
    /\ t' = [EvGet "http://flibusta.is/booksearch?ask=x&page=0"].
Proof.
  pose proof (proj1 (C1_html_answer_is_final env_html
                       (Some failing_callback) [])) as H.
  edestruct (H "x" 0) as (Hrun & Hsrc & _).
  - vm_compute. reflexivity.
  - vm_compute. discriminate.
  - eexists _, _. split; [exact Hrun|]. split; [exact Hsrc|].
    split; reflexivity.
Defined.

(** ** C2: the fallback returns what the feed adapter produces *)

Lemma feed_result_source {A} env
    (parse : ET.Element -> outcome (option (SearchResult A))) o res :
  (forall root r, parse root = Ok (Some r) -> source r = "opds") ->
  feed_result env parse o = Ok (Some res) -> source res = "opds".
Proof.
  intros Hp. unfold feed_result. destruct o as [x|]; [|discriminate].
  destruct (Py.truthy x); [|discriminate].
  destruct (fromstring env x) as [root|]; [|discriminate]. apply Hp.
Qed.

Lemma _opds_search_books_result env query page t :
  exists o evs,
    _opds_search_books env query page t =
      (o, t ++ EvGet (feed_search_url query page) :: evs) /\
    forall res, o = Ok (Some res) -> source res = "opds".
Proof.
  rewrite _opds_search_books_run. eexists _, []. split; [reflexivity|].
  intros res H.
  destruct (requested _ _ _) as [o|e]; [|discriminate]. simpl in H.
  eapply feed_result_source; [|exact H].
  intros root r. apply feed_books_source.
Qed.

Lemma _opds_get_author_books_result env a t :
  exists o evs,
    _opds_get_author_books env a t =
      (o, t ++ EvGet (feed_author_url a) :: evs) /\
    (List.length evs <= 1)%nat /\
    forall res, o = Ok (Some res) -> source res = "opds".
Proof.
  rewrite _opds_get_author_books_run.
  destruct (requested env t (feed_author_url a)) as [[x|]|e];
    [| exists (Ok None), []; split; [reflexivity|];
       split; [simpl; lia | discriminate]
     | exists (Raise e), []; split; [reflexivity|];
       split; [simpl; lia | discriminate] ].
  destruct (Py.truthy x);
    [|exists (Ok None), []; split; [reflexivity|];
      split; [simpl; lia | discriminate]].
  destruct (fromstring env x) as [root|];
    [|exists (Ok None), []; split; [reflexivity|];
      split; [simpl; lia | discriminate]].
  destruct (Py.truthy_opt (alphabet_target env root)).
  - destruct (resolved env _) as [listing_url|e].
    + eexists _, [_]. rewrite <- app_assoc. split; [reflexivity|].
      split; [simpl; lia|]. intros res H.
      destruct (requested _ _ listing_url) as [o|e]; simpl in H;
        [|destruct e; discriminate].
      unfold parse_guard in H.
      destruct (feed_result _ _ _) as [r|e] eqn:E;
        [|destruct (is_ParseError e); discriminate].
      inversion H; subst. eapply feed_result_source; [|exact E].
      intros root' r. apply feed_books_source.
    + eexists _, []. split; [reflexivity|]. split; [simpl; lia|].
      simpl. destruct (is_ParseError e); discriminate.
  - eexists _, []. split; [reflexivity|]. split; [simpl; lia|].
    intros res. apply feed_books_source.
Qed.

Lemma _opds_search_authors_result env query page t :
  exists o evs,
    _opds_search_authors env query page t =
      (o, t ++ EvGet (feed_author_search_url query page) :: evs) /\
    forall res, o = Ok (Some res) -> source res = "opds".
Proof.
  destruct (_opds_search_authors_run env query page t) as (o & -> & Hs).
  now exists o, [].
Qed.

(** C2. For every query and page for which the HTML adapter returns no
    result or a result without items, the public operation notifies the
    caller and then runs the feed adapter, and its outcome and final trace
    are exactly those of the feed adapter: the trace gains a request under
    the OPDS endpoint, and a result that the operation returns, with or
    without items, has the source [opds]. *)
Theorem C2_fallback_returns_feed_outcome (env : Env) (cb : option Callback)
    (t : Trace) :
  (forall query page r t1,
      _http_search_books env query page t = (Ok r, t1) -> no_items r ->
      search_books env query page cb t =
        _opds_search_books env query page (after_notice cb t1) /\
      exists o evs,
        search_books env query page cb t =
          (o, after_notice cb t1 ++ EvGet (feed_search_url query page) :: evs)
        /\ feed_request (EvGet (feed_search_url query page)) = true
        /\ forall res, o = Ok (Some res) -> source res = "opds") /\
  (forall query page r t1,
      _http_search_authors env query t = (Ok r, t1) -> no_items r ->
      search_authors env query page cb t =
        _opds_search_authors env query page (after_notice cb t1) /\
      exists o evs,
        search_authors env query page cb t =
          (o, after_notice cb t1
              ++ EvGet (feed_author_search_url query page) :: evs)
        /\ feed_request (EvGet (feed_author_search_url query page)) = true
        /\ forall res, o = Ok (Some res) -> source res = "opds") /\
  (forall author page r t1,
      _http_get_author_books env author t = (Ok r, t1) -> no_items r ->
      get_author_books env author page cb t =
        _opds_get_author_books env author (after_notice cb t1) /\
      exists o evs,
        get_author_books env author page cb t =
          (o, after_notice cb t1 ++ EvGet (feed_author_url author) :: evs)
        /\ feed_request (EvGet (feed_author_url author)) = true
        /\ forall res, o = Ok (Some res) -> source res = "opds").
Proof.
  split; [|split].
  - intros query page r t1 H Hr. apply productive_false in Hr.
    assert (E : search_books env query page cb t =
                _opds_search_books env query page (after_notice cb t1)).
    { rewrite search_books_shape. now apply with_fallback_taken with r. }
    split; [exact E|]. rewrite E.
    destruct (_opds_search_books_result env query page (after_notice cb t1))
      as (o & evs & -> & Hs).
    exists o, evs. split; [reflexivity|]. split; [reflexivity | exact Hs].
  - intros query page r t1 H Hr. apply productive_false in Hr.
    assert (E : search_authors env query page cb t =
                _opds_search_authors env query page (after_notice cb t1)).
    { rewrite search_authors_shape. now apply with_fallback_taken with r. }
    split; [exact E|]. rewrite E.
    destruct (_opds_search_authors_result env query page (after_notice cb t1))
      as (o & evs & -> & Hs).
    exists o, evs. split; [reflexivity|]. split; [reflexivity | exact Hs].
  - intros author page r t1 H Hr. apply productive_false in Hr.
    assert (E : get_author_books env author page cb t =
                _opds_get_author_books env author (after_notice cb t1)).
    { rewrite get_author_books_shape. now apply with_fallback_taken with r. }
    split; [exact E|]. rewrite E.
    destruct (_opds_get_author_books_result env author (after_notice cb t1))
      as (o & evs & -> & _ & Hs).
    exists o, evs. split; [reflexivity|]. split; [reflexivity | exact Hs].
Qed.

(** The HTML source is down and the feed has no entry: the operation
    returns the empty result of the feed adapter. *)
Lemma C2_fallback_returns_feed_outcome_witness :
  search_books (env_feed empty_feed) "x" 0 None [] =
    (Ok (Some (new_SearchResult [] false "opds")),
     [ EvGet "http://flibusta.is/booksearch?ask=x&page=0";
       EvGet ("http://flibusta.is/opds/opensearch?searchTerm=x"
              +:+ "&searchType=books&pageNumber=0") ]).
Proof.
  pose proof (proj1 (C2_fallback_returns_feed_outcome (env_feed empty_feed)
                       None [])) as H.
  edestruct (H "x" 0) as (Hrun & _).
  - vm_compute. reflexivity.
  - left. reflexivity.
  - rewrite Hrun. vm_compute. reflexivity.
Defined.

(** ** C10: a callback that raises does not stop the fallback *)

(** C10. If the status callback raises an exception when it is notified of
    the fallback, each public operation catches it and goes on: its
    outcome and final trace are those of the feed adapter, run in the
    state in which the callback stopped. *)
Theorem C10_callback_exception_is_caught (env : Env) (callback : Callback)
    (e : exn) (t : Trace) :
  (forall query page r t1 t2,
      _http_search_books env query page t = (Ok r, t1) -> no_items r ->
      callback fallback_notice (t1 ++ [EvStatus fallback_notice])
        = (Raise e, t2) ->
      search_books env query page (Some callback) t =
        _opds_search_books env query page t2) /\
  (forall query page r t1 t2,
      _http_search_authors env query t = (Ok r, t1) -> no_items r ->
      callback fallback_notice (t1 ++ [EvStatus fallback_notice])
        = (Raise e, t2) ->
      search_authors env query page (Some callback) t =
        _opds_search_authors env query page t2) /\
  (forall author page r t1 t2,
      _http_get_author_books env author t = (Ok r, t1) -> no_items r ->
      callback fallback_notice (t1 ++ [EvStatus fallback_notice])
        = (Raise e, t2) ->
      get_author_books env author page (Some callback) t =
        _opds_get_author_books env author t2).
Proof.
  split; [|split]; intros ? page r t1 t2 H Hr Hcb;
    apply productive_false in Hr;
    assert (Ht : after_notice (Some callback) t1 = t2)
      by (unfold after_notice; now rewrite Hcb);
    rewrite <- Ht.
  - rewrite search_books_shape. now apply with_fallback_taken with r.
  - rewrite search_authors_shape. now apply with_fallback_taken with r.
  - rewrite get_author_books_shape. now apply with_fallback_taken with r.
Qed.

(** The HTML source is down, the callback raises, and the operation still
    returns the three books of the feed. *)
Lemma C10_callback_exception_is_caught_witness :
  exists res t',
    search_books (env_feed sample_feed) "x" 0 (Some failing_callback) []
      = (Ok (Some res), t')
    /\ source res = "opds" /\ List.length (items res) = 3%nat.
Proof.
  pose proof (proj1 (C10_callback_exception_is_caught (env_feed sample_feed)
                       failing_callback (OtherError "RuntimeError") []))
    as H.
  erewrite (H "x" 0).
  - eexists _, _. split; [vm_compute; reflexivity|]. split; reflexivity.
  - vm_compute. reflexivity.
  - left. reflexivity.
  - reflexivity.
Defined.

(** ** Substrings *)

Lemma prefix_app (n s : string) :
  String.prefix n s = true <-> exists after, s = n +:+ after.
Proof.
  revert s. induction n as [|a n IH]; intros s.
  - destruct s; simpl; (split; [intros _; now eexists | reflexivity]).
  - destruct s as [|b s]; simpl;
      [split; [discriminate | intros [x Hx]; discriminate]|].
    destruct (ascii_dec a b) as [->|Hne].
    + rewrite IH. split; intros [x Hx]; exists x.
      * now rewrite Hx.
      * now inversion Hx.
    + split; [discriminate|]. intros [x Hx]. inversion Hx. congruence.
Qed.

(** [Py.contains] is the substring test. *)
Lemma contains_app (n s : string) :
  Py.contains n s = true <-> exists before after, s = before +:+ n +:+ after.
Proof.
  induction s as [|b s IH]; cbn [Py.contains].
  - rewrite orb_false_r, prefix_app. split.
    + intros [x Hx]. now exists EmptyString, x.
    + intros (x & y & H). destruct x as [|c x]; [|discriminate].
      now exists y.
  - rewrite orb_true_iff, prefix_app, IH. split.
    + intros [[x Hx]|(x & y & Hxy)].
      * now exists EmptyString, x.
      * exists (String b x), y. simpl. now rewrite Hxy.
    + intros (x & y & H). destruct x as [|c x].
      * left. now exists y.
      * right. inversion H. now exists x, y.
Qed.

(** ** C9: [has_more] of the HTML book search *)

(** C9. For the HTML book search on page [page] whose request fetched the
    text [body]: a result is returned when [body] is not empty, and the
    [has_more] flag of the returned result is true exactly when [body]
    contains the text [page=] followed by the decimal numeral of
    [page + 1]. *)
Theorem C9_has_more_is_substring_test (env : Env) (query : string) (page : Z)
    (t : Trace) (body : string) :
  fetched env t (book_search_url query page) = Some body ->
  (body <> EmptyString ->
   exists res,
     _http_search_books env query page t =
       (Ok (Some res), t ++ [EvGet (book_search_url query page)])) /\
  (forall res t',
      _http_search_books env query page t = (Ok (Some res), t') ->
      has_more res = true <->
      exists before after,
        body = before +:+ ("page=" +:+ pretty (page + 1)) +:+ after).
Proof.
  intros Hf.
  destruct (books_page_some (unicode env) body page) as (sorted & _ & Hp).
  split.
  - intros Hb. rewrite _http_search_books_run.
    unfold fetched in Hf. unfold requested.
    destruct (network env t _) as [r|e]; [|discriminate].
    destruct (success r); [|discriminate]. inversion Hf; subst. simpl.
    rewrite Hp. destruct (text r); [congruence|]. simpl. now eexists.
  - intros res t' H. rewrite <- contains_app.
    apply _http_search_books_ok in H as [Hr _]. rewrite Hf in Hr.
    unfold page_result in Hr. rewrite Hp in Hr.
    destruct (Py.truthy body); inversion Hr; subst. reflexivity.
Qed.

(** The sample page, fetched as page 0, links to [page=1]. *)
Lemma C9_has_more_is_substring_test_witness :
  exists res,
    _http_search_books env_html "x" 0 [] =
      (Ok (Some res), [EvGet "http://flibusta.is/booksearch?ask=x&page=0"])
    /\ has_more res = true.
Proof.
  destruct (C9_has_more_is_substring_test env_html "x" 0 [] sample_page)
    as [Hres Hmore]; [vm_compute; reflexivity|].
  destruct Hres as [res Hres]; [discriminate|].
  exists res. split; [exact Hres|].
  apply (Hmore res _ Hres).
  exists ("<h3>Найденные книги:</h3>
<li><a href=/b/7>Zebra</a> - <a href=/a/1>Ann</a>
<li><a href=/b/3>apple</a>
<li><a href=/b/5>Mango</a>
<li><a href=/b/7>Zebra, second edition</a>
<a href='/booksearch?ask=x&"), "'>next</a>".
  vm_compute. reflexivity.
Defined.

(** ** C8: book results are sorted by lower-cased title *)

Lemma key_le_title u (a b : Book) :
  key_le (title_key u) a b <-> title_le u a b.
Proof.
  unfold key_le, title_le, title_key, lower_of. split.
  - intros (ka & kb & Ha & Hb & Hle).
    destruct (book_title a), (book_title b); try discriminate.
    inversion Ha; inversion Hb; subst. exact Hle.
  - destruct (book_title a) as [x|], (book_title b) as [y|]; try tauto.
    intros H. now exists (lower u x), (lower u y).
Qed.

Lemma list_sort_title_sorted u (l l' : list Book) :
  list_sort (title_key u) l = Ok l' ->
  Permutation l l' /\ StronglySorted (title_le u) l'.
Proof.
  intros H. apply list_sort_ok in H as [Hp Hs]. split; [exact Hp|].
  clear Hp. induction Hs as [|a l'' Hs IH Ha]; [constructor|].
  constructor; [exact IH|].
  eapply Forall_impl; [exact Ha|]. intros b. apply key_le_title.
Qed.

Lemma books_page_items u h p res :
  books_page u h p = Some res ->
  Permutation (unique_books (extracted_books u h)) (items res) /\
  StronglySorted (title_le u) (items res).
Proof.
  unfold books_page.
  destruct (list_sort (title_key u) _) as [sorted|] eqn:E; [|discriminate].
  intros H; inversion H; subst; simpl. now apply list_sort_title_sorted.
Qed.

Lemma feed_books_items env root more res :
  feed_books env root more = Ok (Some res) ->
  exists books,
    entry_books env root = Ok books /\
    Permutation books (items res) /\
    StronglySorted (title_le (unicode env)) (items res) /\
    has_more res = more /\ source res = "opds".
Proof.
  unfold feed_books, parse_guard.
  destruct (entry_books env root) as [books|e];
    [|destruct (is_ParseError e); discriminate].
  destruct (list_sort (title_key (unicode env)) _) as [sorted|e] eqn:E.
  - intros H; inversion H; subst; simpl. exists books.
    apply list_sort_title_sorted in E as [Hp Hs]. now repeat split.
  - destruct (is_ParseError e); discriminate.
Qed.

(** What a returned result of the HTML book search comes from. *)
Lemma _http_search_books_inv env query page t res t' :
  _http_search_books env query page t = (Ok (Some res), t') ->
  exists body,
    fetched env t (book_search_url query page) = Some body /\
    books_page (unicode env) body page = Some res.
Proof.
  intros H. apply _http_search_books_ok in H as [H _]. symmetry in H.
  destruct (fetched _ _ _) as [h|]; [|discriminate].
  simpl in H. destruct (Py.truthy h); [|discriminate]. now exists h.
Qed.

(** What a returned result of the HTML bibliography comes from. *)
Lemma _http_get_author_books_inv env a t res t' :
  _http_get_author_books env a t = (Ok (Some res), t') ->
  exists body, author_books_page (unicode env) a body = Some res.
Proof.
  intros H. apply _http_get_author_books_ok in H.
  destruct (blank _); destruct H as [H _]; symmetry in H;
    destruct (fetched _ _ _) as [h|]; try discriminate;
    simpl in H; (destruct (Py.truthy h); [|discriminate]); now exists h.
Qed.

(** What a returned result of the feed book search comes from. *)
Lemma _opds_search_books_inv env query page t res t' :
  _opds_search_books env query page t = (Ok (Some res), t') ->
  exists body root,
    fetched env t (feed_search_url query page) = Some body /\
    fromstring env body = Some root /\
    feed_books env root (next_link root) = Ok (Some res).
Proof.
  rewrite _opds_search_books_run. intros H. injection H as Hr _.
  destruct (requested env t _) as [o|e] eqn:Eq; [|discriminate].
  apply requested_ok in Eq. rewrite Eq. simpl in Hr.
  destruct o as [x|]; [|discriminate]. simpl in Hr.
  destruct (Py.truthy x); [|discriminate].
  destruct (fromstring env x) as [root|] eqn:E; [|discriminate].
  now exists x, root.
Qed.

(** C8. Every result of a book search, from the HTML adapter or from the
    feed adapter, has its items in the order of their lower-cased titles
    (every item precedes only items whose lower-cased title is not smaller
    than its own). For the titles Zebra, apple, Mango, in this order in
    the page or in the feed, the items come out as apple, Mango, Zebra. *)
Theorem C8_book_results_sorted_by_title (env : Env) (query : string)
    (page : Z) (t : Trace) :
  (forall res t',
      _http_search_books env query page t = (Ok (Some res), t') ->
      StronglySorted (title_le (unicode env)) (items res)) /\
  (forall res t',
      _opds_search_books env query page t = (Ok (Some res), t') ->
      StronglySorted (title_le (unicode env)) (items res)) /\
  titles (extracted_books Basic.unicode titles_page)
    = [Some "Zebra"; Some "apple"; Some "Mango"] /\
  (exists res t',
      _http_search_books env_titles query page [] = (Ok (Some res), t') /\
      titles (items res) = [Some "apple"; Some "Mango"; Some "Zebra"]) /\
  mapped titles (entry_books (env_feed sample_feed) (feed_doc sample_feed))
    = Ok [Some "Zebra"; Some "apple"; Some "Mango"] /\
  (exists res t',
      _opds_search_books (env_feed sample_feed) query page []
        = (Ok (Some res), t') /\
      titles (items res) = [Some "apple"; Some "Mango"; Some "Zebra"]).
Proof.
  split; [|split; [|split; [|split; [|split]]]].
  - intros res t' H. apply _http_search_books_inv in H as (body & _ & H).
    now apply books_page_items in H.
  - intros res t' H.
    apply _opds_search_books_inv in H as (body & root & _ & _ & H).
    apply feed_books_items in H as (books & _ & _ & H & _). exact H.
  - vm_compute. reflexivity.
  - rewrite _http_search_books_run.
    change (requested env_titles [] (book_search_url query page))
      with (Ok (A:=option string) (Some titles_page)).
    destruct (books_page_some Basic.unicode titles_page page)
      as (sorted & Hs & Hp).
    simpl. change (unicode env_titles) with Basic.unicode. rewrite Hp.
    eexists _, _. split; [reflexivity|].
    vm_compute in Hs. inversion Hs. reflexivity.
  - vm_compute. reflexivity.
  - rewrite _opds_search_books_run.
    change (requested (env_feed sample_feed) [] (feed_search_url query page))
      with (Ok (A:=option string) (Some (feed_text sample_feed))).
    eexists _, _. split; [vm_compute; reflexivity|].
    vm_compute. reflexivity.
Qed.

(** The sample page through the HTML book search: the three books come out
    in the order apple, Mango, Zebra. A page with the Cyrillic titles Яма,
    азбука, Буря: they come out as азбука, Буря, Яма. *)
Lemma C8_book_results_sorted_by_title_witness :
  (exists res t',
      _http_search_books env_html "x" 0 [] = (Ok (Some res), t') /\
      titles (items res) = [Some "apple"; Some "Mango"; Some "Zebra"] /\
      StronglySorted (title_le Basic.unicode) (items res)) /\
  (exists res t',
      _http_search_books (env_page cyrillic_page) "x" 0 []
        = (Ok (Some res), t') /\
      titles (items res) = [Some "азбука"; Some "Буря"; Some "Яма"] /\
      StronglySorted (title_le Basic.unicode) (items res)).
Proof.
  split.
  - eexists _, _. split; [vm_compute; reflexivity|].
    split; [reflexivity|].
    apply (proj1 (C8_book_results_sorted_by_title env_html "x" 0 [])
             _ ([] ++ [EvGet (book_search_url "x" 0)])).
    vm_compute. reflexivity.
  - eexists _, _. split; [vm_compute; reflexivity|].
    split; [reflexivity|].
    apply (proj1 (C8_book_results_sorted_by_title (env_page cyrillic_page)
                    "x" 0 [])
             _ ([] ++ [EvGet (book_search_url "x" 0)])).
    vm_compute. reflexivity.
Defined.

(** ** C6 and C7: removal of repeated ids *)

Lemma Permutation_with_id i (l l' : list Book) :
  Permutation l l' -> Permutation (with_id i l) (with_id i l').
Proof.
  unfold with_id. induction 1 as [|x l l' _ IH|x y l|l l' l'' _ IH1 _ IH2]; simpl.
  - constructor.
  - destruct (String.eqb (book_id x) i); [now constructor | exact IH].
  - destruct (String.eqb (book_id y) i), (String.eqb (book_id x) i);
      try reflexivity. apply perm_swap.
  - now transitivity (List.filter (fun b => String.eqb (book_id b) i) l').
Qed.

Lemma Permutation_book_ids (l l' : list Book) :
  Permutation l l' -> Permutation (book_ids l) (book_ids l').
Proof. apply Permutation_map. Qed.

(** The loop of [unique_books] gives distinct ids, none of them seen
    before. *)
Lemma unique_from_NoDup seen l :
  NoDup (book_ids (unique_from seen l)) /\
  forall i, i ∈ book_ids (unique_from seen l) -> i ∉ seen.
Proof.
  revert seen. induction l as [|b l IH]; intros seen; simpl.
  - split; [constructor | intros i Hi; now apply elem_of_nil in Hi].
  - destruct (decide (book_id b ∈ seen)) as [Hin|Hout]; [apply IH|].
    destruct (IH ({[book_id b]} ∪ seen)) as [Hnd Hfresh]. simpl. split.
    + constructor; [|exact Hnd]. intros Hb. apply Hfresh in Hb.
      apply Hb, elem_of_union_l, elem_of_singleton. reflexivity.
    + intros i Hi. apply elem_of_cons in Hi as [->|Hi]; [exact Hout|].
      apply Hfresh in Hi. intros Hs. now apply Hi, elem_of_union_r.
Qed.

Lemma author_books_from_NoDup u a seen ms :
  NoDup (book_ids (author_books_from u a seen ms)) /\
  forall i, i ∈ book_ids (author_books_from u a seen ms) -> i ∉ seen.
Proof.
  revert seen. induction ms as [|m ms IH]; intros seen; simpl.
  - split; [constructor | intros i Hi; now apply elem_of_nil in Hi].
  - destruct (bool_decide (Re.group 1 m ∈ seen)) eqn:E; simpl; [apply IH|].
    apply bool_decide_eq_false in E.
    destruct (negb _); [apply IH|].
    destruct (bool_decide (_ ∈ action_labels)); [apply IH|].
    destruct (IH ({[Re.group 1 m]} ∪ seen)) as [Hnd Hfresh]. simpl. split.
    + constructor; [|exact Hnd]. intros Hb. apply Hfresh in Hb.
      apply Hb, elem_of_union_l, elem_of_singleton. reflexivity.
    + intros i Hi. apply elem_of_cons in Hi as [->|Hi]; [exact E|].
      apply Hfresh in Hi. intros Hs. now apply Hi, elem_of_union_r.
Qed.

(** An id that was seen does not come back. *)
Lemma with_id_seen i seen l :
  i ∈ seen -> with_id i (unique_from seen l) = [].
Proof.
  intros Hi. destruct (unique_from_NoDup seen l) as [_ Hfresh].
  unfold with_id. induction (unique_from seen l) as [|b l' IH]; simpl;
    [reflexivity|].
  destruct (String.eqb_spec (book_id b) i) as [<-|Hne].
  - exfalso. apply (Hfresh (book_id b)); [left | exact Hi].
  - apply IH. intros j Hj. apply Hfresh. now right.
Qed.

(** The first entry with an id is the one that stays. *)
Lemma with_id_first seen before first rest :
  book_id first ∉ seen ->
  book_id first ∉ book_ids before ->
  with_id (book_id first) (unique_from seen (before ++ first :: rest))
    = [first].
Proof.
  revert seen. induction before as [|b before IH]; intros seen Hs Hb; simpl.
  - destruct (decide (book_id first ∈ seen)); [contradiction|].
    unfold with_id. simpl. rewrite String.eqb_refl. f_equal.
    apply with_id_seen, elem_of_union_l, elem_of_singleton. reflexivity.
  - assert (Hne : book_id b <> book_id first).
    { intros E. apply Hb. simpl. rewrite E. left. }
    assert (Hb' : book_id first ∉ book_ids before).
    { intros E. apply Hb. simpl. now right. }
    destruct (decide (book_id b ∈ seen)); [now apply IH|].
    unfold with_id. simpl.
    destruct (String.eqb_spec (book_id b) (book_id first)); [contradiction|].
    apply IH; [|exact Hb']. intros Hu.
    apply elem_of_union in Hu as [Hu|Hu]; [|contradiction].
    apply elem_of_singleton in Hu. congruence.
Qed.

(** C7. In the HTML book search the first occurrence of an id wins: if the
    raw extraction from the fetched text holds an entry [first] and, later
    in the list, an entry [later] with the same id and another title, no
    entry before [first] having that id, then the returned result has
    exactly one item with that id, and it is [first], so it carries the
    title of the first occurrence. *)
Theorem C7_first_occurrence_wins (env : Env) (query : string) (page : Z)
    (t : Trace) (body : string) (before between after : list Book)
    (first later : Book) (res : SearchResult Book) (t' : Trace) :
  fetched env t (book_search_url query page) = Some body ->
  extracted_books (unicode env) body
    = before ++ first :: between ++ later :: after ->
  book_id first ∉ book_ids before ->
  book_id later = book_id first ->
  book_title later <> book_title first ->
  _http_search_books env query page t = (Ok (Some res), t') ->
  with_id (book_id first) (items res) = [first] /\
  List.map book_title (with_id (book_id first) (items res))
    = [book_title first].
Proof.
  intros Hf Hraw Hfresh _ _ Hrun.
  apply _http_search_books_inv in Hrun as (body' & Hf' & Hp).
  rewrite Hf in Hf'. inversion Hf'; subst body'.
  apply books_page_items in Hp as [Hperm _].
  assert (E : with_id (book_id first) (items res) = [first]).
  { apply Permutation_length_1_inv.
    rewrite <- (with_id_first ∅ before first (between ++ later :: after));
      [|apply not_elem_of_empty | exact Hfresh].
    apply Permutation_with_id. rewrite <- Hraw. exact Hperm. }
  split; [exact E | now rewrite E].
Qed.

(** The sample page lists book 7 twice, as Zebra and as its second
    edition: the result has it once, as Zebra. *)
Lemma C7_first_occurrence_wins_witness :
  exists res t',
    _http_search_books env_html "x" 0 [] = (Ok (Some res), t') /\
    List.map book_title
      (with_id "7" (extracted_books Basic.unicode sample_page))
      = [Some "Zebra"; Some "Zebra, second edition"] /\
    List.map book_title (with_id "7" (items res)) = [Some "Zebra"].
Proof.
  set (raw := extracted_books Basic.unicode sample_page).
  set (d := new_Book EmptyString None [] None None []).
  set (run := _http_search_books env_html "x" 0 []).
  set (res := match fst run with
              | Ok (Some r) => r
              | _ => new_SearchResult [] false EmptyString
              end).
  destruct (C7_first_occurrence_wins env_html "x" 0 [] sample_page
              [] [nth 1 raw d; nth 2 raw d] [] (nth 0 raw d) (nth 3 raw d)
              res (snd run)) as [_ H].
  - vm_compute. reflexivity.
  - vm_compute. reflexivity.
  - apply not_elem_of_nil.
  - vm_compute. reflexivity.
  - vm_compute. discriminate.
  - vm_compute. reflexivity.
  - exists res, (snd run). split; [vm_compute; reflexivity|].
    split; [vm_compute; reflexivity|].
    vm_compute in H. vm_compute. exact H.
Defined.

(** C6, as it is stated, fails for the feed adapter: a feed that lists
    book 7 twice gives a result with two items of id 7. *)
Lemma C6_counterexample :
  exists res t',
    _opds_search_books (env_feed repeating_feed) "x" 0 [] = (Ok (Some res), t')
    /\ book_ids (items res) = ["7"; "7"]
    /\ ~ NoDup (book_ids (items res)).
Proof.
  eexists _, _. split; [vm_compute; reflexivity|].
  split; [reflexivity|].
  simpl. intros H. apply NoDup_cons in H as [H _].
  apply H. left.
Qed.

(** C6, amended. In every result of books that an operation of the HTML
    adapter returns (book search, books of an author) the ids of the items
    are pairwise distinct. The feed adapter removes nothing: the items of
    its book search are, in another order, the books of all the entries of
    the parsed document that have a download link. *)
Theorem C6_html_book_ids_distinct (env : Env) (t : Trace) :
  (forall query page res t',
      _http_search_books env query page t = (Ok (Some res), t') ->
      NoDup (book_ids (items res))) /\
  (forall author res t',
      _http_get_author_books env author t = (Ok (Some res), t') ->
      NoDup (book_ids (items res))) /\
  (forall query page res t',
      _opds_search_books env query page t = (Ok (Some res), t') ->
      exists body root books,
        fetched env t (feed_search_url query page) = Some body /\
        fromstring env body = Some root /\
        entry_books env root = Ok books /\
        Permutation books (items res)).
Proof.
  split; [|split].
  - intros query page res t' H.
    apply _http_search_books_inv in H as (body & _ & H).
    apply books_page_items in H as [Hperm _].
    rewrite <- (Permutation_book_ids _ _ Hperm).
    apply unique_from_NoDup.
  - intros author res t' H.
    apply _http_get_author_books_inv in H as [h Hp].
    unfold author_books_page in Hp.
    destruct (list_sort (title_key _) _) as [sorted|] eqn:E; [|discriminate].
    inversion Hp; subst; simpl.
    apply list_sort_ok in E as [Hperm _].
    rewrite <- (Permutation_book_ids _ _ Hperm).
    apply author_books_from_NoDup.
  - intros query page res t' H.
    apply _opds_search_books_inv in H as (body & root & Hf & Hr & H).
    apply feed_books_items in H as (books & Hb & Hp & _).
    now exists body, root, books.
Qed.

(** The sample page lists book 7 twice; the ids of the result are 3, 5
    and 7, each once. *)
Lemma C6_html_book_ids_distinct_witness :
  exists res t',
    _http_search_books env_html "x" 0 [] = (Ok (Some res), t') /\
    book_ids (items res) = ["3"; "5"; "7"] /\
    NoDup (book_ids (items res)).
Proof.
  eexists _, _. split; [vm_compute; reflexivity|].
  split; [reflexivity|].
  eapply (proj1 (C6_html_book_ids_distinct env_html []) "x" 0).
  vm_compute. reflexivity.
Defined.

(** ** The last piece of a split *)

Lemma split_go_nonempty sep cur s : Py.split_go sep cur s <> [].
Proof.
  revert cur. induction s as [|a s IH]; intros cur; simpl; [discriminate|].
  destruct (Ascii.eqb a sep); [discriminate | apply IH].
Qed.

Lemma contains_char_cons (c a : ascii) (s : string) :
  Py.contains (String c EmptyString) (String a s) =
  Ascii.eqb a c || Py.contains (String c EmptyString) s.
Proof.
  cbn [Py.contains]. f_equal. simpl.
  destruct (ascii_dec c a) as [->|Hne].
  - rewrite Ascii.eqb_refl. now destruct s.
  - destruct (Ascii.eqb_spec a c); [congruence | reflexivity].
Qed.

Lemma app_empty_r (s : string) : s +:+ EmptyString = s.
Proof.
  induction s as [|c s IH]; [reflexivity|].
  change (String c (s +:+ EmptyString) = String c s). now rewrite IH.
Qed.

Lemma app_snoc (cur : string) (a : ascii) (s : string) :
  (cur +:+ String a EmptyString) +:+ s = cur +:+ String a s.
Proof.
  induction cur as [|c cur IH]; [reflexivity|].
  change (String c ((cur +:+ String a EmptyString) +:+ s)
          = String c (cur +:+ String a s)).
  now rewrite IH.
Qed.

Lemma split_go_no_sep sep cur s :
  Py.contains (String sep EmptyString) s = false ->
  Py.split_go sep cur s = [cur +:+ s].
Proof.
  revert cur. induction s as [|a s IH]; intros cur H; simpl.
  - now rewrite app_empty_r.
  - rewrite contains_char_cons in H. apply orb_false_iff in H as [Ha Hs].
    rewrite Ha, (IH _ Hs). now rewrite app_snoc.
Qed.

Lemma last_cons_nonempty {A} (x : A) l d :
  l <> [] -> List.last (x :: l) d = List.last l d.
Proof. destruct l; [congruence | reflexivity]. Qed.

Lemma split_go_last sep cur before rest :
  Py.last_piece (Py.split_go sep cur (before +:+ String sep rest)) =
  Py.last_piece (Py.split_go sep EmptyString rest).
Proof.
  unfold Py.last_piece. revert cur.
  induction before as [|a before IH]; intros cur; simpl.
  - rewrite Ascii.eqb_refl. apply last_cons_nonempty, split_go_nonempty.
  - destruct (Ascii.eqb a sep).
    + rewrite last_cons_nonempty by apply split_go_nonempty. apply IH.
    + apply IH.
Qed.

(** The last piece of [s.split(sep)] is what follows the last [sep], and
    the whole of [s] when there is none. *)
Lemma last_piece_after sep before rest :
  Py.contains (String sep EmptyString) rest = false ->
  Py.last_piece (Py.split sep (before +:+ String sep rest)) = rest.
Proof.
  intros H. unfold Py.split. rewrite split_go_last, (split_go_no_sep _ _ _ H).
  reflexivity.
Qed.

Lemma last_piece_whole sep s :
  Py.contains (String sep EmptyString) s = false ->
  Py.last_piece (Py.split sep s) = s.
Proof.
  intros H. unfold Py.split. rewrite (split_go_no_sep _ _ _ H). reflexivity.
Qed.

(** ** C5: the format of an acquisition link *)

Lemma file_format_mapped mime token :
  format_map !! mime = Some token -> file_format mime = token.
Proof. unfold file_format. now intros ->. Qed.

Lemma file_format_unmapped mime :
  format_map !! mime = None ->
  file_format mime = Py.last_piece (Py.split "/" mime).
Proof. unfold file_format. now intros ->. Qed.

(** A text made of characters of a class has none of another one. *)
Lemma all_chars_without (c : ascii -> bool) (x : ascii) (s : string) :
  c x = false -> all_chars c s = true ->
  Py.contains (String x EmptyString) s = false.
Proof.
  intros Hx. induction s as [|a s IH]; [reflexivity|].
  cbn [all_chars]. intros H. apply andb_true_iff in H as [Ha Hs].
  rewrite contains_char_cons, (IH Hs), orb_false_r.
  destruct (Ascii.eqb_spec a x); [congruence | reflexivity].
Qed.

(** The link that the loop adds for an acquisition link whose address
    is [url]. *)
Lemma download_link_of_normalized env link url :
  Py.contains "acquisition" (ET.get_or_empty link "rel") = true ->
  Py.contains "text/html" (ET.get_or_empty link "type") = false ->
  (if Py.startswith (ET.get_or_empty link "href") "/"
   then urljoin env FLIBUSTA_BASE_URL (ET.get_or_empty link "href")
   else Ok (ET.get_or_empty link "href")) = Ok url ->
  exists d, download_link_of env link = Ok (Some d) /\ normalized link url d.
Proof.
  intros Hrel Hmime Hurl. unfold download_link_of.
  rewrite Hrel, Hmime, Hurl. eexists. split; [reflexivity|].
  split; [reflexivity|]. split; [reflexivity|]. simpl. split.
  - intros token. apply file_format_mapped.
  - intros type subtype -> _ Hsub Hmap.
    rewrite (file_format_unmapped _ Hmap). apply last_piece_after.
    now apply (all_chars_without subtype_char).
Qed.

(** C5, as it is stated, fails on its own example: the MIME type
    [application/x-custom] normalizes to [x-custom]. *)
Lemma C5_counterexample :
  mapped (List.map link_format)
    (_opds_parse_download_links (env_feed empty_feed)
       (entry_of_type "application/x-custom"))
  = Ok ["x-custom"]
  /\ file_format "application/x-custom" <> "custom".
Proof. split; [vm_compute; reflexivity | vm_compute; discriminate]. Qed.

(** C5, amended. A feed link whose relation contains [acquisition] and
    whose MIME type does not contain [text/html] is normalized to a
    download link, whenever [urljoin] gives its address (an address that
    starts with a slash is joined to the base URL, and [urljoin] raises on
    some): the link keeps the MIME type, and its format is the token of
    the fixed table for that type and, for a type that the table does not
    have, the MIME subtype. When [urljoin] raises, so does the
    normalization. So [application/fb2+zip] gives [fb2], and the unmapped
    [application/x-custom] gives [x-custom]. *)
Theorem C5_format_of_acquisition_link (env : Env) (link : ET.Element) :
  (Py.contains "acquisition" (ET.get_or_empty link "rel") = true ->
   Py.contains "text/html" (ET.get_or_empty link "type") = false ->
   (Py.startswith (ET.get_or_empty link "href") "/" = false ->
    exists d,
      download_link_of env link = Ok (Some d) /\
      normalized link (ET.get_or_empty link "href") d) /\
   (forall url,
      Py.startswith (ET.get_or_empty link "href") "/" = true ->
      urljoin env FLIBUSTA_BASE_URL (ET.get_or_empty link "href") = Ok url ->
      exists d,
        download_link_of env link = Ok (Some d) /\ normalized link url d) /\
   (forall e,
      Py.startswith (ET.get_or_empty link "href") "/" = true ->
      urljoin env FLIBUSTA_BASE_URL (ET.get_or_empty link "href") = Raise e ->
      download_link_of env link = Raise e)) /\
  file_format "application/fb2+zip" = "fb2" /\
  file_format "application/x-custom" = "x-custom" /\
  mapped (List.map link_format)
    (_opds_parse_download_links (env_feed empty_feed)
       (entry_of_type "application/fb2+zip"))
    = Ok ["fb2"] /\
  mapped (List.map link_format)
    (_opds_parse_download_links (env_feed empty_feed)
       (entry_of_type "application/x-custom"))
    = Ok ["x-custom"].
Proof.
  split; [|split; [|split; [|split]]].
  - intros Hrel Hmime. split; [|split].
    + intros Hs. apply download_link_of_normalized; [exact Hrel|exact Hmime|].
      now rewrite Hs.
    + intros url Hs Hj.
      apply download_link_of_normalized; [exact Hrel|exact Hmime|].
      now rewrite Hs.
    + intros e Hs Hj. unfold download_link_of.
      now rewrite Hrel, Hmime, Hs, Hj.
  - vm_compute. reflexivity.
  - vm_compute. reflexivity.
  - vm_compute. reflexivity.
  - vm_compute. reflexivity.
Qed.

(** An acquisition link of the type [application/epub+zip], whose address
    is joined to the base URL. *)
Lemma C5_format_of_acquisition_link_witness :
  exists d,
    download_link_of (env_feed empty_feed)
      (acquisition_link "/b/5/epub" "application/epub+zip") = Ok (Some d) /\
    link_url d = "http://flibusta.is/b/5/epub" /\
    link_format d = "epub".
Proof.
  destruct (proj1 (C5_format_of_acquisition_link (env_feed empty_feed)
                     (acquisition_link "/b/5/epub" "application/epub+zip")))
    as (_ & H & _).
  - vm_compute. reflexivity.
  - vm_compute. reflexivity.
  - destruct (H "http://flibusta.is/b/5/epub") as (d & Hd & Hu & Hm & Hf & _).
    + vm_compute. reflexivity.
    + vm_compute. reflexivity.
    + exists d. split; [exact Hd|]. split; [exact Hu|].
      apply Hf. rewrite Hm. vm_compute. reflexivity.
Defined.

(** ** C4: the name of a downloaded file *)

Lemma search_unfold (p : Re.pattern) (s : string) :
  Re.search p s =
    match Re.exec p s with
    | Some (gs, _) => Some gs
    | None =>
        match s with
        | String _ s' => Re.search p s'
        | EmptyString => None
        end
    end.
Proof. destruct s; reflexivity. Qed.

(** A greedy class takes the whole of a text of its characters that
    nothing of the class follows, when the rest of the pattern matches
    after it. *)
Lemma greedy_all c k (taken v post : string) r :
  all_chars c v = true ->
  match post with EmptyString => True | String a _ => c a = false end ->
  k (taken +:+ v) post = Some r ->
  Re.greedy c k taken (v +:+ post) = Some r.
Proof.
  intros Hv Hpost. revert taken.
  induction v as [|a v IH]; intros taken Hk.
  - rewrite app_empty_r in Hk. change (EmptyString +:+ post) with post.
    destruct post as [|b post]; [exact Hk|].
    cbn [Re.greedy]. now rewrite Hpost.
  - cbn [all_chars] in Hv. apply andb_true_iff in Hv as [Ha Hv].
    change (String a v +:+ post) with (String a (v +:+ post)).
    cbn [Re.greedy]. rewrite Ha.
    rewrite (IH Hv (Re.snoc taken a)); [reflexivity|].
    unfold Re.snoc. now rewrite app_snoc.
Qed.

(** The pattern at an attribute: its group is the value. *)
Lemma filename_attr_exec (q v post : string) :
  optional_quote q -> v <> EmptyString ->
  all_chars value_char v = true -> ends_value post ->
  Re.exec Re.filename_attr ("filename=" +:+ q +:+ v +:+ post)
    = Some ([v], post).
Proof.
  intros Hq Hne Hv Hpost.
  destruct v as [|a v]; [congruence|].
  cbn [all_chars] in Hv. apply andb_true_iff in Hv as [Ha Hv].
  assert (Hg : Re.greedy
                 (fun a => negb (Re.quote_mark a || Ascii.eqb a ";"))
                 (fun g rest => Some ([g], rest))
                 (String a EmptyString) (v +:+ post)
               = Some ([String a v], post)).
  { apply (greedy_all value_char); [exact Hv | exact Hpost | reflexivity]. }
  assert (Hnq : Re.quote_mark a = false /\ Ascii.eqb a ";" = false).
  { unfold value_char in Ha. now apply negb_true_iff, orb_false_iff in Ha. }
  destruct Hnq as [Hnq Hsemi].
  assert (E : forall x,
             "filename=" +:+ x
             = String "f" (String "i" (String "l" (String "e" (String "n"
                 (String "a" (String "m" (String "e" (String "=" x)))))))))
    by reflexivity.
  destruct Hq as [-> | [-> | ->]].
  - change (EmptyString +:+ String a v +:+ post)
      with (String a (v +:+ post)).
    rewrite E. cbn. rewrite Hnq. cbn. rewrite Hsemi. cbn. now rewrite Hg.
  - change (String Re.dquote EmptyString +:+ String a v +:+ post)
      with (String Re.dquote (String a (v +:+ post))).
    rewrite E. cbn. rewrite Hnq. cbn. rewrite Hsemi. cbn. now rewrite Hg.
  - change (String Re.squote EmptyString +:+ String a v +:+ post)
      with (String Re.squote (String a (v +:+ post))).
    rewrite E. cbn. rewrite Hnq. cbn. rewrite Hsemi. cbn. now rewrite Hg.
Qed.

(** The word [filename] does not overlap itself: it does not start
    inside a text before it, if it is not at the start of that text. *)
Lemma filename_border (pre rest : string) :
  pre <> EmptyString -> String.prefix "filename" pre = false ->
  String.prefix "filename" (pre +:+ "filename" +:+ rest) = false.
Proof.
  intros Hne Hp.
  destruct pre as [|a1 pre]; [congruence|].
  change (String a1 pre +:+ "filename" +:+ rest)
    with (String a1 (pre +:+ "filename" +:+ rest)).
  cbn [String.prefix] in Hp |- *.
  destruct (ascii_dec "f" a1); [|reflexivity].
  destruct pre as [|a2 pre]; [reflexivity|].
  change (String a2 pre +:+ "filename" +:+ rest)
    with (String a2 (pre +:+ "filename" +:+ rest)).
  cbn [String.prefix] in Hp |- *.
  destruct (ascii_dec "i" a2); [|reflexivity].
  destruct pre as [|a3 pre]; [reflexivity|].
  change (String a3 pre +:+ "filename" +:+ rest)
    with (String a3 (pre +:+ "filename" +:+ rest)).
  cbn [String.prefix] in Hp |- *.
  destruct (ascii_dec "l" a3); [|reflexivity].
  destruct pre as [|a4 pre]; [reflexivity|].
  change (String a4 pre +:+ "filename" +:+ rest)
    with (String a4 (pre +:+ "filename" +:+ rest)).
  cbn [String.prefix] in Hp |- *.
  destruct (ascii_dec "e" a4); [|reflexivity].
  destruct pre as [|a5 pre]; [reflexivity|].
  change (String a5 pre +:+ "filename" +:+ rest)
    with (String a5 (pre +:+ "filename" +:+ rest)).
  cbn [String.prefix] in Hp |- *.
  destruct (ascii_dec "n" a5); [|reflexivity].
  destruct pre as [|a6 pre]; [reflexivity|].
  change (String a6 pre +:+ "filename" +:+ rest)
    with (String a6 (pre +:+ "filename" +:+ rest)).
  cbn [String.prefix] in Hp |- *.
  destruct (ascii_dec "a" a6); [|reflexivity].
  destruct pre as [|a7 pre]; [reflexivity|].
  change (String a7 pre +:+ "filename" +:+ rest)
    with (String a7 (pre +:+ "filename" +:+ rest)).
  cbn [String.prefix] in Hp |- *.
  destruct (ascii_dec "m" a7); [|reflexivity].
  destruct pre as [|a8 pre]; [reflexivity|].
  change (String a8 pre +:+ "filename" +:+ rest)
    with (String a8 (pre +:+ "filename" +:+ rest)).
  cbn [String.prefix] in Hp |- *.
  destruct (ascii_dec "e" a8); [|reflexivity].
  destruct pre; discriminate.
Qed.

(** The search finds the first attribute. *)
Lemma filename_attr_search (pre q v post : string) :
  Py.contains "filename" pre = false ->
  optional_quote q -> v <> EmptyString ->
  all_chars value_char v = true -> ends_value post ->
  Re.search Re.filename_attr (pre +:+ "filename=" +:+ q +:+ v +:+ post)
    = Some [v].
Proof.
  intros Hpre Hq Hne Hv Hpost.
  induction pre as [|a pre IH].
  - change (EmptyString +:+ "filename=" +:+ q +:+ v +:+ post)
      with ("filename=" +:+ q +:+ v +:+ post).
    now rewrite search_unfold, filename_attr_exec.
  - cbn [Py.contains] in Hpre. apply orb_false_iff in Hpre as [Hp Hc].
    rewrite search_unfold.
    assert (E : Re.exec Re.filename_attr
                  (String a pre +:+ "filename=" +:+ q +:+ v +:+ post)
                = None).
    { change (Re.exec Re.filename_attr
                (String a pre +:+ "filename=" +:+ q +:+ v +:+ post))
        with (if String.prefix "filename"
                   (String a pre +:+ "filename"
                    +:+ ("=" +:+ q +:+ v +:+ post))
              then Re.exec (List.tl Re.filename_attr)
                     (Py.drop 8 (String a pre +:+ "filename"
                                 +:+ ("=" +:+ q +:+ v +:+ post)))
              else None).
      now rewrite filename_border. }
    rewrite E.
    change (String a pre +:+ "filename=" +:+ q +:+ v +:+ post)
      with (String a (pre +:+ "filename=" +:+ q +:+ v +:+ post)).
    now apply IH.
Qed.

Lemma contains_longer (n x s : string) :
  Py.contains n s = false -> Py.contains (n +:+ x) s = false.
Proof.
  intros H. destruct (Py.contains (n +:+ x) s) eqn:E; [|reflexivity].
  apply contains_app in E as (before & after & ->).
  rewrite <- H. symmetry. apply contains_app.
  exists before, (x +:+ after). f_equal. clear H.
  induction n as [|a n IH]; [reflexivity|].
  change (String a ((n +:+ x) +:+ after) = String a (n +:+ x +:+ after)).
  now rewrite IH.
Qed.

(** The name for a header that carries a filename attribute. *)
Lemma derived_filename_carried env header url v :
  carries_filename (unicode env) header v ->
  decoded env v <> EmptyString ->
  derived_filename env header url = decoded env v.
Proof.
  intros (pre & q & post & -> & Hpre & Hq & Hne & Hv & Hs & Hpost) Hd.
  unfold derived_filename.
  assert (Hc : Py.contains "filename="
                 (pre +:+ "filename=" +:+ q +:+ v +:+ post) = true).
  { apply contains_app. now exists pre, (q +:+ v +:+ post). }
  rewrite Hc, filename_attr_search by assumption.
  change (Re.group 1 [v]) with v. rewrite Hs.
  unfold decoded in Hd |- *.
  destruct (Py.contains "%" v); simpl.
  - destruct (unquote env v); [congruence | reflexivity].
  - destruct v; [congruence | reflexivity].
Qed.

(** The name for a header without a filename attribute. *)
Lemma derived_filename_from_url env header base segment :
  Py.contains "filename" header = false ->
  Py.contains "/" segment = false ->
  derived_filename env header (base +:+ "/" +:+ segment)
    = if Py.contains "." segment then segment else "book".
Proof.
  intros Hh Hs. unfold derived_filename.
  pose proof (contains_longer "filename" "=" _ Hh) as Hc.
  change ("filename" +:+ "=") with "filename=" in Hc. rewrite Hc.
  change ("/" +:+ segment) with (String "/" segment).
  cbn [Py.truthy_opt negb].
  rewrite (last_piece_after "/" base segment Hs).
  now destruct (Py.contains "." segment).
Qed.

(** The name is never empty. *)
Lemma derived_filename_nonempty env header url :
  derived_filename env header url <> EmptyString.
Proof.
  unfold derived_filename.
  set (filename := if Py.contains "filename=" header then _ else _).
  destruct filename as [[|a s]|]; simpl; try discriminate;
    (destruct (Py.contains "." (Py.last_piece (Py.split "/" url))) eqn:E;
     simpl; [|discriminate]);
    intros H; rewrite H in E; discriminate.
Qed.

Lemma download_book_run env url t :
  download_book env url t =
    (match network env t url with
     | Ok r =>
         if success r
         then Ok (Some (content r,
                        derived_filename env
                          (header_get (headers r) "Content-Disposition") url))
         else Ok None
     | Raise e => if is_HTTPError e then Ok None else Raise e
     end,
     t ++ [EvGet url]).
Proof.
  unfold download_book, try_except, bind, client_get, raise_for_status,
    success.
  destruct (network env t url) as [r|e]; simpl.
  - destruct ((200 <=? status_code r) && (status_code r <? 300)); reflexivity.
  - destruct (is_HTTPError e); reflexivity.
Qed.

Lemma success_range (r : Response) :
  success r = true <-> 200 <= status_code r < 300.
Proof.
  unfold success. rewrite andb_true_iff, Z.leb_le, Z.ltb_lt. reflexivity.
Qed.

(** C4, as it is stated, fails on its own example: without the header,
    the URL that ends in [/b/123/epub] gives the name [book]. *)
Lemma C4_counterexample :
  download_book (env_download []) "http://flibusta.is/b/123/epub" []
    = (Ok (Some (file_bytes, "book")), [EvGet "http://flibusta.is/b/123/epub"])
  /\ download_book (env_download []) "http://flibusta.is/b/123/epub" []
     <> (Ok (Some (file_bytes, "epub")), [EvGet "http://flibusta.is/b/123/epub"]).
Proof. split; [vm_compute; reflexivity | vm_compute; discriminate]. Qed.

(** C4, amended. For a response with a success status, [download_book]
    returns the body and a name derived in this order: (a) if the
    Content-Disposition header carries a filename attribute, that value,
    percent-decoded when it contains a percent sign; (b) otherwise (the
    header has no filename attribute) the final segment of the URL, the
    text after its last slash, when that segment contains a dot; (c)
    otherwise the fixed name [book]. So the header value
    [filename=\x22book%20one.fb2\x22] gives [book one.fb2], and without
    the header the URL [http://flibusta.is/b/123/epub] gives [book], and
    [http://flibusta.is/b/123/war.epub] gives [war.epub]. *)
Theorem C4_download_filename (env : Env) (url : string) (t : Trace)
    (r : Response) :
  (network env t url = Ok r ->
   200 <= status_code r < 300 ->
   exists name,
     download_book env url t
       = (Ok (Some (content r, name)), t ++ [EvGet url]) /\
     (forall v,
         carries_filename (unicode env)
           (header_get (headers r) "Content-Disposition") v ->
         decoded env v <> EmptyString ->
         name = decoded env v) /\
     (forall base segment,
         Py.contains "filename"
           (header_get (headers r) "Content-Disposition") = false ->
         url = base +:+ "/" +:+ segment ->
         Py.contains "/" segment = false ->
         name = if Py.contains "." segment then segment else "book")) /\
  download_book
    (env_download [("Content-Disposition", sample_disposition)]) url []
    = (Ok (Some (file_bytes, "book one.fb2")), [EvGet url]) /\
  download_book (env_download []) "http://flibusta.is/b/123/epub" []
    = (Ok (Some (file_bytes, "book")), [EvGet "http://flibusta.is/b/123/epub"]) /\
  download_book (env_download []) "http://flibusta.is/b/123/war.epub" []
    = (Ok (Some (file_bytes, "war.epub")),
       [EvGet "http://flibusta.is/b/123/war.epub"]).
Proof.
  split; [|split; [|split]].
  - intros Hnet Hs. apply success_range in Hs.
    eexists. rewrite download_book_run, Hnet, Hs.
    split; [reflexivity|]. split.
    + intros v Hv Hd. now apply derived_filename_carried.
    + intros base segment Hh -> Hseg. now apply derived_filename_from_url.
  - reflexivity.
  - vm_compute. reflexivity.
  - vm_compute. reflexivity.
Qed.

(** A server that names the file in the header, in lower case. *)
Lemma C4_download_filename_witness :
  download_book
    (env_download [("content-disposition", "attachment; filename=a%20b.fb2")])
    "http://flibusta.is/b/123/epub" []
  = (Ok (Some (file_bytes, "a b.fb2")), [EvGet "http://flibusta.is/b/123/epub"]).
Proof.
  destruct (proj1 (C4_download_filename
                    (env_download
                       [("content-disposition",
                         "attachment; filename=a%20b.fb2")])
                    "http://flibusta.is/b/123/epub" []
                    (mkResponse 200
                       [("content-disposition",
                         "attachment; filename=a%20b.fb2")]
                       "FictionBook" file_bytes))
             eq_refl ltac:(simpl; lia)) as (name & Hrun & Ha & _).
  rewrite Hrun. rewrite (Ha "a%20b.fb2").
  - vm_compute. reflexivity.
  - exists "attachment; ", EmptyString, EmptyString.
    repeat split; try reflexivity; try discriminate. now left.
  - vm_compute. discriminate.
Defined.

(** ** C3: failures at the boundary of the adapters *)

(** A sort raises what one of its keys raises. *)
Lemma sort_keys_raise_inv {A} (key : A -> outcome string) l e :
  sort_keys key l = Raise e -> exists x, x ∈ l /\ key x = Raise e.
Proof.
  induction l as [|y l IH]; simpl; [discriminate|].
  destruct (key y) as [k|e'] eqn:Ek.
  - destruct (sort_keys key l) as [ks|e'']; [discriminate|].
    intros H; inversion H; subst.
    destruct (IH eq_refl) as (x & Hx & Hk). exists x. split; [now right | exact Hk].
  - intros H; inversion H; subst. exists y. split; [left | exact Ek].
Qed.

Lemma list_sort_title_raises u (l : list Book) :
  (exists b, b ∈ l /\ book_title b = None) ->
  list_sort (title_key u) l = Raise AttributeError.
Proof.
  intros (b & Hb & Ht).
  destruct (list_sort_raise (title_key u) l) as [e He].
  { exists b, AttributeError. split; [exact Hb|].
    unfold title_key. now rewrite Ht. }
  rewrite He. f_equal. unfold list_sort in He.
  destruct (sort_keys (title_key u) l) as [ks|e'] eqn:E; [discriminate|].
  inversion He; subst.
  apply sort_keys_raise_inv in E as (x & _ & Hx).
  unfold title_key, lower_of in Hx.
  destruct (book_title x); [discriminate | now inversion Hx].
Qed.

(** The HTML book search drops a line whose anchor text is blank once it
    is cleaned. *)
Lemma book_of_line_blank_title u line m :
  Py.contains "/s/" line = false ->
  Re.search (Re.book_anchor u) line = Some m ->
  _clean_html u (Re.group 2 m) = EmptyString ->
  book_of_line u line = None.
Proof.
  intros Hs Hm Ht. unfold book_of_line. now rewrite Hs, Hm, Ht.
Qed.

(** A fetched text is what the request returns. *)
Lemma fetched_requested env t url body :
  fetched env t url = Some body -> requested env t url = Ok (Some body).
Proof.
  unfold fetched, requested. destruct (network env t url) as [r|e];
    [|discriminate].
  now intros ->.
Qed.

(** The feed book search returns nothing when the transport fails, the
    status is not a success, or the document does not parse. *)
Lemma _opds_search_books_absent env query page t :
  failed env t (feed_search_url query page) \/
  (exists body, fetched env t (feed_search_url query page) = Some body /\
                fromstring env body = None) ->
  _opds_search_books env query page t =
    (Ok None, t ++ [EvGet (feed_search_url query page)]).
Proof.
  rewrite _opds_search_books_run. intros [H|(body & H & Hp)].
  - now rewrite (requested_failed _ _ _ H).
  - rewrite (fetched_requested _ _ _ _ H). simpl. rewrite Hp.
    now destruct (Py.truthy body).
Qed.

(** It raises [AttributeError] when an entry with a download link has an
    empty title element: the exception of the sort key passes the
    [except ET.ParseError] clause. *)
Lemma _opds_search_books_raises env query page t body root books b :
  fetched env t (feed_search_url query page) = Some body ->
  body <> EmptyString ->
  fromstring env body = Some root ->
  entry_books env root = Ok books ->
  b ∈ books ->
  book_title b = None ->
  _opds_search_books env query page t =
    (Raise AttributeError, t ++ [EvGet (feed_search_url query page)]).
Proof.
  intros Hf Hb Hr He Hin Ht.
  rewrite _opds_search_books_run, (fetched_requested _ _ _ _ Hf).
  destruct body; [congruence|]. simpl. rewrite Hr. unfold feed_books.
  rewrite He, list_sort_title_raises; [reflexivity | now exists b].
Qed.

(** C3. The adapters are meant never to raise, and the HTML adapter
    raises nothing of its own (see [_http_search_books_returns] and its
    two neighbours), but the feed adapter does: on the feed
    [<feed xmlns='http://www.w3.org/2005/Atom'><entry><title/><link
    rel='http://opds-spec.org/acquisition/open-access' href='/b/7/fb2'
    type='application/fb2+zip'/></entry></feed>], whose entry has an empty
    title element and a download link, [_opds_search_books] raises
    [AttributeError], and with the HTML source down the exception reaches
    the caller of [search_books] and of [get_author_books]. *)
Theorem C3_feed_adapter_propagates_exception :
  _opds_search_books (env_feed untitled_feed) "x" 0 []
    = (Raise AttributeError,
       [EvGet ("http://flibusta.is/opds/opensearch?searchTerm=x"
               +:+ "&searchType=books&pageNumber=0")]) /\
  search_books (env_feed untitled_feed) "x" 0 None []
    = (Raise AttributeError,
       [EvGet "http://flibusta.is/booksearch?ask=x&page=0";
        EvGet ("http://flibusta.is/opds/opensearch?searchTerm=x"
               +:+ "&searchType=books&pageNumber=0")]) /\
  get_author_books (env_feed untitled_feed) "12" 0 None []
    = (Raise AttributeError,
       [EvGet "http://flibusta.is/a/12/alphabet";
        EvGet "http://flibusta.is/a/12";
        EvGet "http://flibusta.is/opds/author/12"]).
Proof.
  split; [|split].
  - eapply (_opds_search_books_raises (env_feed untitled_feed) "x" 0 []
              (feed_text untitled_feed) (feed_doc untitled_feed));
      [reflexivity | discriminate | reflexivity | vm_compute; reflexivity
       | left | reflexivity].
  - vm_compute. reflexivity.
  - vm_compute. reflexivity.
Qed.

(** * Further properties of the client *)

(** ** The connectivity probe *)

(** X1. [check_connection] never raises. It reports success exactly when
    the base URL answers with status 200 or, the base URL having been
    asked, the OPDS endpoint does; it asks the base URL alone when that
    one answers 200, and the base URL and then the OPDS endpoint
    otherwise. *)
Theorem X1_check_connection_probes (env : Env) (t : Trace) :
  exists ok msg evs,
    check_connection env t = (Ok (ok, msg), t ++ evs) /\
    (ok = true <->
       answered env t FLIBUSTA_BASE_URL = Some 200 \/
       answered env (t ++ [EvGet FLIBUSTA_BASE_URL]) OPDS_BASE_URL = Some 200)
    /\ (answered env t FLIBUSTA_BASE_URL = Some 200 ->
        evs = [EvGet FLIBUSTA_BASE_URL])
    /\ (answered env t FLIBUSTA_BASE_URL <> Some 200 ->
        evs = [EvGet FLIBUSTA_BASE_URL; EvGet OPDS_BASE_URL]).
Proof.
  unfold check_connection, bind, try_except, client_get, answered, ret.
  destruct (network env t FLIBUSTA_BASE_URL) as [r1|e1] eqn:E1; simpl.
  - destruct (Z.eqb_spec (status_code r1) 200) as [H1|H1]; simpl.
    + eexists _, _, _. split; [reflexivity|]. rewrite H1.
      split; [tauto|]. split; [reflexivity | congruence].
    + destruct (network env (t ++ [EvGet FLIBUSTA_BASE_URL]) OPDS_BASE_URL)
        as [r2|e2] eqn:E2; simpl.
      * destruct (Z.eqb_spec (status_code r2) 200) as [H2|H2]; simpl;
          eexists _, _, _; rewrite <- app_assoc;
          (split; [reflexivity|]);
          (split; [|split; [congruence | reflexivity]]).
        -- rewrite H2. tauto.
        -- split; [discriminate | intros [?|?]; congruence].
      * eexists _, _, _; rewrite <- app_assoc. split; [reflexivity|].
        split; [|split; [congruence | reflexivity]].
        split; [discriminate | intros [?|?]; congruence].
  - destruct (network env (t ++ [EvGet FLIBUSTA_BASE_URL]) OPDS_BASE_URL)
      as [r2|e2] eqn:E2; simpl.
    + destruct (Z.eqb_spec (status_code r2) 200) as [H2|H2]; simpl;
        eexists _, _, _; rewrite <- app_assoc;
        (split; [reflexivity|]);
        (split; [|split; [congruence | reflexivity]]).
      * rewrite H2. tauto.
      * split; [discriminate | intros [?|?]; congruence].
    + eexists _, _, _; rewrite <- app_assoc. split; [reflexivity|].
      split; [|split; [congruence | reflexivity]].
      split; [discriminate | intros [?|?]; congruence].
Qed.

(** The HTML source is down and the feed source answers: the probe
    succeeds through the OPDS endpoint, after two requests. *)
Lemma X1_check_connection_probes_witness :
  exists msg,
    check_connection (env_feed empty_feed) [] =
      (Ok (true, msg),
       [EvGet "http://flibusta.is"; EvGet "http://flibusta.is/opds"]).
Proof.
  destruct (X1_check_connection_probes (env_feed empty_feed) [])
    as (ok & msg & evs & Hrun & Hok & _ & Hevs).
  rewrite Hrun, Hevs by (vm_compute; discriminate).
  assert (ok = true) as -> by (apply Hok; right; vm_compute; reflexivity).
  now exists msg.
Defined.

(** ** What a request returns *)

Lemma is_HTTPError_false (e : exn) : e <> HTTPError -> is_HTTPError e = false.
Proof. destruct e; [congruence | reflexivity | reflexivity | reflexivity]. Qed.

Lemma success_false (r : Response) :
  ~ (200 <= status_code r < 300) -> success r = false.
Proof.
  intros H. destruct (success r) eqn:E; [|reflexivity].
  now apply success_range in E.
Qed.

(** X2. [_http_request] and [_opds_request] send exactly one request.
    When [get] returns a response they return its text if the status is a
    success (200-299) and [None] if it is not; when [get] raises an
    [httpx.HTTPError] they return [None]; any other exception of [get]
    (httpx raises [InvalidURL] for a URL with a control character in it)
    passes through them. *)
Theorem X2_request_returns_text_or_none (env : Env) (url : string)
    (t : Trace) :
  exists o,
    _http_request env url t = (o, t ++ [EvGet url]) /\
    _opds_request env url t = (o, t ++ [EvGet url]) /\
    (forall resp,
        network env t url = Ok resp -> 200 <= status_code resp < 300 ->
        o = Ok (Some (text resp))) /\
    (forall resp,
        network env t url = Ok resp -> ~ (200 <= status_code resp < 300) ->
        o = Ok None) /\
    (network env t url = Raise HTTPError -> o = Ok None) /\
    (forall e, network env t url = Raise e -> e <> HTTPError -> o = Raise e).
Proof.
  exists (requested env t url).
  split; [apply _http_request_run|]. split; [apply _opds_request_run|].
  unfold requested. split; [|split; [|split]].
  - intros resp -> H. apply success_range in H. now rewrite H.
  - intros resp -> H. now rewrite (success_false _ H).
  - now intros ->.
  - intros e -> H. now rewrite (is_HTTPError_false _ H).
Qed.

(** A server that answers 503, and a URL that httpx rejects. *)
Lemma X2_request_returns_text_or_none_witness :
  _http_request (env_feed empty_feed) "http://flibusta.is/b/7" [] =
    (Ok None, [EvGet "http://flibusta.is/b/7"]) /\
  _http_request env_strict ("http://flibusta.is/a/1" +:+ tab) [] =
    (Raise InvalidURL, [EvGet ("http://flibusta.is/a/1" +:+ tab)]).
Proof.
  split.
  - destruct (X2_request_returns_text_or_none (env_feed empty_feed)
                "http://flibusta.is/b/7" []) as (o & Hrun & _ & _ & Hnone & _).
    rewrite Hrun. rewrite (Hnone unavailable); [reflexivity | reflexivity|].
    vm_compute. intros [_ H]. discriminate.
  - destruct (X2_request_returns_text_or_none env_strict
                ("http://flibusta.is/a/1" +:+ tab) [])
      as (o & Hrun & _ & _ & _ & _ & Hraise).
    rewrite Hrun. rewrite (Hraise InvalidURL); [reflexivity | reflexivity|].
    discriminate.
Defined.

(** ** The characters of a text *)

Lemma chars_head (a : ascii) (s : string) :
  exists c cs, Py.chars (String a s) = String a c :: cs.
Proof.
  cbn [Py.chars]. destruct (Py.chars s) as [|c cs]; [now eexists _, _|].
  destruct (Py.head_continues s); now eexists _, _.
Qed.

Lemma join_chars (s : string) : Py.join (Py.chars s) = s.
Proof.
  induction s as [|a s IH]; [reflexivity|]. cbn [Py.chars].
  destruct (Py.chars s) as [|c cs].
  - simpl in IH. now rewrite <- IH.
  - destruct (Py.head_continues s); cbn [Py.join] in IH |- *;
      now rewrite <- IH.
Qed.

Lemma chars_regular (s : string) : regular (Py.chars s).
Proof.
  induction s as [|a s [IHc IHh]]; [split; constructor|].
  cbn [Py.chars]. destruct s as [|b s].
  - split; [repeat constructor | constructor].
  - destruct (chars_head b s) as (c & cs & E). rewrite E in IHc, IHh |- *.
    cbn [Py.head_continues List.tl] in IHh |- *.
    apply List.Forall_cons_iff in IHc as [Hc Hcs].
    destruct (Py.continuation b) eqn:Eb.
    + split; [|exact IHh]. constructor; [|exact Hcs].
      cbn [is_char all_chars] in Hc |- *. now rewrite Eb.
    + split; [constructor; [reflexivity | now constructor]|].
      constructor; [exact Eb | exact IHh].
Qed.

Lemma regular_app (l1 l2 : list string) :
  regular (l1 ++ l2) -> regular l1 /\ regular l2.
Proof.
  intros [Hc Hh]. apply List.Forall_app in Hc as [Hc1 Hc2].
  destruct l1 as [|c l1].
  - split; [split; constructor | now split].
  - cbn [List.tl List.app] in Hh. apply List.Forall_app in Hh as [Hh1 Hh2].
    split; [now split|]. split; [exact Hc2|].
    destruct l2; [constructor | now inversion Hh2].
Qed.

Lemma head_continues_app (c s : string) :
  c <> EmptyString -> Py.head_continues (c +:+ s) = Py.head_continues c.
Proof. destruct c; [congruence | reflexivity]. Qed.

Lemma is_char_nonempty (c : string) : is_char c = true -> c <> EmptyString.
Proof. destruct c; [discriminate | discriminate]. Qed.

(** A character before a text that does not go on with a continuation
    byte is the first character of the whole. *)
Lemma chars_cons (c s : string) :
  is_char c = true -> Py.head_continues s = false ->
  Py.chars (c +:+ s) = c :: Py.chars s.
Proof.
  destruct c as [|a c]; [discriminate|]. cbn [is_char]. revert a.
  induction c as [|b c IH]; intros a Hc Hs.
  - change (String a EmptyString +:+ s) with (String a s).
    cbn [Py.chars]. rewrite Hs. now destruct (Py.chars s).
  - cbn [all_chars] in Hc. apply andb_true_iff in Hc as [Hb Hc].
    change (String a (String b c) +:+ s) with (String a (String b c +:+ s)).
    cbn [Py.chars]. rewrite (IH b Hc Hs).
    change (String b c +:+ s) with (String b (c +:+ s)).
    cbn [Py.head_continues]. now rewrite Hb.
Qed.

Lemma chars_join (l : list string) : regular l -> Py.chars (Py.join l) = l.
Proof.
  intros [Hc Hh]. induction l as [|c l IH]; [reflexivity|].
  apply List.Forall_cons_iff in Hc as [Hc Hl]. cbn [List.tl] in Hh.
  cbn [Py.join]. rewrite chars_cons; [| exact Hc |].
  - f_equal. apply IH; [exact Hl|].
    destruct l; [constructor | now inversion Hh].
  - destruct l as [|c' l]; [reflexivity|]. cbn [Py.join].
    inversion Hl; subst. inversion Hh; subst.
    now rewrite head_continues_app by now apply is_char_nonempty.
Qed.

Lemma join_nonempty (l : list string) :
  regular l -> l <> [] -> Py.join l <> EmptyString.
Proof.
  intros [Hc _] Hne. destruct l as [|c l]; [congruence|].
  inversion Hc; subst. cbn [Py.join].
  destruct c; [discriminate | discriminate].
Qed.

(** The text of some of the characters of a text, taken in a row, is
    made of these characters. *)
Lemma all_letters_join (c : string -> bool) (g rest : list string)
    (s : string) :
  Py.chars s = g ++ rest -> Forall (fun x => c x = true) g ->
  all_letters c (Py.join g).
Proof.
  intros E Hg. unfold all_letters. rewrite chars_join; [exact Hg|].
  pose proof (chars_regular s) as H. rewrite E in H.
  now apply regular_app in H.
Qed.

(** ** What a match captures *)

Lemma all_chars_app c (g h : string) :
  all_chars c (g +:+ h) = all_chars c g && all_chars c h.
Proof.
  induction g as [|a g IH]; [reflexivity|].
  change (c a && all_chars c (g +:+ h) = c a && all_chars c g && all_chars c h).
  now rewrite IH, andb_assoc.
Qed.

Lemma greedy_inv c k taken s r :
  Re.greedy c k taken s = Some r ->
  exists g rest, k (taken +:+ g) rest = Some r /\ all_chars c g = true.
Proof.
  revert taken. induction s as [|a s IH]; intros taken; simpl.
  - intros H. exists EmptyString, EmptyString. now rewrite app_empty_r.
  - destruct (c a) eqn:Ea.
    + destruct (Re.greedy c k (Re.snoc taken a) s) as [r'|] eqn:E.
      * intros H; inversion H; subst.
        destruct (IH _ E) as (g & rest & Hk & Hg).
        exists (String a g), rest. unfold Re.snoc in Hk.
        rewrite app_snoc in Hk. split; [exact Hk|]. simpl. now rewrite Ea.
      * intros H. exists EmptyString, (String a s). now rewrite app_empty_r.
    + intros H. exists EmptyString, (String a s). now rewrite app_empty_r.
Qed.

Lemma lazy_inv c k taken s r :
  Re.lazy c k taken s = Some r ->
  exists g rest, k (taken +:+ g) rest = Some r /\ all_chars c g = true.
Proof.
  revert taken. induction s as [|a s IH]; intros taken; simpl.
  - destruct (k taken EmptyString) as [r'|] eqn:E; [|discriminate].
    intros H; inversion H; subst.
    exists EmptyString, EmptyString. now rewrite app_empty_r.
  - destruct (k taken (String a s)) as [r'|] eqn:E.
    + intros H; inversion H; subst.
      exists EmptyString, (String a s). now rewrite app_empty_r.
    + destruct (c a) eqn:Ea; [|discriminate]. intros H.
      destruct (IH _ H) as (g & rest & Hk & Hg).
      exists (String a g), rest. unfold Re.snoc in Hk.
      rewrite app_snoc in Hk. split; [exact Hk|]. simpl. now rewrite Ea.
Qed.

Lemma one_then_inv c k s r :
  Re.one_then c k s = Some r ->
  exists a rest, c a = true /\ k (String a EmptyString) rest = Some r.
Proof.
  unfold Re.one_then. destruct s as [|a s]; [discriminate|].
  destruct (c a) eqn:Ea; [|discriminate]. intros H. now exists a, s.
Qed.

(** What a quantified class takes is in the class, and is not empty when
    the quantifier asks for a character. *)
Lemma rep_inv c q k s r :
  Re.rep c q k s = Some r ->
  exists g rest,
    k g rest = Some r /\
    fits (fun g => all_chars c g = true, at_least_one q) g.
Proof.
  unfold fits. destruct q; simpl.
  - intros H. apply one_then_inv in H as (a & rest & Ha & Hk).
    exists (String a EmptyString), rest. split; [exact Hk|].
    split; [simpl; now rewrite Ha | discriminate].
  - destruct (Re.one_then c k s) as [r'|] eqn:E.
    + intros H; inversion H; subst.
      apply one_then_inv in E as (a & rest & Ha & Hk).
      exists (String a EmptyString), rest. split; [exact Hk|].
      split; [simpl; now rewrite Ha | discriminate].
    + intros H. exists EmptyString, s. split; [exact H|].
      split; [reflexivity | discriminate].
  - intros H. apply greedy_inv in H as (g & rest & Hk & Hg).
    exists g, rest. split; [exact Hk|]. split; [exact Hg | discriminate].
  - intros H. apply one_then_inv in H as (a & rest & Ha & Hk).
    apply greedy_inv in Hk as (g & rest' & Hk & Hg).
    exists (String a g), rest'. split; [exact Hk|].
    split; [simpl; now rewrite Ha | discriminate].
  - intros H. apply lazy_inv in H as (g & rest & Hk & Hg).
    exists g, rest. split; [exact Hk|]. split; [exact Hg | discriminate].
  - intros H. apply one_then_inv in H as (a & rest & Ha & Hk).
    apply lazy_inv in Hk as (g & rest' & Hk & Hg).
    exists (String a g), rest'. split; [exact Hk|].
    split; [simpl; now rewrite Ha | discriminate].
Qed.

(** The same for a class of characters: what it takes are characters of
    the input in a row, from where it starts. *)
Lemma greedyU_inv c k taken s r :
  Re.greedyU c k taken s = Some r ->
  exists g rest,
    k (taken ++ g) rest = Some r /\ Forall (fun x => c x = true) g /\
    s = g ++ rest.
Proof.
  revert taken. induction s as [|a s IH]; intros taken; simpl.
  - intros H. exists [], []. now rewrite app_nil_r.
  - destruct (c a) eqn:Ea.
    + destruct (Re.greedyU c k (taken ++ [a]) s) as [r'|] eqn:E.
      * intros H; inversion H; subst.
        destruct (IH _ E) as (g & rest & Hk & Hg & ->).
        exists (a :: g), rest. rewrite <- app_assoc in Hk.
        split; [exact Hk|]. split; [now constructor | reflexivity].
      * intros H. exists [], (a :: s). now rewrite app_nil_r.
    + intros H. exists [], (a :: s). now rewrite app_nil_r.
Qed.

Lemma lazyU_inv c k taken s r :
  Re.lazyU c k taken s = Some r ->
  exists g rest,
    k (taken ++ g) rest = Some r /\ Forall (fun x => c x = true) g /\
    s = g ++ rest.
Proof.
  revert taken. induction s as [|a s IH]; intros taken; simpl.
  - destruct (k taken []) as [r'|] eqn:E; [|discriminate].
    intros H; inversion H; subst. exists [], []. now rewrite app_nil_r.
  - destruct (k taken (a :: s)) as [r'|] eqn:E.
    + intros H; inversion H; subst.
      exists [], (a :: s). now rewrite app_nil_r.
    + destruct (c a) eqn:Ea; [|discriminate]. intros H.
      destruct (IH _ H) as (g & rest & Hk & Hg & ->).
      exists (a :: g), rest. rewrite <- app_assoc in Hk.
      split; [exact Hk|]. split; [now constructor | reflexivity].
Qed.

Lemma one_thenU_inv c k s r :
  Re.one_thenU c k s = Some r ->
  exists a rest, c a = true /\ k [a] rest = Some r /\ s = a :: rest.
Proof.
  unfold Re.one_thenU. destruct s as [|a s]; [discriminate|].
  destruct (c a) eqn:Ea; [|discriminate]. intros H. now exists a, s.
Qed.

Lemma repU_inv c q k s r :
  Re.repU c q k s = Some r ->
  exists g rest,
    k g rest = Some r /\ Forall (fun x => c x = true) g /\
    (at_least_one q = true -> g <> []) /\ s = g ++ rest.
Proof.
  destruct q; simpl.
  - intros H. apply one_thenU_inv in H as (a & rest & Ha & Hk & ->).
    exists [a], rest. split; [exact Hk|].
    split; [now repeat constructor | now split].
  - destruct (Re.one_thenU c k s) as [r'|] eqn:E.
    + intros H; inversion H; subst.
      apply one_thenU_inv in E as (a & rest & Ha & Hk & ->).
      exists [a], rest. split; [exact Hk|].
      split; [now repeat constructor | now split].
    + intros H. exists [], s. split; [exact H|].
      split; [constructor | now split].
  - intros H. apply greedyU_inv in H as (g & rest & Hk & Hg & ->).
    exists g, rest. split; [exact Hk|]. split; [exact Hg | now split].
  - intros H. apply one_thenU_inv in H as (a & rest & Ha & Hk & ->).
    apply greedyU_inv in Hk as (g & rest' & Hk & Hg & ->).
    exists (a :: g), rest'. split; [exact Hk|].
    split; [now constructor | now split].
  - intros H. apply lazyU_inv in H as (g & rest & Hk & Hg & ->).
    exists g, rest. split; [exact Hk|]. split; [exact Hg | now split].
  - intros H. apply one_thenU_inv in H as (a & rest & Ha & Hk & ->).
    apply lazyU_inv in Hk as (g & rest' & Hk & Hg & ->).
    exists (a :: g), rest'. split; [exact Hk|].
    split; [now constructor | now split].
Qed.

(** The groups of a match fit the groups of the pattern, one for one. *)
Lemma exec_groups p s gs rest :
  Re.exec p s = Some (gs, rest) -> Forall2 fits (group_specs p) gs.
Proof.
  revert s gs rest. induction p as [|a p IH]; intros s gs rest; simpl.
  - intros H; inversion H; subst. constructor.
  - destruct a as [l|same l|c q|c q|c q|c q]; simpl.
    + destruct (String.prefix l s); [apply IH | discriminate].
    + destruct (Re.literal same _ _); [apply IH | discriminate].
    + intros H. apply rep_inv in H as (g & rest' & Hk & _). now apply IH in Hk.
    + intros H. apply rep_inv in H as (g & rest' & Hk & Hg).
      destruct (Re.exec p rest') as [[gs' r']|] eqn:E; [|discriminate].
      inversion Hk; subst. constructor; [exact Hg | now apply IH in E].
    + intros H. apply repU_inv in H as (g & rest' & Hk & _).
      now apply IH in Hk.
    + intros H. apply repU_inv in H as (g & rest' & Hk & Hg & Hne & Hs).
      destruct (Re.exec p (Py.join rest')) as [[gs' r']|] eqn:E;
        [|discriminate].
      inversion Hk; subst. constructor; [|now apply IH in E].
      split; simpl.
      * now apply (all_letters_join c g rest' s).
      * intros Hq. apply join_nonempty; [|now apply Hne].
        pose proof (chars_regular s) as Hr. rewrite Hs in Hr.
        now apply regular_app in Hr.
Qed.

Lemma search_groups p s gs :
  Re.search p s = Some gs -> Forall2 fits (group_specs p) gs.
Proof.
  induction s as [|a s IH]; simpl.
  - destruct (Re.exec p EmptyString) as [[gs' r]|] eqn:E; [|discriminate].
    intros H; inversion H; subst. now apply exec_groups in E.
  - destruct (Re.exec p (String a s)) as [[gs' r]|] eqn:E; [|exact IH].
    intros H; inversion H; subst. now apply exec_groups in E.
Qed.

Lemma finditer_groups p s :
  Forall (Forall2 fits (group_specs p)) (Re.finditer p s).
Proof.
  unfold Re.finditer. generalize O as skip.
  induction s as [|a s IH]; intros skip.
  - destruct skip; simpl; [|constructor].
    destruct (Re.exec p EmptyString) as [[gs r]|] eqn:E; [|constructor].
    constructor; [now apply exec_groups in E | constructor].
  - destruct skip; simpl; [|apply IH].
    destruct (Re.exec p (String a s)) as [[gs r]|] eqn:E; [|apply IH].
    constructor; [now apply exec_groups in E | apply IH].
Qed.

(** The two groups of an anchor: a numeral and a text. *)
Lemma anchor_groups u (class : ascii -> bool) (q : Re.quant) kind m :
  Forall2 fits
    (group_specs
       (Re.anchor_head u kind
        ++ [Re.Grp class q; Re.LitI (same_letter u) "</a>"])) m ->
  numeral u (Re.group 1 m) /\
  exists text, m = [Re.group 1 m; text].
Proof.
  simpl. intros H.
  inversion H as [|s1 g1 l1 l1' [Hd Hn] H']; subst.
  inversion H' as [|s2 g2 l2 l2' _ H'']; subst.
  inversion H''; subst. split; [|now exists g2].
  split; [now apply Hn | exact Hd].
Qed.

(** ** The items of the HTML adapter *)

Lemma truthy_nonempty (s : string) : Py.truthy s = true -> s <> EmptyString.
Proof. destruct s; [discriminate | discriminate]. Qed.

Lemma book_of_line_item u line b :
  book_of_line u line = Some b -> search_item u b.
Proof.
  unfold book_of_line. destruct (Py.contains "/s/" line); [discriminate|].
  destruct (Re.search (Re.book_anchor u) line) as [m|] eqn:Em;
    [|discriminate].
  apply search_groups, anchor_groups in Em as [Hid _].
  destruct (Py.truthy (_clean_html u (Re.group 2 m))) eqn:Et; [|discriminate].
  simpl. intros H; inversion H; subst; clear H. unfold search_item; simpl.
  split; [exact Hid|]. split.
  { eexists. split; [reflexivity | now apply truthy_nonempty]. }
  split; [reflexivity|].
  destruct (Re.search (Re.author_anchor u) line) as [am|] eqn:Ea; [|now left].
  apply search_groups, anchor_groups in Ea as [Haid _].
  destruct (Py.truthy (_clean_html u (Re.group 2 am))) eqn:En; [|now left].
  right. eexists. split; [reflexivity|]. simpl. split; [exact Haid|].
  eexists. split; [reflexivity | now apply truthy_nonempty].
Qed.

Lemma extracted_books_items u h :
  Forall (search_item u) (extracted_books u h).
Proof.
  apply Forall_forall. intros b Hb. unfold extracted_books in Hb.
  apply list_elem_of_omap in Hb as (line & _ & Hl).
  now apply book_of_line_item in Hl.
Qed.

Lemma unique_books_items u h :
  Forall (search_item u) (unique_books (extracted_books u h)).
Proof.
  apply Forall_forall. intros b Hb. apply unique_from_incl in Hb.
  pose proof (extracted_books_items u h) as Hf.
  rewrite Forall_forall in Hf. now apply Hf.
Qed.

Lemma author_books_from_items u author seen ms :
  Forall (Forall2 fits (group_specs (Re.book_anchor u))) ms ->
  Forall (bibliography_item u author) (author_books_from u author seen ms).
Proof.
  intros Hms. revert seen.
  induction Hms as [|m ms Hm _ IH]; intros seen; simpl; [constructor|].
  apply anchor_groups in Hm as [Hid _].
  destruct (bool_decide _ || negb (Py.truthy (_clean_html u (Re.group 2 m))))
    eqn:E; [apply IH|].
  apply orb_false_iff in E as [_ Et]. apply negb_false_iff in Et.
  destruct (bool_decide (lower u (_clean_html u (Re.group 2 m))
                         ∈ action_labels)) eqn:El; [apply IH|].
  apply bool_decide_eq_false in El.
  constructor; [|apply IH]. unfold bibliography_item; simpl.
  split; [exact Hid|]. split; [|split; reflexivity].
  eexists. split; [reflexivity|]. split; [now apply truthy_nonempty | exact El].
Qed.

Lemma authors_from_items u seen ms :
  Forall (Forall2 fits (group_specs (Re.author_anchor_lazy u))) ms ->
  Forall (found_author u) (authors_from u seen ms) /\
  NoDup (author_ids (authors_from u seen ms)) /\
  forall i, i ∈ author_ids (authors_from u seen ms) -> i ∉ seen.
Proof.
  intros Hms. revert seen.
  induction Hms as [|m ms Hm _ IH]; intros seen; simpl.
  - split; [constructor|]. split; [constructor|].
    intros i Hi. now apply elem_of_nil in Hi.
  - apply anchor_groups in Hm as [Hid _].
    destruct (bool_decide (Re.group 1 m ∈ seen)) eqn:E; simpl; [apply IH|].
    apply bool_decide_eq_false in E.
    destruct (Py.truthy (_clean_html u (Re.group 2 m))) eqn:Et; simpl;
      [|apply IH].
    destruct (IH ({[Re.group 1 m]} ∪ seen)) as (Hf & Hnd & Hfresh).
    split; [|split].
    + constructor; [|exact Hf]. unfold found_author; simpl.
      split; [exact Hid|]. split; [|reflexivity].
      eexists. split; [reflexivity | now apply truthy_nonempty].
    + simpl. constructor; [|exact Hnd]. intros Hb. apply Hfresh in Hb.
      apply Hb, elem_of_union_l, elem_of_singleton. reflexivity.
    + intros i Hi. simpl in Hi. apply elem_of_cons in Hi as [->|Hi]; [exact E|].
      apply Hfresh in Hi. intros Hs. now apply Hi, elem_of_union_r.
Qed.

Lemma found_authors_items u h :
  Forall (found_author u) (found_authors u h) /\
  NoDup (author_ids (found_authors u h)).
Proof.
  unfold found_authors.
  destruct (Re.search (Re.author_section u) h) as [m|];
    [|split; constructor].
  destruct (authors_from_items u ∅
              (Re.finditer (Re.author_anchor_lazy u) (Re.group 1 m))
              (finditer_groups _ _)) as (Hf & Hnd & _).
  now split.
Qed.

Lemma key_le_name u (a b : Author) :
  key_le (name_key u) a b <-> name_le u a b.
Proof.
  unfold key_le, name_le, name_key, lower_of. split.
  - intros (ka & kb & Ha & Hb & Hle).
    destruct (author_name a), (author_name b); try discriminate.
    inversion Ha; inversion Hb; subst. exact Hle.
  - destruct (author_name a) as [x|], (author_name b) as [y|]; try tauto.
    intros H. now exists (lower u x), (lower u y).
Qed.

Lemma list_sort_name_sorted u (l l' : list Author) :
  list_sort (name_key u) l = Ok l' ->
  Permutation l l' /\ StronglySorted (name_le u) l'.
Proof.
  intros H. apply list_sort_ok in H as [Hp Hs]. split; [exact Hp|].
  clear Hp. induction Hs as [|a l'' Hs IH Ha]; [constructor|].
  constructor; [exact IH|].
  eapply Forall_impl; [exact Ha|]. intros b. apply key_le_name.
Qed.

(** A request raises what [get] raises and is not an
    [httpx.HTTPError]. *)
Lemma requested_raise env t url e :
  requested env t url = Raise e <-> refused env t url = Some e.
Proof.
  unfold requested, refused. destruct (network env t url) as [r|e'].
  - split; discriminate.
  - destruct (is_HTTPError e'); [split; discriminate|].
    split; intros H; inversion H; reflexivity.
Qed.

Lemma mapped_raise {A B} (f : A -> B) (o : outcome A) e :
  mapped f o = Raise e <-> o = Raise e.
Proof.
  destruct o; simpl; [split; discriminate|].
  split; intros H; inversion H; reflexivity.
Qed.

(** The requests of the HTML bibliography and what it raises. *)
Lemma _http_get_author_books_requests env author t :
  exists o evs,
    _http_get_author_books env author t =
      (o, t ++ EvGet (alphabet_url author) :: evs) /\
    (evs = [] \/ evs = [EvGet (plain_url author)]) /\
    (forall e,
        o = Raise e <->
        refused env t (alphabet_url author) = Some e \/
        (evs = [EvGet (plain_url author)] /\
         refused env (t ++ [EvGet (alphabet_url author)]) (plain_url author)
           = Some e)).
Proof.
  rewrite _http_get_author_books_run.
  destruct (requested env t (alphabet_url author)) as [first|e1] eqn:E1.
  - assert (Hn : forall e, refused env t (alphabet_url author) <> Some e).
    { intros e He. apply requested_raise in He. congruence. }
    destruct (blank first).
    + eexists _, _. rewrite <- app_assoc. split; [reflexivity|].
      split; [now right|]. intros e. rewrite mapped_raise, requested_raise.
      split; [intros H; right; now split|].
      intros [H|[_ H]]; [now apply Hn in H | exact H].
    + eexists _, _. split; [reflexivity|]. split; [now left|].
      intros e. split; [discriminate|].
      intros [H|[H _]]; [now apply Hn in H | discriminate].
  - eexists _, _. split; [reflexivity|]. split; [now left|].
    intros e. rewrite <- requested_raise, E1.
    split; [intros H; left; now inversion H|].
    intros [H|[H _]]; [now inversion H | discriminate].
Qed.

(** X3. An operation of the HTML adapter raises exactly what [get]
    raises for one of its requests and is not an [httpx.HTTPError]
    (httpx raises [InvalidURL] for a URL with a control character in it);
    its parsing raises nothing. The two searches send exactly one
    request, and the bibliography sends the request for the alphabetical
    page and at most one more, for the plain page of the author. *)
Theorem X3_html_adapter_outcomes (env : Env) (t : Trace) :
  (forall query page,
      exists o,
        _http_search_books env query page t =
          (o, t ++ [EvGet (book_search_url query page)]) /\
        (forall e,
            o = Raise e <->
            refused env t (book_search_url query page) = Some e)) /\
  (forall query,
      exists o,
        _http_search_authors env query t =
          (o, t ++ [EvGet (author_search_url query)]) /\
        (forall e,
            o = Raise e <->
            refused env t (author_search_url query) = Some e)) /\
  (forall author,
      exists o evs,
        _http_get_author_books env author t =
          (o, t ++ EvGet (alphabet_url author) :: evs) /\
        (evs = [] \/ evs = [EvGet (plain_url author)]) /\
        (forall e,
            o = Raise e <->
            refused env t (alphabet_url author) = Some e \/
            (evs = [EvGet (plain_url author)] /\
             refused env (t ++ [EvGet (alphabet_url author)])
               (plain_url author) = Some e))).
Proof.
  split; [|split].
  - intros query page. rewrite _http_search_books_run.
    eexists. split; [reflexivity|]. intros e.
    now rewrite mapped_raise, requested_raise.
  - intros query. rewrite _http_search_authors_run.
    eexists. split; [reflexivity|]. intros e.
    now rewrite mapped_raise, requested_raise.
  - intros author. apply _http_get_author_books_requests.
Qed.

(** An author id with a tabulation in it: httpx rejects the URL, and the
    bibliography raises [InvalidURL]. *)
Lemma X3_html_adapter_outcomes_witness :
  _http_get_author_books env_strict ("1" +:+ tab) [] =
    (Raise InvalidURL, [EvGet (alphabet_url ("1" +:+ tab))]).
Proof.
  destruct (proj2 (proj2 (X3_html_adapter_outcomes env_strict []))
              ("1" +:+ tab)) as (o & evs & Hrun & Hevs & Hraise).
  rewrite Hrun.
  assert (Ho : o = Raise InvalidURL).
  { apply Hraise. left. vm_compute. reflexivity. }
  subst o. destruct Hevs as [-> | ->]; [reflexivity|].
  exfalso. vm_compute in Hrun. discriminate.
Defined.

(** X4. Every item of a result of the HTML book search comes from a line
    of the fetched text that does not contain [/s/]; its id is a numeral,
    its title is not empty, its download links are the three conventional
    ones for its id, and it has no author or one author with a numeral id
    and a name that is not empty. *)
Theorem X4_html_search_items (env : Env) (query : string) (page : Z)
    (t : Trace) (body : string) (res : SearchResult Book) (t' : Trace) :
  fetched env t (book_search_url query page) = Some body ->
  _http_search_books env query page t = (Ok (Some res), t') ->
  Forall (search_item (unicode env)) (items res) /\
  Forall (fun b =>
            exists line,
              line ∈ Py.split "010" body /\
              Py.contains "/s/" line = false /\
              book_of_line (unicode env) line = Some b)
    (items res).
Proof.
  intros Hf Hrun. apply _http_search_books_inv in Hrun as (body' & Hf' & Hp).
  rewrite Hf in Hf'. inversion Hf'; subst body'.
  apply books_page_items in Hp as [Hperm _]. split.
  - eapply Permutation_Forall; [exact Hperm | apply unique_books_items].
  - eapply Permutation_Forall; [exact Hperm|].
    apply Forall_forall. intros b Hb. apply unique_from_incl in Hb.
    unfold extracted_books in Hb.
    apply list_elem_of_omap in Hb as (line & Hl & Hb).
    exists line. split; [exact Hl|]. split; [|exact Hb].
    unfold book_of_line in Hb.
    destruct (Py.contains "/s/" line); [discriminate | reflexivity].
Qed.

(** The sample page: three items, each with the three links of its id. *)
Lemma X4_html_search_items_witness :
  exists res t',
    _http_search_books env_html "x" 0 [] = (Ok (Some res), t') /\
    List.length (items res) = 3%nat /\
    Forall (search_item Basic.unicode) (items res).
Proof.
  set (run := _http_search_books env_html "x" 0 []).
  set (res := match fst run with
              | Ok (Some r) => r
              | _ => new_SearchResult [] false EmptyString
              end).
  exists res, (snd run). split; [vm_compute; reflexivity|].
  split; [vm_compute; reflexivity|].
  apply (X4_html_search_items env_html "x" 0 [] sample_page res (snd run));
    vm_compute; reflexivity.
Defined.

(** X5. Every item of a result of the HTML bibliography of an author has
    a numeral id, a title that is not empty and is not, in lower case, one
    of the action labels, the three conventional download links, and the
    one author it was asked for, with an empty name. The items are in the
    order of their lower-cased titles and [has_more] is false. *)
Theorem X5_html_bibliography_items (env : Env) (author : string) (t : Trace)
    (res : SearchResult Book) (t' : Trace) :
  _http_get_author_books env author t = (Ok (Some res), t') ->
  Forall (bibliography_item (unicode env) author) (items res) /\
  StronglySorted (title_le (unicode env)) (items res) /\
  has_more res = false.
Proof.
  intros H. apply _http_get_author_books_inv in H as [h Hp].
  unfold author_books_page in Hp.
  destruct (list_sort (title_key _) _) as [sorted|] eqn:E; [|discriminate].
  inversion Hp; subst; simpl.
  apply list_sort_title_sorted in E as [Hperm Hs].
  split; [|split; [exact Hs | reflexivity]].
  eapply Permutation_Forall; [exact Hperm|].
  apply author_books_from_items, finditer_groups.
Qed.

(** The sample page read as the page of author 12. *)
Lemma X5_html_bibliography_items_witness :
  exists res t',
    _http_get_author_books env_html "12" [] = (Ok (Some res), t') /\
    book_ids (items res) = ["3"; "5"; "7"] /\
    Forall (bibliography_item Basic.unicode "12") (items res).
Proof.
  set (run := _http_get_author_books env_html "12" []).
  set (res := match fst run with
              | Ok (Some r) => r
              | _ => new_SearchResult [] false EmptyString
              end).
  exists res, (snd run). split; [vm_compute; reflexivity|].
  split; [vm_compute; reflexivity|].
  apply (X5_html_bibliography_items env_html "12" [] res (snd run)).
  vm_compute. reflexivity.
Defined.

(** X6. Every item of a result of the HTML author search has a numeral
    id, a name that is not empty, and the locator [/a/] followed by its
    id; the ids are pairwise distinct, the items are in the order of their
    lower-cased names, [has_more] is false and the source is [http]. *)
Theorem X6_html_author_items (env : Env) (query : string) (t : Trace)
    (res : SearchResult Author) (t' : Trace) :
  _http_search_authors env query t = (Ok (Some res), t') ->
  Forall (found_author (unicode env)) (items res) /\
  NoDup (author_ids (items res)) /\
  StronglySorted (name_le (unicode env)) (items res) /\
  has_more res = false /\ source res = "http".
Proof.
  intros H. apply _http_search_authors_ok in H as [Hr _]. symmetry in Hr.
  apply page_result_some in Hr as (h & _ & _ & Hr).
  unfold authors_of_page in Hr.
  destruct (list_sort (name_key _) (found_authors _ h)) as [sorted|] eqn:E;
    [|discriminate].
  inversion Hr; subst; simpl.
  apply list_sort_name_sorted in E as [Hperm Hs].
  destruct (found_authors_items (unicode env) h) as [Hf Hnd].
  split; [eapply Permutation_Forall; [exact Hperm | exact Hf]|].
  split; [|split; [exact Hs | split; reflexivity]].
  assert (Hids : Permutation (author_ids (found_authors (unicode env) h))
                   (author_ids sorted))
    by (unfold author_ids; now apply Permutation_map).
  now rewrite <- Hids.
Qed.

(** The sample page of writers. *)
Lemma X6_html_author_items_witness :
  exists res t',
    _http_search_authors env_html_authors "x" [] = (Ok (Some res), t') /\
    author_ids (items res) = ["1"; "2"] /\
    NoDup (author_ids (items res)).
Proof.
  set (run := _http_search_authors env_html_authors "x" []).
  set (res := match fst run with
              | Ok (Some r) => r
              | _ => new_SearchResult [] false EmptyString
              end).
  exists res, (snd run). split; [vm_compute; reflexivity|].
  split; [vm_compute; reflexivity|].
  apply (X6_html_author_items env_html_authors "x" [] res (snd run)).
  vm_compute. reflexivity.
Defined.

(** X7. The HTML bibliography asks for the plain page of the author
    exactly when the alphabetical page fails or is empty. With a usable
    alphabetical page it sends one request and returns a result; otherwise
    it sends the two requests, and returns [None] exactly when the plain
    page fails or is empty too. *)
Theorem X7_bibliography_second_attempt (env : Env) (author : string)
    (t : Trace) (r : option (SearchResult Book)) (t' : Trace) :
  _http_get_author_books env author t = (Ok r, t') ->
  (blank (fetched env t (alphabet_url author)) = false ->
   t' = t ++ [EvGet (alphabet_url author)] /\ r <> None) /\
  (blank (fetched env t (alphabet_url author)) = true ->
   t' = t ++ [EvGet (alphabet_url author); EvGet (plain_url author)] /\
   (r = None <->
    blank (fetched env (t ++ [EvGet (alphabet_url author)]) (plain_url author))
    = true)).
Proof.
  intros H. apply _http_get_author_books_ok in H.
  destruct (blank (fetched env t (alphabet_url author))) eqn:E;
    destruct H as [-> ->];
    (split; [intros Hb; try discriminate | intros Hb; try discriminate]).
  - rewrite <- app_assoc. split; [reflexivity|].
    destruct (fetched env (t ++ [EvGet (alphabet_url author)])
                (plain_url author)) as [h|]; [|split; reflexivity].
    unfold blank. simpl. destruct (Py.truthy h); simpl.
    + destruct (author_books_page_some (unicode env) author h)
        as (sorted & _ & ->).
      split; discriminate.
    + split; reflexivity.
  - split; [reflexivity|].
    destruct (fetched env t (alphabet_url author)) as [h|]; [|discriminate].
    unfold blank in E. simpl in E |- *. apply negb_false_iff in E.
    rewrite E.
    destruct (author_books_page_some (unicode env) author h)
      as (sorted & _ & ->).
    discriminate.
Qed.

(** A server without alphabetical pages: the second attempt gives the
    books. *)
Lemma X7_bibliography_second_attempt_witness :
  exists res,
    _http_get_author_books env_no_alphabet "12" [] =
      (Ok (Some res),
       [EvGet "http://flibusta.is/a/12/alphabet";
        EvGet "http://flibusta.is/a/12"]).
Proof.
  set (run := _http_get_author_books env_no_alphabet "12" []).
  destruct (X7_bibliography_second_attempt env_no_alphabet "12" []
              (match fst run with Ok r => r | Raise _ => None end) (snd run))
    as [_ H]; [vm_compute; reflexivity|].
  destruct H as [Ht _]; [vm_compute; reflexivity|].
  eexists. vm_compute. reflexivity.
Defined.

(** ** The items of the feed adapter *)

(** What a loop collected comes from the elements it went through. *)
Lemma collect_inv {A B} (f : A -> outcome (option B)) l ys :
  collect f l = Ok ys ->
  Forall (fun y => exists x, x ∈ l /\ f x = Ok (Some y)) ys.
Proof.
  revert ys. induction l as [|x l IH]; simpl; intros ys.
  - intros H; inversion H; subst. constructor.
  - destruct (f x) as [o|e] eqn:E; [|discriminate].
    destruct (collect f l) as [zs|e]; [|discriminate].
    intros H; inversion H; subst; clear H.
    assert (Hz : Forall (fun y => exists x', x' ∈ x :: l /\ f x' = Ok (Some y))
                   zs).
    { eapply Forall_impl; [exact (IH zs eq_refl)|].
      intros y (x' & Hx & Hf). exists x'. split; [now right | exact Hf]. }
    destruct o as [y|]; [|exact Hz].
    constructor; [|exact Hz]. exists x. split; [left | exact E].
Qed.

Lemma download_link_of_link env link d :
  download_link_of env link = Ok (Some d) -> feed_link d.
Proof.
  unfold download_link_of, feed_link.
  destruct (Py.contains "acquisition" _); [|discriminate].
  destruct (Py.contains "text/html" (ET.get_or_empty link "type")) eqn:E;
    [discriminate|].
  destruct (if Py.startswith _ _ then _ else _) as [url|e]; [|discriminate].
  intros H; inversion H; subst; simpl. now split.
Qed.

Lemma _opds_parse_download_links_links env entry links :
  _opds_parse_download_links env entry = Ok links -> Forall feed_link links.
Proof.
  intros H. apply collect_inv in H.
  eapply Forall_impl; [exact H|].
  intros d (link & _ & Hl). now apply download_link_of_link in Hl.
Qed.

Lemma first_some_inv {A B} (f : A -> option B) l y :
  first_some f l = Some y -> exists x, x ∈ l /\ f x = Some y.
Proof.
  induction l as [|x l IH]; simpl; [discriminate|].
  destruct (f x) as [y'|] eqn:E.
  - intros H; inversion H; subst. exists x. split; [left | exact E].
  - intros H. destruct (IH H) as (x' & Hx & Hf).
    exists x'. split; [now right | exact Hf].
Qed.

(** The id that a feed parser reads off a link is a numeral. *)
Lemma path_id_numeral u kind href m :
  Re.search (Re.path_id u kind) href = Some m -> numeral u (Re.group 1 m).
Proof.
  intros H. apply search_groups in H. simpl in H.
  inversion H as [|s g l l' [Hd Hn] H']; subst. inversion H'; subst.
  split; [now apply Hn | exact Hd].
Qed.

Lemma first_path_id u kind (links : list ET.Element) :
  let id :=
    default EmptyString
      (first_some
         (fun link =>
            match Re.search (Re.path_id u kind)
                    (ET.get_or_empty link "href") with
            | Some m => Some (Re.group 1 m)
            | None => None
            end) links) in
  id = EmptyString \/ numeral u id.
Proof.
  simpl. destruct (first_some _ links) as [i|] eqn:E; [|now left].
  right. simpl. apply first_some_inv in E as (link & _ & Hl).
  destruct (Re.search _ _) as [m|] eqn:Em; [|discriminate].
  inversion Hl; subst. now apply path_id_numeral in Em.
Qed.

Lemma entry_books_items env root books :
  entry_books env root = Ok books ->
  Forall (fun b => download_links b <> [] /\
                   Forall feed_link (download_links b) /\
                   (book_id b = EmptyString \/
                    numeral (unicode env) (book_id b)))
    books.
Proof.
  intros H. apply collect_inv in H.
  eapply Forall_impl; [exact H|].
  intros b (entry & _ & Hb). unfold book_of_entry, _opds_parse_book in Hb.
  destruct (_opds_parse_download_links env entry) as [links|e] eqn:El;
    [|discriminate].
  cbn [download_links new_Book] in Hb.
  destruct links as [|d links]; [discriminate|].
  inversion Hb; subst; clear Hb. cbn [download_links book_id new_Book].
  split; [discriminate|]. split.
  - now apply _opds_parse_download_links_links in El.
  - apply (first_path_id (unicode env) "b").
Qed.

(** A sort that returns found a key for every item. *)
Lemma list_sort_keys {A} (key : A -> outcome string) l l' :
  list_sort key l = Ok l' -> Forall (fun x => exists k, key x = Ok k) l'.
Proof.
  unfold list_sort. destruct (sort_keys key l) as [ks|] eqn:E; [|discriminate].
  intros H; inversion H; subst; clear H.
  apply sort_keys_ok in E as [_ Hf].
  assert (Hf' : Forall (fun p => key (snd p) = Ok (fst p)) (stable_sort ks))
    by (eapply Permutation_Forall; [apply stable_sort_perm | exact Hf]).
  induction Hf' as [|p ps Hp _ IH]; simpl; [constructor|].
  constructor; [eexists; exact Hp | exact IH].
Qed.

Lemma feed_books_result env root more res :
  feed_books env root more = Ok (Some res) ->
  Forall (feed_item (unicode env)) (items res) /\
  StronglySorted (title_le (unicode env)) (items res) /\
  has_more res = more /\ source res = "opds".
Proof.
  intros H.
  assert (Hk : Forall (fun b => exists k, title_key (unicode env) b = Ok k)
                 (items res)).
  { unfold feed_books, parse_guard in H.
    destruct (entry_books env root) as [books|e];
      [|destruct (is_ParseError e); discriminate].
    destruct (list_sort _ books) as [sorted|e] eqn:E;
      [|destruct (is_ParseError e); discriminate].
    inversion H; subst. simpl. now apply list_sort_keys in E. }
  apply feed_books_items in H as (books & Hb & Hperm & Hs & Hm & Hsrc).
  split; [|now repeat split].
  pose proof (Permutation_Forall Hperm (entry_books_items env root books Hb))
    as Hf.
  rewrite Forall_forall in *. intros b Hin.
  destruct (Hf b Hin) as (Hl & Hfl & Hid). destruct (Hk b Hin) as [k Hkey].
  unfold feed_item. repeat split; try assumption.
  unfold title_key, lower_of in Hkey.
  destruct (book_title b); [discriminate | discriminate].
Qed.

Lemma parse_guard_some {A} (o : outcome (option A)) res :
  parse_guard o = Ok (Some res) -> o = Ok (Some res).
Proof.
  destruct o as [r|e]; [easy|]. simpl. destruct (is_ParseError e); discriminate.
Qed.

Lemma feed_result_some {A} env (parse : ET.Element -> outcome (option A))
    o res :
  feed_result env parse o = Ok (Some res) ->
  exists x root,
    o = Some x /\ x <> EmptyString /\ fromstring env x = Some root /\
    parse root = Ok (Some res).
Proof.
  unfold feed_result. destruct o as [x|]; [|discriminate].
  destruct x as [|a x]; [discriminate|]. simpl.
  destruct (fromstring env _) as [root|] eqn:E; [|discriminate].
  intros H. now exists (String a x), root.
Qed.

(** A result of the feed bibliography is what [feed_books] makes of some
    document. *)
Lemma _opds_get_author_books_inv env a t res t' :
  _opds_get_author_books env a t = (Ok (Some res), t') ->
  exists root, feed_books env root false = Ok (Some res).
Proof.
  rewrite _opds_get_author_books_run.
  destruct (requested env t (feed_author_url a)) as [[x|]|e];
    [|discriminate|discriminate].
  destruct (Py.truthy x); [|discriminate].
  destruct (fromstring env x) as [root|]; [|discriminate].
  destruct (Py.truthy_opt (alphabet_target env root)).
  - destruct (resolved env _) as [listing_url|e]; intros H;
      injection H as H _;
      [|simpl in H; destruct (is_ParseError e); discriminate].
    apply parse_guard_some in H.
    destruct (requested env _ listing_url) as [o|e]; [|discriminate].
    simpl in H. apply feed_result_some in H as (y & root' & _ & _ & _ & H).
    now exists root'.
  - intros H. injection H as H _. now exists root.
Qed.

(** X8. Every item of a result of books of the feed adapter (book search,
    bibliography) has at least one download link; none of its links has a
    MIME type that contains [text/html], and each has the format of its
    MIME type; its id is empty or a numeral, and its title is present. So
    an entry whose acquisition links are all of the viewer type gives no
    item. The bibliography is in the order of the lower-cased titles and
    reports [has_more] false. *)
Theorem X8_feed_book_items (env : Env) (t : Trace) :
  (forall query page res t',
      _opds_search_books env query page t = (Ok (Some res), t') ->
      Forall (feed_item (unicode env)) (items res)) /\
  (forall author res t',
      _opds_get_author_books env author t = (Ok (Some res), t') ->
      Forall (feed_item (unicode env)) (items res) /\
      StronglySorted (title_le (unicode env)) (items res) /\
      has_more res = false /\ source res = "opds").
Proof.
  split.
  - intros query page res t' H.
    apply _opds_search_books_inv in H as (body & root & _ & _ & H).
    now apply feed_books_result in H.
  - intros author res t' H.
    apply _opds_get_author_books_inv in H as (root & H).
    now apply feed_books_result in H.
Qed.

(** The sample feed through the feed book search. *)
Lemma X8_feed_book_items_witness :
  exists res t',
    _opds_search_books (env_feed sample_feed) "x" 0 [] = (Ok (Some res), t') /\
    book_ids (items res) = ["3"; "5"; "7"] /\
    Forall (feed_item Basic.unicode) (items res).
Proof.
  set (run := _opds_search_books (env_feed sample_feed) "x" 0 []).
  set (res := match fst run with
              | Ok (Some r) => r
              | _ => new_SearchResult [] false EmptyString
              end).
  exists res, (snd run). split; [vm_compute; reflexivity|].
  split; [vm_compute; reflexivity|].
  apply (proj1 (X8_feed_book_items (env_feed sample_feed) []) "x" 0 res
           (snd run)).
  vm_compute. reflexivity.
Defined.

Lemma findall_elem root name link :
  link ∈ ET.findall root name <->
  link ∈ ET.children root /\ ET.tag link = name.
Proof.
  unfold ET.findall. rewrite !list_elem_of_In, filter_In.
  split; intros [H1 H2]; (split; [exact H1|]); now apply String.eqb_eq.
Qed.

(** X9. The [has_more] flag of the feed book search is structural: it is
    true exactly when the parsed document has, among its children, a link
    element whose relation is [next]. *)
Theorem X9_feed_has_more_is_next_link (env : Env) (query : string) (page : Z)
    (t : Trace) (body : string) (root : ET.Element)
    (res : SearchResult Book) (t' : Trace) :
  fetched env t (feed_search_url query page) = Some body ->
  fromstring env body = Some root ->
  _opds_search_books env query page t = (Ok (Some res), t') ->
  has_more res = true <-> exists link, is_next_link root link.
Proof.
  intros Hf Hr H.
  apply _opds_search_books_inv in H as (body' & root' & Hf' & Hr' & H).
  rewrite Hf in Hf'. inversion Hf'; subst body'.
  rewrite Hr in Hr'. inversion Hr'; subst root'.
  apply feed_books_result in H as (_ & _ & -> & _).
  unfold next_link, is_next_link. rewrite existsb_exists. split.
  - intros (link & Hin & Hrel). exists link.
    apply list_elem_of_In, findall_elem in Hin as [Hc Ht].
    apply bool_decide_eq_true in Hrel. now repeat split.
  - intros (link & Hc & Ht & Hrel). exists link. split.
    + apply list_elem_of_In, findall_elem. now split.
    + now apply bool_decide_eq_true.
Qed.

(** A feed with a link to the next page. *)
Lemma X9_feed_has_more_is_next_link_witness :
  exists res t',
    _opds_search_books env_paged_feed "x" 0 [] = (Ok (Some res), t') /\
    has_more res = true.
Proof.
  set (run := _opds_search_books env_paged_feed "x" 0 []).
  set (res := match fst run with
              | Ok (Some r) => r
              | _ => new_SearchResult [] false EmptyString
              end).
  exists res, (snd run). split; [vm_compute; reflexivity|].
  apply (X9_feed_has_more_is_next_link env_paged_feed "x" 0 []
           paged_feed_text paged_feed_doc res (snd run));
    try (vm_compute; reflexivity).
  eexists. split; [left|]. split; reflexivity.
Defined.

Lemma author_of_entry_item env entry a :
  author_of_entry env entry = Some a -> feed_author (unicode env) a.
Proof.
  unfold author_of_entry.
  destruct (ET.find entry (ET.qname ET.atom_ns "title")) as [title|];
    [|discriminate].
  destruct (Py.truthy_opt (ET.text title)) eqn:Et; [|discriminate].
  intros H; inversion H; subst; clear H. unfold feed_author; simpl.
  split; [apply (first_path_id (unicode env) "author")|]. split; [|reflexivity].
  destruct (ET.text title) as [s|]; [|discriminate].
  exists s. split; [reflexivity | now apply truthy_nonempty].
Qed.

Lemma feed_authors_items env root :
  Forall (feed_author (unicode env)) (feed_authors env root).
Proof.
  apply Forall_forall. intros a Ha. unfold feed_authors in Ha.
  apply list_elem_of_omap in Ha as (entry & _ & He).
  now apply author_of_entry_item in He.
Qed.

Lemma feed_authors_sortable env root :
  exists sorted,
    list_sort (name_key (unicode env)) (feed_authors env root) = Ok sorted.
Proof.
  apply list_sort_total.
  eapply Forall_impl; [apply feed_authors_items|].
  intros a (_ & (s & Hs & _) & _). unfold name_key. rewrite Hs. now eexists.
Qed.

(** The feed author search: its request, what it raises, and where a
    result comes from. *)
Lemma _opds_search_authors_page (env : Env) (query : string) (page : Z)
    (t : Trace) :
  exists o,
    _opds_search_authors env query page t =
      (o, t ++ [EvGet (feed_author_search_url query page)]) /\
    (forall e,
        o = Raise e <->
        refused env t (feed_author_search_url query page) = Some e) /\
    forall res, o = Ok (Some res) ->
      exists root sorted,
        list_sort (name_key (unicode env)) (feed_authors env root)
          = Ok sorted /\
        res = new_SearchResult sorted false "opds".
Proof.
  unfold _opds_search_authors, bind. fold (feed_author_search_url query page).
  rewrite _opds_request_run.
  destruct (requested env t (feed_author_search_url query page))
    as [o|e] eqn:E.
  - assert (Hn : forall (r : option (SearchResult Author)) e,
               Ok r = Raise e <->
               refused env t (feed_author_search_url query page) = Some e).
    { intros r e. rewrite <- requested_raise, E. split; discriminate. }
    destruct o as [x|];
      [|eexists; split; [reflexivity | split; [apply Hn | discriminate]]].
    destruct (Py.truthy x); simpl;
      [|eexists; split; [reflexivity | split; [apply Hn | discriminate]]].
    unfold try_except, bind, lift, ET_fromstring.
    destruct (fromstring env x) as [root|]; simpl;
      [|eexists; split; [reflexivity | split; [apply Hn | discriminate]]].
    fold (name_key (unicode env)). fold (feed_authors env root).
    destruct (feed_authors_sortable env root) as [sorted Es]. rewrite Es.
    simpl. eexists. split; [reflexivity|]. split; [apply Hn|].
    intros res H; inversion H; subst. now exists root, sorted.
  - eexists. split; [reflexivity|]. split; [|discriminate].
    intros e'. rewrite <- requested_raise, E.
    split; intros H; inversion H; reflexivity.
Qed.

(** X10. The feed author search sends one request and raises nothing of
    its own: it raises exactly what [get] raises and is not an
    [httpx.HTTPError], whatever the parser gives; an entry without a title
    text is left out before the names are sorted. Every item of a result
    has a name that is not empty, an id that is empty or a numeral, and
    the locator [/a/] followed by its id; the items are in the order of
    their lower-cased names, [has_more] is false and the source is
    [opds]. *)
Theorem X10_feed_author_search (env : Env) (query : string) (page : Z)
    (t : Trace) :
  exists o,
    _opds_search_authors env query page t =
      (o, t ++ [EvGet (feed_author_search_url query page)]) /\
    (forall e,
        o = Raise e <->
        refused env t (feed_author_search_url query page) = Some e) /\
    forall res, o = Ok (Some res) ->
      Forall (feed_author (unicode env)) (items res) /\
      StronglySorted (name_le (unicode env)) (items res) /\
      has_more res = false /\ source res = "opds".
Proof.
  destruct (_opds_search_authors_page env query page t)
    as (o & Hrun & Hraise & Hr).
  exists o. split; [exact Hrun|]. split; [exact Hraise|].
  intros res H. destruct (Hr res H) as (root & sorted & E & ->). simpl.
  apply list_sort_name_sorted in E as [Hperm Hs].
  split; [|split; [exact Hs | split; reflexivity]].
  eapply Permutation_Forall; [exact Hperm | apply feed_authors_items].
Qed.

(** The feed author search on the feed whose entry has an empty title
    element, the one on which the feed book search raises. *)
Lemma X10_feed_author_search_witness :
  _opds_search_authors (env_feed untitled_feed) "x" 0 [] =
    (Ok (Some (new_SearchResult [] false "opds")),
     [EvGet ("http://flibusta.is/opds/opensearch?searchTerm=x"
             +:+ "&searchType=authors&pageNumber=0")]).
Proof.
  destruct (X10_feed_author_search (env_feed untitled_feed) "x" 0 [])
    as (r & Hrun & _).
  rewrite Hrun. vm_compute in Hrun. inversion Hrun. reflexivity.
Defined.

(** The outer loop keeps the link of the last entry that has one. *)
Lemma alphabet_target_last env root :
  alphabet_target env root = last (alphabet_links env root).
Proof.
  unfold alphabet_target, alphabet_links.
  assert (H : forall l init,
             List.fold_left
               (fun target_url entry =>
                  match alphabet_link env entry with
                  | Some href => Some href
                  | None => target_url
                  end) l init
             = match last (omap (alphabet_link env) l) with
               | Some href => Some href
               | None => init
               end).
  { induction l as [|e l IH]; intros init; [reflexivity|].
    cbn [List.fold_left omap list_omap]. rewrite IH.
    destruct (alphabet_link env e) as [h|]; [|reflexivity].
    rewrite last_cons. now destruct (last (omap (alphabet_link env) l)). }
  rewrite H. now destruct (last _).
Qed.

(** X11. The feed bibliography, once the page of the author is fetched
    and parsed: the link it follows is the alphabetical link of the last
    entry that has one. Without such a link (or with an empty one) it
    sends no second request and returns the books of the page itself.
    With one, it asks [urljoin] for the address unless the link starts
    with [http]; if [urljoin] raises, so does the bibliography, without a
    second request. Otherwise it sends exactly one more request, to that
    address, and returns the books of that listing, or [None] when the
    second request fails, is empty, or does not parse; an exception of
    [get] that is not an [httpx.HTTPError] passes through it. (An
    exception that passes is any but a [ParseError], which the adapter
    turns into [None].) *)
Theorem X11_feed_bibliography_follows_link (env : Env) (author : string)
    (t : Trace) (body : string) (root : ET.Element) :
  fetched env t (feed_author_url author) = Some body ->
  body <> EmptyString ->
  fromstring env body = Some root ->
  alphabet_target env root = last (alphabet_links env root) /\
  (blank (alphabet_target env root) = true ->
   _opds_get_author_books env author t =
     (feed_books env root false, t ++ [EvGet (feed_author_url author)])) /\
  (forall href,
      alphabet_target env root = Some href -> href <> EmptyString ->
      let t1 := t ++ [EvGet (feed_author_url author)] in
      (forall e,
          resolved env href = Raise e ->
          _opds_get_author_books env author t =
            (if is_ParseError e then Ok None else Raise e, t1)) /\
      (forall listing_url,
          resolved env href = Ok listing_url ->
          _opds_get_author_books env author t =
            (match requested env t1 listing_url with
             | Ok (Some listing) =>
                 if Py.truthy listing then
                   match fromstring env listing with
                   | Some root' => feed_books env root' false
                   | None => Ok None
                   end
                 else Ok None
             | Ok None => Ok None
             | Raise e => if is_ParseError e then Ok None else Raise e
             end,
             t ++ [EvGet (feed_author_url author); EvGet listing_url]))).
Proof.
  intros Hf Hb Hr. split; [apply alphabet_target_last|].
  rewrite _opds_get_author_books_run, (fetched_requested _ _ _ _ Hf), Hr.
  destruct body as [|a body]; [congruence|]. cbn [Py.truthy].
  split.
  - intros Hblank. unfold blank in Hblank. apply negb_true_iff in Hblank.
    now rewrite Hblank.
  - intros href Ht Hne. cbv zeta. rewrite Ht.
    destruct href as [|c href]; [congruence|].
    cbn [Py.truthy_opt Py.truthy default from_option id]. split.
    + intros e ->. reflexivity.
    + intros listing_url ->. rewrite <- app_assoc. cbn [app].
      destruct (requested env _ listing_url) as [[y|]|e];
        [|reflexivity|reflexivity].
      cbn [bound feed_result]. destruct (Py.truthy y); [|reflexivity].
      destruct (fromstring env y) as [root'|]; [|reflexivity].
      unfold feed_books. generalize (match entry_books env root' with
        | Ok books =>
            match list_sort (title_key (unicode env)) books with
            | Ok sorted => Ok (Some (new_SearchResult sorted false "opds"))
            | Raise e => Raise e
            end
        | Raise e => Raise e
        end). intros [r|e]; [reflexivity|].
      destruct e; reflexivity.
Qed.

(** A feed whose entry links to the alphabetical listing: two requests. *)
Lemma X11_feed_bibliography_follows_link_witness :
  exists o,
    _opds_get_author_books (env_feed alphabet_feed) "12" [] =
      (o, [EvGet "http://flibusta.is/opds/author/12";
           EvGet "http://flibusta.is/opds/author/12/alphabet"]).
Proof.
  destruct (X11_feed_bibliography_follows_link (env_feed alphabet_feed) "12"
              [] (feed_text alphabet_feed) (feed_doc alphabet_feed))
    as (_ & _ & H); [reflexivity | discriminate | reflexivity |].
  destruct (H "/opds/author/12/alphabet") as [_ H'];
    [vm_compute; reflexivity | discriminate |].
  rewrite (H' "http://flibusta.is/opds/author/12/alphabet");
    [|vm_compute; reflexivity].
  eexists. reflexivity.
Defined.

(** ** Downloads *)

(** X12. [download_book] sends exactly one request. When [get] returns a
    response with a success status (200-299) it returns the bytes of the
    response with a file name that is never empty; for another status, and
    when [get] raises an [httpx.HTTPError], it returns [None]; any other
    exception of [get] passes through it. *)
Theorem X12_download_outcome (env : Env) (url : string) (t : Trace) :
  exists o,
    download_book env url t = (o, t ++ [EvGet url]) /\
    (forall resp,
        network env t url = Ok resp -> 200 <= status_code resp < 300 ->
        exists name,
          o = Ok (Some (content resp, name)) /\ name <> EmptyString) /\
    (forall resp,
        network env t url = Ok resp -> ~ (200 <= status_code resp < 300) ->
        o = Ok None) /\
    (network env t url = Raise HTTPError -> o = Ok None) /\
    (forall e, network env t url = Raise e -> e <> HTTPError -> o = Raise e).
Proof.
  rewrite download_book_run. eexists. split; [reflexivity|].
  split; [|split; [|split]].
  - intros resp -> H. apply success_range in H. rewrite H.
    eexists. split; [reflexivity|]. apply derived_filename_nonempty.
  - intros resp -> H. now rewrite (success_false _ H).
  - now intros ->.
  - intros e -> H. now rewrite (is_HTTPError_false _ H).
Qed.

(** A server that answers 503: no file. A server that sends the file
    without a header, asked for a URL without a slash: the name is not
    empty. *)
Lemma X12_download_outcome_witness :
  download_book (env_feed empty_feed) "http://flibusta.is/b/7/fb2" [] =
    (Ok None, [EvGet "http://flibusta.is/b/7/fb2"]) /\
  exists name,
    download_book (env_download []) EmptyString [] =
      (Ok (Some (file_bytes, name)), [EvGet EmptyString]) /\
    name <> EmptyString.
Proof.
  split.
  - destruct (X12_download_outcome (env_feed empty_feed)
                "http://flibusta.is/b/7/fb2" []) as (o & Hrun & _ & Hnone & _).
    rewrite Hrun. rewrite (Hnone unavailable); [reflexivity | reflexivity|].
    vm_compute. intros [_ H]. discriminate.
  - destruct (X12_download_outcome (env_download []) EmptyString [])
      as (o & Hrun & Hok & _).
    destruct (Hok (mkResponse 200 [] "FictionBook" file_bytes))
      as (name & -> & Hname); [reflexivity | simpl; lia|].
    now exists name.
Defined.

(** ** The public operations when nothing answers *)

Lemma with_fallback_raised {A} (html feed : M (option (SearchResult A)))
    cb t e t' :
  html t = (Raise e, t') -> with_fallback html feed cb t = (Raise e, t').
Proof. intros H. unfold with_fallback, bind at 1. now rewrite H. Qed.

Lemma _opds_get_author_books_absent env a t :
  failed env t (feed_author_url a) ->
  _opds_get_author_books env a t = (Ok None, t ++ [EvGet (feed_author_url a)]).
Proof.
  intros H. now rewrite _opds_get_author_books_run, (requested_failed _ _ _ H).
Qed.

(** X13. When every request fails, by an [httpx.HTTPError] or a status
    that is not a success, each public operation returns [None] and
    raises nothing: the HTML adapter fails, the caller is notified, the
    feed adapter fails, and the trace ends with the request of the feed
    adapter. *)
Theorem X13_total_failure_returns_none (env : Env) (cb : option Callback)
    (t : Trace) :
  (forall t0 url, failed env t0 url) ->
  (forall query page,
      search_books env query page cb t =
        (Ok None,
         after_notice cb (t ++ [EvGet (book_search_url query page)])
         ++ [EvGet (feed_search_url query page)])) /\
  (forall query page,
      search_authors env query page cb t =
        (Ok None,
         after_notice cb (t ++ [EvGet (author_search_url query)])
         ++ [EvGet (feed_author_search_url query page)])) /\
  (forall author page,
      get_author_books env author page cb t =
        (Ok None,
         after_notice cb
           ((t ++ [EvGet (alphabet_url author)]) ++ [EvGet (plain_url author)])
         ++ [EvGet (feed_author_url author)])).
Proof.
  intros Hdown.
  assert (Hreq : forall t0 url, requested env t0 url = Ok None)
    by (intros t0 url; apply requested_failed, Hdown).
  split; [|split].
  - intros query page. rewrite search_books_shape.
    erewrite with_fallback_taken;
      [|rewrite _http_search_books_run, Hreq; reflexivity | reflexivity].
    rewrite _opds_search_books_run, Hreq. reflexivity.
  - intros query page. rewrite search_authors_shape.
    erewrite with_fallback_taken;
      [|rewrite _http_search_authors_run, Hreq; reflexivity | reflexivity].
    destruct (_opds_search_authors_run env query page
                (after_notice cb (t ++ [EvGet (author_search_url query)])))
      as (o & Hrun & _).
    rewrite Hrun. f_equal.
    unfold _opds_search_authors, bind in Hrun.
    rewrite _opds_request_run, Hreq in Hrun. now inversion Hrun.
  - intros author page. rewrite get_author_books_shape.
    erewrite with_fallback_taken;
      [|rewrite _http_get_author_books_run, !Hreq; reflexivity | reflexivity].
    apply _opds_get_author_books_absent, Hdown.
Qed.

(** Offline, with a callback that raises. *)
Lemma X13_total_failure_returns_none_witness :
  search_books env_offline "x" 0 (Some failing_callback) [] =
    (Ok None,
     [EvGet "http://flibusta.is/booksearch?ask=x&page=0";
      EvStatus fallback_notice;
      EvGet ("http://flibusta.is/opds/opensearch?searchTerm=x"
             +:+ "&searchType=books&pageNumber=0")]).
Proof.
  rewrite (proj1 (X13_total_failure_returns_none env_offline
                    (Some failing_callback) []
                    (fun _ _ =>
                       or_introl
                         (ex_intro _ HTTPError (conj eq_refl eq_refl))))).
  vm_compute. reflexivity.
Defined.

(** X14. Without a status callback, a search sends its HTML request first
    and then at most one request, the one of the feed adapter; the
    bibliography sends the request for the alphabetical page first and at
    most three more. The two sources are never asked in another order. *)
Theorem X14_requests_in_order (env : Env) (t : Trace) :
  (forall query page,
      exists o evs,
        search_books env query page None t =
          (o, t ++ EvGet (book_search_url query page) :: evs) /\
        (evs = [] \/ evs = [EvGet (feed_search_url query page)])) /\
  (forall query page,
      exists o evs,
        search_authors env query page None t =
          (o, t ++ EvGet (author_search_url query) :: evs) /\
        (evs = [] \/ evs = [EvGet (feed_author_search_url query page)])) /\
  (forall author page,
      exists o evs,
        get_author_books env author page None t =
          (o, t ++ EvGet (alphabet_url author) :: evs) /\
        (List.length evs <= 3)%nat).
Proof.
  split; [|split].
  - intros query page. rewrite search_books_shape.
    destruct (_http_search_books env query page t) as [[r|e] t1] eqn:Hrun.
    + pose proof Hrun as Ht. apply _http_search_books_ok in Ht as [_ ->].
      destruct (productive r) eqn:Ep.
      * erewrite with_fallback_skipped; [|exact Hrun | exact Ep].
        eexists _, []. split; [reflexivity | now left].
      * erewrite with_fallback_taken; [|exact Hrun | exact Ep].
        rewrite _opds_search_books_run. simpl. rewrite <- app_assoc.
        eexists _, _. split; [reflexivity | now right].
    + pose proof Hrun as Ht. rewrite _http_search_books_run in Ht.
      injection Ht as _ <-.
      erewrite with_fallback_raised; [|exact Hrun].
      eexists _, []. split; [reflexivity | now left].
  - intros query page. rewrite search_authors_shape.
    destruct (_http_search_authors env query t) as [[r|e] t1] eqn:Hrun.
    + pose proof Hrun as Ht. apply _http_search_authors_ok in Ht as [_ ->].
      destruct (productive r) eqn:Ep.
      * erewrite with_fallback_skipped; [|exact Hrun | exact Ep].
        eexists _, []. split; [reflexivity | now left].
      * erewrite with_fallback_taken; [|exact Hrun | exact Ep].
        destruct (_opds_search_authors_run env query page
                    (after_notice None
                       (t ++ [EvGet (author_search_url query)])))
          as (o & -> & _).
        simpl. rewrite <- app_assoc.
        eexists _, _. split; [reflexivity | now right].
    + pose proof Hrun as Ht. rewrite _http_search_authors_run in Ht.
      injection Ht as _ <-.
      erewrite with_fallback_raised; [|exact Hrun].
      eexists _, []. split; [reflexivity | now left].
  - intros author page. rewrite get_author_books_shape.
    destruct (_http_get_author_books_requests env author t)
      as (o & evs & Hrun & Hevs & _).
    destruct o as [r|e].
    + destruct (productive r) eqn:Ep.
      * erewrite with_fallback_skipped; [|exact Hrun | exact Ep].
        eexists _, evs. split; [reflexivity|].
        destruct Hevs as [-> | ->]; simpl; lia.
      * erewrite with_fallback_taken; [|exact Hrun | exact Ep].
        destruct (_opds_get_author_books_result env author
                    (after_notice None
                       (t ++ EvGet (alphabet_url author) :: evs)))
          as (o & evs' & Hfeed & Hlen & _).
        rewrite Hfeed. simpl. rewrite <- app_assoc. simpl.
        eexists _, _. split; [reflexivity|].
        rewrite length_app. simpl.
        destruct Hevs as [-> | ->]; simpl; lia.
    + erewrite with_fallback_raised; [|exact Hrun].
      eexists _, evs. split; [reflexivity|].
      destruct Hevs as [-> | ->]; simpl; lia.
Qed.

(** * Properties of the presentation helpers (src/bot.py) *)

(** ** Escaping for MarkdownV2 *)

Lemma escape_step_cons char a s :
  escape_step (String a s) char =
    (if Ascii.eqb a char then String backslash (String a EmptyString)
     else String a EmptyString) +:+ escape_step s char.
Proof.
  unfold escape_step, Py.replace. cbn [Py.replace_go String.prefix].
  destruct (ascii_dec char a) as [->|Hne].
  - rewrite Ascii.eqb_refl. destruct s; reflexivity.
  - destruct (Ascii.eqb_spec a char) as [->|_]; [congruence | reflexivity].
Qed.

Lemma string_app_assoc (x y z : string) :
  (x +:+ y) +:+ z = x +:+ (y +:+ z).
Proof.
  induction x as [|a x IH]; [reflexivity|].
  change (String a ((x +:+ y) +:+ z) = String a (x +:+ (y +:+ z))).
  now rewrite IH.
Qed.

Lemma escape_step_app char x y :
  escape_step (x +:+ y) char = escape_step x char +:+ escape_step y char.
Proof.
  induction x as [|a x IH]; [reflexivity|].
  change (String a x +:+ y) with (String a (x +:+ y)).
  rewrite !escape_step_cons, IH. now rewrite string_app_assoc.
Qed.

Lemma escape_fold_app chars x y :
  fold_left escape_step chars (x +:+ y) =
    fold_left escape_step chars x +:+ fold_left escape_step chars y.
Proof.
  revert x y. induction chars as [|c chars IH]; intros x y; [reflexivity|].
  cbn [fold_left]. now rewrite escape_step_app, IH.
Qed.

Lemma escape_fold_char a :
  fold_left escape_step special_chars (String a EmptyString) =
    if special a then String backslash (String a EmptyString)
    else String a EmptyString.
Proof.
  destruct a as [[] [] [] [] [] [] [] []]; vm_compute; reflexivity.
Qed.

Lemma escape_fold s :
  fold_left escape_step special_chars s = escaped s.
Proof.
  induction s as [|a s IH]; [reflexivity|].
  change (String a s) with (String a EmptyString +:+ s).
  rewrite escape_fold_app, escape_fold_char, IH.
  change (escaped (String a EmptyString +:+ s))
    with (if special a then String backslash (String a (escaped s))
          else String a (escaped s)).
  destruct (special a); reflexivity.
Qed.

(** X15. [escape_md] puts one backslash before every occurrence of the
    eighteen special characters of MarkdownV2 and changes nothing else:
    the replacements made for one character are never touched by those
    made for the next, and a backslash of the text itself is not escaped.
    [None] gives the empty string. *)
Theorem X15_escape_md_escapes_each_special_once (text : option string) :
  escape_md text = escaped (default EmptyString text) /\
  special backslash = false.
Proof.
  split; [|reflexivity].
  unfold escape_md. destruct text as [[|a s]|]; try reflexivity.
  cbn [Py.truthy_opt Py.truthy negb default from_option id].
  apply (escape_fold (String a s)).
Qed.

(** ** Pagination *)

Lemma page_items_rule {A} (l : list A) (page : Z) :
  0 <= page ->
  page_items l page = take 5 (drop (Z.to_nat (5 * page)) l).
Proof.
  intros Hp. unfold page_items, list_slice, slice_index, ITEMS_PER_PAGE.
  set (n := Z.of_nat (List.length l)).
  assert (Hn : 0 <= n) by (unfold n; lia).
  destruct (Z.ltb_spec (page * 5) 0) as [?|_]; [lia|].
  destruct (Z.ltb_spec (Z.min (page * 5 + 5) n) 0) as [?|_]; [lia|].
  destruct (Z.le_gt_cases (page * 5) n) as [Hle|Hgt].
  - replace (Z.to_nat (Z.min (page * 5) n)) with (Z.to_nat (5 * page))
      by lia.
    assert (Hlen : List.length (drop (Z.to_nat (5 * page)) l)
                   = Z.to_nat (n - 5 * page)).
    { rewrite length_drop. unfold n. lia. }
    destruct (Z.le_gt_cases (page * 5 + 5) n) as [Hfull|Hpart].
    + f_equal. lia.
    + rewrite !take_ge; [reflexivity | rewrite Hlen; lia | rewrite Hlen; lia].
  - rewrite (drop_ge l (Z.to_nat (Z.min (page * 5) n)))
      by (fold n; unfold n in *; lia).
    rewrite (drop_ge l (Z.to_nat (5 * page))) by (unfold n in *; lia).
    now rewrite !take_nil.
Qed.

Lemma chunks_cover {A} (m : nat) (l : list A) :
  (List.length l <= 5 * m)%nat ->
  List.concat (List.map (fun k => take 5 (drop (5 * k) l)) (seq 0 m)) = l.
Proof.
  revert l. induction m as [|m IH]; intros l Hl.
  - destruct l; [reflexivity | simpl in Hl; lia].
  - cbn [seq List.map List.concat]. rewrite <- seq_shift, List.map_map.
    replace (5 * 0)%nat with 0%nat by lia. rewrite drop_0.
    rewrite (List.map_ext _ (fun k => take 5 (drop (5 * k) (drop 5 l)))).
    + rewrite IH; [apply take_drop | rewrite length_drop; lia].
    + intros k. rewrite drop_drop. f_equal. f_equal. lia.
Qed.

Lemma total_pages_enough (n : nat) :
  (n <= 5 * Z.to_nat (total_pages (Z.of_nat n)))%nat.
Proof.
  unfold total_pages, ITEMS_PER_PAGE.
  Z.to_euclidean_division_equations; lia.
Qed.

(** X16. Pages cut the list into consecutive runs of five: a page from 0
    shows the up to five items from position [5 * page], and the pages
    0 .. [total_pages - 1] of a list, one after the other, show every item
    of the list exactly once and in order; later pages are empty. *)
Theorem X16_pages_partition_the_list {A : Type} (l : list A) :
  (forall k : nat,
      page_items l (Z.of_nat k) = take 5 (drop (5 * k) l)) /\
  List.concat (List.map (page_items l) (page_numbers (Z.of_nat (List.length l))))
    = l /\
  (forall page, total_pages (Z.of_nat (List.length l)) <= page ->
                page_items l page = []).
Proof.
  split; [|split].
  - intros k. rewrite page_items_rule by lia. do 2 f_equal. lia.
  - unfold page_numbers. rewrite List.map_map.
    rewrite (List.map_ext _ (fun k => take 5 (drop (5 * k) l))).
    + apply chunks_cover, total_pages_enough.
    + intros k. rewrite page_items_rule by lia. do 2 f_equal. lia.
  - intros page Hp.
    pose proof (total_pages_enough (List.length l)) as He.
    assert (H0 : 0 <= total_pages (Z.of_nat (List.length l))).
    { unfold total_pages, ITEMS_PER_PAGE.
      Z.to_euclidean_division_equations; lia. }
    rewrite page_items_rule by lia.
    rewrite drop_ge by lia. apply take_nil.
Qed.

(** Six books make two pages; a third page is empty. *)
Lemma X16_pages_partition_the_list_witness :
  page_numbers 6 = [0; 1] /\
  page_items shelf 0 ++ page_items shelf 1 = shelf /\
  page_items shelf 2 = [].
Proof.
  split; [reflexivity|].
  destruct (X16_pages_partition_the_list shelf) as (_ & Hall & Hlate).
  split.
  - rewrite <- Hall at 3. vm_compute. reflexivity.
  - apply Hlate. vm_compute. discriminate.
Defined.

(** ** The list keyboards *)

Lemma str_len_app x y : str_len (x +:+ y) = (str_len x + str_len y)%nat.
Proof.
  induction x as [|a x IH]; [reflexivity|].
  change (String a x +:+ y) with (String a (x +:+ y)).
  cbn [str_len]. rewrite IH. lia.
Qed.

Lemma str_len_take n s : (str_len (str_take n s) <= n)%nat.
Proof.
  revert n. induction s as [|a s IH]; intros n; [simpl; lia|].
  cbn [str_take]. destruct (continuation a) eqn:Ec.
  - cbn [str_len]. rewrite Ec. apply IH.
  - destruct n as [|k]; [simpl; lia|].
    cbn [str_len]. rewrite Ec. specialize (IH k). lia.
Qed.

Lemma shortened_shown n s :
  exists label, shortened n (Some s) = Ok label /\ shown n s label.
Proof.
  unfold shortened, shown. eexists. split; [reflexivity|].
  destruct (Nat.ltb_spec n (str_len s)) as [Hlt|Hge].
  - split; [|split].
    + rewrite str_len_app. pose proof (str_len_take n s).
      change (str_len "...") with 3%nat. lia.
    + lia.
    + reflexivity.
  - split; [lia | split; [reflexivity | lia]].
Qed.

Lemma rows_of_ok {A} (row : A -> outcome (list InlineKeyboardButton))
    (P : A -> list InlineKeyboardButton -> Prop) l :
  Forall (fun x => exists r, row x = Ok r /\ P x r) l ->
  exists rows, rows_of row l = Ok rows /\ Forall2 P l rows.
Proof.
  induction 1 as [|x l (r & Hr & HP) _ (rows & Hrows & IH)].
  - exists []. split; [reflexivity | constructor].
  - exists (r :: rows). cbn [rows_of]. rewrite Hr, Hrows.
    split; [reflexivity | now constructor].
Qed.

Lemma book_row_item callback_prefix b :
  titled b ->
  exists r, book_row callback_prefix b = Ok r /\
            book_item callback_prefix b r.
Proof.
  unfold titled, book_row, book_item. intros Ht.
  destruct (book_title b) as [title|] eqn:Et; [|congruence].
  destruct (shortened_shown 35 title) as (label & Hl & Hs). rewrite Hl.
  eexists. split.
  - destruct (Py.truthy_opt _); reflexivity.
  - exists title, label. repeat (split; [assumption || reflexivity|]).
    reflexivity.
Qed.

Lemma author_row_item a :
  named a -> exists r, author_row a = Ok r /\ author_item a r.
Proof.
  unfold named, author_row, author_item. intros Hn.
  destruct (author_name a) as [name|] eqn:En; [|congruence].
  destruct (shortened_shown 45 name) as (label & Hl & Hs). rewrite Hl.
  eexists. split; [reflexivity|].
  exists name, label. repeat (split; [assumption || reflexivity|]).
  reflexivity.
Qed.

Lemma pagination_buttons target page total_items :
  0 <= page < total_pages total_items ->
  exists nav,
    pagination target page total_items = nav /\
    Forall (Forall (nav_button target page total_items)) nav /\
    (total_pages total_items <= 1 -> nav = []) /\
    (1 < total_pages total_items ->
     exists row, nav = [row] /\
       (0 < page -> leads_to target (page - 1) row) /\
       (page + 1 < total_pages total_items ->
        leads_to target (page + 1) row)).
Proof.
  intros Hp. eexists. split; [reflexivity|]. unfold pagination.
  destruct (Z.ltb_spec 1 (total_pages total_items)) as [Hmany|Hone].
  - split; [|split; [lia|]].
    + constructor; [|constructor].
      apply Forall_app. split; [|apply Forall_app; split].
      * destruct (Z.ltb_spec 0 page); constructor; [|constructor].
        right. exists (page - 1). split; [lia | split; [now left | reflexivity]].
      * constructor; [now left | constructor].
      * destruct (Z.ltb_spec page (total_pages total_items - 1));
          constructor; [|constructor].
        right. exists (page + 1).
        split; [lia | split; [now right | reflexivity]].
    + intros _. eexists. split; [reflexivity|]. split.
      * intros H0. destruct (Z.ltb_spec 0 page); [|lia].
        eexists. split; [apply list_elem_of_here|]. reflexivity.
      * intros H1.
        destruct (Z.ltb_spec page (total_pages total_items - 1)); [|lia].
        eexists. split.
        { apply elem_of_app. right. apply elem_of_app. right.
          apply list_elem_of_here. }
        reflexivity.
  - split; [constructor | split; [reflexivity | lia]].
Qed.

(** X17. The book list keyboard, when every book of the page has a title
    and the page exists: one row per book of the page in order, labelled
    with the title cut to 35 code points and carrying the book's id; then
    the pagination row, present only if there is more than one page, whose
    buttons lead to the previous and the next page and never outside the
    pages that exist; then the main menu row. *)
Theorem X17_book_list_keyboard (books : list Book) (page total_items : Z)
    (callback_prefix : string) :
  Forall titled (page_items books page) ->
  0 <= page < total_pages total_items ->
  exists rows nav,
    create_book_list_keyboard books page total_items callback_prefix =
      Ok (rows ++ nav ++ [main_menu_row]) /\
    Forall2 (book_item callback_prefix) (page_items books page) rows /\
    (List.length rows <= 5)%nat /\
    Forall (Forall (nav_button ("page:" +:+ callback_prefix +:+ ":")
                      page total_items)) nav /\
    (total_pages total_items <= 1 -> nav = []) /\
    (1 < total_pages total_items ->
     exists row, nav = [row] /\
       (0 < page ->
        leads_to ("page:" +:+ callback_prefix +:+ ":") (page - 1) row) /\
       (page + 1 < total_pages total_items ->
        leads_to ("page:" +:+ callback_prefix +:+ ":") (page + 1) row)).
Proof.
  intros Ht Hp. unfold create_book_list_keyboard.
  destruct (rows_of_ok (book_row callback_prefix)
              (book_item callback_prefix) (page_items books page))
    as (rows & Hrows & Hitems).
  { eapply Forall_impl; [exact Ht|]. intros b. apply book_row_item. }
  destruct (pagination_buttons ("page:" +:+ callback_prefix +:+ ":")
              page total_items Hp) as (nav & Hnav & Hin & Hnone & Hsome).
  rewrite Hrows, Hnav. exists rows, nav.
  split; [reflexivity|]. split; [exact Hitems|]. split.
  - rewrite <- (Forall2_length _ _ _ Hitems).
    rewrite page_items_rule by lia. rewrite length_take. lia.
  - split; [exact Hin|]. split; [exact Hnone | exact Hsome].
Qed.

(** X18. The author list keyboard, when every author of the page has a
    name and the page exists: one row per author of the page in order,
    labelled with the name cut to 45 code points and carrying the author's
    id; then the pagination row as for books; then the main menu row. *)
Theorem X18_author_list_keyboard (authors : list Author)
    (page total_items : Z) :
  Forall named (page_items authors page) ->
  0 <= page < total_pages total_items ->
  exists rows nav,
    create_author_list_keyboard authors page total_items =
      Ok (rows ++ nav ++ [main_menu_row]) /\
    Forall2 author_item (page_items authors page) rows /\
    (List.length rows <= 5)%nat /\
    Forall (Forall (nav_button "page:author:" page total_items)) nav /\
    (total_pages total_items <= 1 -> nav = []) /\
    (1 < total_pages total_items ->
     exists row, nav = [row] /\
       (0 < page -> leads_to "page:author:" (page - 1) row) /\
       (page + 1 < total_pages total_items ->
        leads_to "page:author:" (page + 1) row)).
Proof.
  intros Ht Hp. unfold create_author_list_keyboard.
  destruct (rows_of_ok author_row author_item (page_items authors page))
    as (rows & Hrows & Hitems).
  { eapply Forall_impl; [exact Ht|]. intros a. apply author_row_item. }
  destruct (pagination_buttons "page:author:" page total_items Hp)
    as (nav & Hnav & Hin & Hnone & Hsome).
  rewrite Hrows, Hnav. exists rows, nav.
  split; [reflexivity|]. split; [exact Hitems|]. split.
  - rewrite <- (Forall2_length _ _ _ Hitems).
    rewrite page_items_rule by lia. rewrite length_take. lia.
  - split; [exact Hin|]. split; [exact Hnone | exact Hsome].
Qed.

(** The second of the two pages of six books: one book row, and a
    pagination row that leads back to the first page. *)
Lemma X17_book_list_keyboard_witness :
  exists row nav_row,
    create_book_list_keyboard shelf 1 6 "book" =
      Ok ([row] ++ [nav_row] ++ [main_menu_row]) /\
    book_item "book" (new_Book "6" (Some "Book 6") [] None None
                        (conventional_links "6")) row /\
    leads_to "page:book:" 0 nav_row.
Proof.
  destruct (X17_book_list_keyboard shelf 1 6 "book")
    as (rows & nav & Hk & Hitems & _ & _ & _ & Hsome).
  { vm_compute. constructor; [discriminate | constructor]. }
  { split; [lia | reflexivity]. }
  destruct Hsome as (nav_row & -> & Hback & _); [reflexivity|].
  change (page_items shelf 1)
    with [new_Book "6" (Some "Book 6") [] None None (conventional_links "6")]
    in Hitems.
  inversion Hitems as [|b row bs rs Hrow Hrest]; subst.
  inversion Hrest; subst.
  exists row, nav_row. split; [exact Hk|]. split; [exact Hrow|].
  apply Hback. lia.
Defined.

(** The first of the two pages of six authors: five author rows, and a
    pagination row that leads on to the second page. *)
Lemma X18_author_list_keyboard_witness :
  exists rows nav_row,
    create_author_list_keyboard roster 0 6 =
      Ok (rows ++ [nav_row] ++ [main_menu_row]) /\
    List.length rows = 5%nat /\
    leads_to "page:author:" 1 nav_row.
Proof.
  destruct (X18_author_list_keyboard roster 0 6)
    as (rows & nav & Hk & Hitems & _ & _ & _ & Hsome).
  { vm_compute. repeat (constructor; [discriminate|]). constructor. }
  { split; [lia | reflexivity]. }
  destruct Hsome as (nav_row & -> & _ & Hnext); [reflexivity|].
  exists rows, nav_row. split; [exact Hk|]. split.
  - apply Forall2_length in Hitems. rewrite <- Hitems. reflexivity.
  - apply Hnext. reflexivity.
Defined.

(** ** The details keyboard *)

(** X19. The details keyboard offers the first six download links of the
    book, in their order, three to a row: every row of format buttons but
    the last is full, no row is empty, and a book without links gets no
    such row.  A button carries the book's id and the link's format.  The
    two navigation rows follow. *)
Theorem X19_details_keyboard_rows (upper : string -> string) (book : Book)
    (back_state : string) :
  exists rows,
    create_book_details_keyboard upper book back_state =
      rows ++ [ [mkButton "🔙 К результатам" ("back:" +:+ back_state)];
                main_menu_row ] /\
    List.concat rows =
      List.map (format_button upper book) (take 6 (download_links book)) /\
    Forall (fun row => (1 <= List.length row <= 3)%nat) rows /\
    (forall i row, rows !! i = Some row -> (S i < List.length rows)%nat ->
                   List.length row = 3%nat) /\
    (List.length rows <= 2)%nat.
Proof.
  unfold create_book_details_keyboard.
  destruct (download_links book) as [|l1 [|l2 [|l3 [|l4 [|l5 [|l6 [|l7 l8]]]]]]];
    cbn [take fold_left add_format List.length Nat.leb app List.map];
    match goal with
    | |- exists rows, ?k = _ /\ _ =>
        exists (take (List.length k - 2) k)
    end;
    cbn [take List.length Nat.sub app List.concat List.map];
    (split; [reflexivity|]); (split; [reflexivity|]); split.
  all: try (repeat (apply List.Forall_cons; [cbn [List.length]; lia|]);
            apply List.Forall_nil).
  all: split; [|cbn [List.length]; lia].
  all: intros [|[|i]] row Hrow Hi; cbn [List.length] in Hi; try lia.
  all: cbn in Hrow; inversion Hrow; reflexivity.
Qed.

(** A book of the HTML adapter has the three conventional links, which
    fill one row. *)
Lemma X19_details_keyboard_rows_witness :
  exists row,
    create_book_details_keyboard ascii_upper
      (new_Book "6" (Some "Book 6") [] None None (conventional_links "6"))
      "results" =
      [ row; [mkButton "🔙 К результатам" "back:results"]; main_menu_row ] /\
    List.map callback_data row = ["dl:6:fb2"; "dl:6:epub"; "dl:6:mobi"] /\
    List.map button_text row = ["📥 FB2"; "📥 EPUB"; "📥 MOBI"].
Proof.
  destruct (X19_details_keyboard_rows ascii_upper
              (new_Book "6" (Some "Book 6") [] None None
                 (conventional_links "6")) "results")
    as (rows & Hk & Hc & Hrows & _ & Hlen).
  destruct rows as [|row [|row' rows]].
  - vm_compute in Hc. discriminate.
  - exists row. split; [exact Hk|].
    cbn [List.concat] in Hc. rewrite app_nil_r in Hc. rewrite Hc.
    split; vm_compute; reflexivity.
  - exfalso. apply (f_equal (@List.length _)) in Hk.
    rewrite length_app in Hk. vm_compute in Hk.
    cbn [List.length] in Hlen.
    destruct rows; [|simpl in Hlen; lia].
    simpl in Hk. discriminate.
Defined.

(** ** From the client's results to the keyboards *)

Lemma with_fallback_result {A} (html feed : M (option (SearchResult A)))
    cb t res t' :
  with_fallback html feed cb t = (Ok (Some res), t') ->
  (exists t1, html t = (Ok (Some res), t1)) \/
  (exists t0, feed t0 = (Ok (Some res), t')).
Proof.
  intros H. destruct (html t) as [[r|e] t1] eqn:Eh.
  - destruct (productive r) eqn:Ep.
    + rewrite (with_fallback_skipped html feed cb t r t1 Eh Ep) in H.
      inversion H; subst. left. now exists t'.
    + rewrite (with_fallback_taken html feed cb t r t1 Eh Ep) in H.
      right. exists (after_notice cb t1). exact H.
  - unfold with_fallback, bind in H. rewrite Eh in H. discriminate.
Qed.

Lemma page_items_Forall {A} (P : A -> Prop) (l : list A) page :
  Forall P l -> Forall P (page_items l page).
Proof.
  intros H. unfold page_items, list_slice.
  now apply Forall_take, Forall_drop.
Qed.

Lemma search_books_titled env query page cb t res t' :
  search_books env query page cb t = (Ok (Some res), t') ->
  Forall titled (items res).
Proof.
  rewrite search_books_shape. intros H.
  apply with_fallback_result in H as [[t1 H]|[t0 H]].
  - apply _http_search_books_inv in H as (body & _ & Hp).
    apply books_page_items in Hp as [Hperm _].
    eapply Permutation_Forall; [exact Hperm|].
    eapply Forall_impl; [apply (unique_books_items (unicode env))|].
    intros b (_ & (s & Hs & _) & _). unfold titled. congruence.
  - apply _opds_search_books_inv in H as (body & root & _ & _ & H).
    apply feed_books_result in H as [H _].
    eapply Forall_impl; [exact H|]. now intros b (_ & _ & _ & Hb).
Qed.

Lemma get_author_books_titled env author page cb t res t' :
  get_author_books env author page cb t = (Ok (Some res), t') ->
  Forall titled (items res).
Proof.
  rewrite get_author_books_shape. intros H.
  apply with_fallback_result in H as [[t1 H]|[t0 H]].
  - apply _http_get_author_books_inv in H as [h Hp].
    unfold author_books_page in Hp.
    destruct (list_sort (title_key _) _) as [sorted|] eqn:E; [|discriminate].
    inversion Hp; subst; simpl.
    apply list_sort_title_sorted in E as [Hperm _].
    eapply Permutation_Forall; [exact Hperm|].
    eapply Forall_impl;
      [apply (author_books_from_items (unicode env) author),
         finditer_groups|].
    intros b (_ & (s & Hs & _) & _). unfold titled. congruence.
  - apply _opds_get_author_books_inv in H as (root & H).
    apply feed_books_result in H as [H _].
    eapply Forall_impl; [exact H|]. now intros b (_ & _ & _ & Hb).
Qed.

Lemma search_authors_named env query page cb t res t' :
  search_authors env query page cb t = (Ok (Some res), t') ->
  Forall named (items res).
Proof.
  rewrite search_authors_shape. intros H.
  apply with_fallback_result in H as [[t1 H]|[t0 H]].
  - apply _http_search_authors_ok in H as [Hr _]. symmetry in Hr.
    apply page_result_some in Hr as (h & _ & _ & Hr).
    unfold authors_of_page in Hr.
    destruct (list_sort (name_key _) (found_authors _ h)) as [sorted|] eqn:E;
      [|discriminate].
    inversion Hr; subst; simpl.
    apply list_sort_name_sorted in E as [Hperm _].
    eapply Permutation_Forall; [exact Hperm|].
    eapply Forall_impl; [apply (found_authors_items (unicode env))|].
    intros a (_ & (s & Hs & _) & _). unfold named. congruence.
  - destruct (_opds_search_authors_page env query page t0)
      as (o & Hrun & _ & Hr).
    rewrite Hrun in H. inversion H; subst.
    destruct (Hr res eq_refl) as (root & sorted & E & ->). simpl.
    apply list_sort_name_sorted in E as [Hperm _].
    eapply Permutation_Forall; [exact Hperm|].
    eapply Forall_impl; [apply feed_authors_items|].
    intros a (_ & (s & Hs & _) & _). unfold named. congruence.
Qed.

(** X20. Whatever the public operations return can be listed: the books
    of a result of [search_books] or [get_author_books], and the authors
    of a result of [search_authors], all have a title or a name, so the
    list keyboards build every page of them without raising. *)
Theorem X20_results_can_be_listed (env : Env) (cb : option Callback)
    (t : Trace) :
  (forall query page res t',
      search_books env query page cb t = (Ok (Some res), t') ->
      Forall titled (items res) /\
      forall p total callback_prefix, exists keyboard,
        create_book_list_keyboard (items res) p total callback_prefix
          = Ok keyboard) /\
  (forall author page res t',
      get_author_books env author page cb t = (Ok (Some res), t') ->
      Forall titled (items res) /\
      forall p total callback_prefix, exists keyboard,
        create_book_list_keyboard (items res) p total callback_prefix
          = Ok keyboard) /\
  (forall query page res t',
      search_authors env query page cb t = (Ok (Some res), t') ->
      Forall named (items res) /\
      forall p total, exists keyboard,
        create_author_list_keyboard (items res) p total = Ok keyboard).
Proof.
  assert (Hbooks : forall books, Forall titled books ->
            forall p total callback_prefix, exists keyboard,
              create_book_list_keyboard books p total callback_prefix
                = Ok keyboard).
  { intros books Hb p total callback_prefix.
    unfold create_book_list_keyboard.
    destruct (rows_of_ok (book_row callback_prefix)
                (book_item callback_prefix) (page_items books p))
      as (rows & Hrows & _).
    { eapply Forall_impl; [apply page_items_Forall, Hb|].
      intros b. apply book_row_item. }
    rewrite Hrows. eauto. }
  split; [|split].
  - intros query page res t' H. apply search_books_titled in H. eauto.
  - intros author page res t' H. apply get_author_books_titled in H. eauto.
  - intros query page res t' H. apply search_authors_named in H.
    split; [exact H|]. intros p total.
    unfold create_author_list_keyboard.
    destruct (rows_of_ok author_row author_item (page_items (items res) p))
      as (rows & Hrows & _).
    { eapply Forall_impl; [apply page_items_Forall, H|].
      intros a. apply author_row_item. }
    rewrite Hrows. eauto.
Qed.

(** The books found on the sample page fill a keyboard. *)
Lemma X20_results_can_be_listed_witness :
  exists res t' keyboard,
    search_books env_html "x" 0 None [] = (Ok (Some res), t') /\
    create_book_list_keyboard (items res) 0 3 "book" = Ok keyboard.
Proof.
  set (run := search_books env_html "x" 0 None []).
  set (res := match fst run with
              | Ok (Some r) => r
              | _ => new_SearchResult [] false EmptyString
              end).
  assert (Hrun : run = (Ok (Some res), snd run)) by (vm_compute; reflexivity).
  destruct (proj1 (X20_results_can_be_listed env_html None [])
              "x" 0 res (snd run) Hrun) as [_ Hk].
  destruct (Hk 0 3 "book") as [keyboard Hkb].
  exists res, (snd run), keyboard. split; [exact Hrun | exact Hkb].
Defined.

(** ** Cleaning of anchor texts *)

Lemma remove_tag_plain s :
  all_chars plain_char s = true -> Re.remove Re.tag s = s.
Proof.
  unfold Re.remove. induction s as [|a s IH]; [reflexivity|].
  cbn [all_chars]. intros H. apply andb_prop in H as [Ha Hs].
  cbn [Re.remove_go Re.tag Re.exec String.prefix].
  destruct (ascii_dec "<" a) as [<-|_]; [discriminate|].
  now rewrite IH.
Qed.

Lemma replace_entity_plain rest new s :
  all_chars plain_char s = true ->
  Py.replace (String "&" rest) new s = s.
Proof.
  unfold Py.replace. induction s as [|a s IH]; [reflexivity|].
  cbn [all_chars]. intros H. apply andb_prop in H as [Ha Hs].
  cbn [Py.replace_go String.prefix].
  destruct (ascii_dec "&" a) as [<-|_]; [discriminate|].
  now rewrite IH.
Qed.

(** What [lstrip] leaves is the end of the list and starts with a
    character that is not white space. *)
Lemma lstrip_suffix (space : string -> bool) l :
  exists p, l = p ++ Py.lstrip space l.
Proof.
  induction l as [|c l [p IH]]; [now exists []|].
  cbn [Py.lstrip]. destruct (space c); [|now exists []].
  exists (c :: p). simpl. now rewrite <- IH.
Qed.

Lemma lstrip_head (space : string -> bool) l c cs :
  Py.lstrip space l = c :: cs -> space c = false.
Proof.
  induction l as [|x l IH]; [discriminate|].
  cbn [Py.lstrip]. destruct (space x) eqn:E; [exact IH|].
  intros H; inversion H; subst. exact E.
Qed.

(** What [rstrip] leaves is the start of the list and ends with a
    character that is not white space. *)
Lemma rstrip_prefix (space : string -> bool) l :
  exists q, l = Py.rstrip space l ++ q.
Proof.
  induction l as [|c l [q IH]]; [now exists []|].
  cbn [Py.rstrip]. destruct (Py.rstrip space l) as [|y r].
  - destruct (space c); [now exists (c :: l)|].
    exists l. reflexivity.
  - exists q. simpl. f_equal. exact IH.
Qed.

Lemma rstrip_last (space : string -> bool) l cs c :
  Py.rstrip space l = cs ++ [c] -> space c = false.
Proof.
  revert cs. induction l as [|x l IH]; intros cs.
  - destruct cs; discriminate.
  - cbn [Py.rstrip]. destruct (Py.rstrip space l) as [|y r].
    + destruct (space x) eqn:E; [destruct cs; discriminate|].
      destruct cs as [|z cs]; [intros H; inversion H; subst; exact E|].
      destruct cs; discriminate.
    + destruct cs as [|z cs]; [discriminate|].
      intros H. inversion H; subst. now apply (IH cs).
Qed.

(** The characters of a stripped text. *)
Lemma chars_strip (space : string -> bool) s :
  Py.chars (Py.strip space s)
    = Py.rstrip space (Py.lstrip space (Py.chars s)).
Proof.
  unfold Py.strip. apply chars_join.
  destruct (lstrip_suffix space (Py.chars s)) as [p Hp].
  destruct (rstrip_prefix space (Py.lstrip space (Py.chars s))) as [q Hq].
  pose proof (chars_regular s) as H. rewrite Hp, Hq in H.
  apply regular_app in H as [_ H]. now apply regular_app in H.
Qed.

Lemma strip_trimmed u s : trimmed u (Py.strip (isspace u) s).
Proof.
  unfold trimmed. rewrite chars_strip. split.
  - intros c cs H.
    destruct (rstrip_prefix (isspace u)
                (Py.lstrip (isspace u) (Py.chars s))) as [q Hq].
    rewrite H in Hq. now apply lstrip_head in Hq.
  - intros cs c H. now apply rstrip_last in H.
Qed.

(** X21. A cleaned anchor text never starts or ends with a character of
    white space, and cleaning a text that holds neither [<] nor [&] only
    strips it. *)
Theorem X21_clean_html_trims (u : Unicode) (text : string) :
  trimmed u (_clean_html u text) /\
  (all_chars plain_char text = true ->
   _clean_html u text = Py.strip (isspace u) text).
Proof.
  split; [apply strip_trimmed|].
  intros H. unfold _clean_html.
  rewrite (remove_tag_plain text H).
  rewrite (replace_entity_plain "lt;" "<" text H).
  rewrite (replace_entity_plain "gt;" ">" text H).
  rewrite (replace_entity_plain "amp;" "&" text H).
  rewrite (replace_entity_plain "nbsp;" " " text H).
  now rewrite (replace_entity_plain "quot;" _ text H).
Qed.

Lemma X21_clean_html_trims_witness :
  all_chars plain_char "  War and Peace " = true /\
  _clean_html Basic.unicode "  War and Peace " = "War and Peace".
Proof.
  split; [reflexivity|].
  rewrite (proj2 (X21_clean_html_trims Basic.unicode "  War and Peace "));
    reflexivity.
Defined.
